(** * n8n workflow summarizer: a shallow embedding of [summarize_workflow]

    The program under study is [src/workflow_summarizer_mcp.py].  Its only
    operation, [summarize_workflow], loads an n8n workflow export, classifies
    its nodes, extracts prompts, possibly reduces the document, builds a
    prompt, calls a chat-completion API (with one fallback attempt) and
    writes the answer to a Markdown file.

    Conventions of the embedding.
    - A Python [str] is a Rocq [string]; each character stands for the code
      point of the same number, so the model covers text whose code points
      are below 256.
    - A decoded JSON document is a value of [json].  A Python [dict] with
      [str] keys is an association list in insertion order; a list stands
      for a dict when its keys are pairwise distinct.
    - A Python float is represented by the text [json.dumps] prints for it.
    - Exceptions that leave [summarize_workflow] are values of [exn];
      exceptions caught inside it carry the text of [str(e)].
    - The file system, the environment, the clock and the completion API are
      the fields of a [world]; every call the program issues to the API or
      to the output file is recorded in a trace of [event]s.
    - The optional observer [ctx] only receives log lines and progress
      fractions and never changes the flow; it is left out. *)

From Stdlib Require Import ZArith List String Ascii Bool Lia DecimalString.
Import ListNotations.

Set Warnings "-register-all,-abstract-large-number".

Local Open Scope list_scope.
Local Open Scope string_scope.
Local Open Scope Z_scope.

(** ** Fragments of the Python runtime used by the program *)

Module Py.

(** One-character string for a code point. *)
Definition chr (n : nat) : string := String (ascii_of_nat n) EmptyString.

Definition nl : string := chr 10.
Definition dquote : string := chr 34.
Definition squote : string := chr 39.
Definition backslash : string := chr 92.

(** [str.lower()] on code points below 256: the ASCII capitals and the
    Latin-1 capitals U+00C0..U+00DE (U+00D7, the multiplication sign, is not
    a letter) move up by 32; everything else is unchanged. *)
Definition lower_char (c : ascii) : ascii :=
  let n := nat_of_ascii c in
  if ((65 <=? n) && (n <=? 90) ||
      (192 <=? n) && (n <=? 222) && negb (n =? 215))%nat
  then ascii_of_nat (n + 32) else c.

Fixpoint lower (s : string) : string :=
  match s with
  | EmptyString => EmptyString
  | String c r => String (lower_char c) (lower r)
  end.

(** [needle in hay] for two [str] values: substring test. *)
Fixpoint str_in (needle hay : string) : bool :=
  if prefix needle hay then true
  else match hay with
       | EmptyString => false
       | String _ r => str_in needle r
       end.

(** [sep.join(parts)]. *)
Fixpoint join (sep : string) (parts : list string) : string :=
  match parts with
  | [] => ""
  | p :: rest =>
      match rest with
      | [] => p
      | _ :: _ => p ++ sep ++ join sep rest
      end
  end.

(** [c * n] for a string [c]. *)
Fixpoint repeat_str (c : string) (n : nat) : string :=
  match n with
  | O => ""
  | S k => c ++ repeat_str c k
  end.

(** [str(z)] for an [int]. *)
Definition str_of_int (z : Z) : string := NilZero.string_of_int (Z.to_int z).

(** [len(s)] for a [str]. *)
Definition len_str (s : string) : Z := Z.of_nat (String.length s).

(** *** Decoded JSON values *)

Inductive json : Type :=
| JNull
| JBool (b : bool)
| JInt (z : Z)
| JFloat (text : string)
| JStr (s : string)
| JArr (items : list json)
| JObj (members : list (string * json)).

(** *** Exceptions and fallible computations *)

(** [LoadError]: the input file cannot be opened or is not valid JSON.
    [ShapeError]: the [AttributeError], [TypeError] or [KeyError] Python
    raises when an operation meets a value of a JSON type it does not
    support (for instance [.get] on a list, [len] of a number). *)
Inductive exn : Type :=
| LoadError
| ShapeError.

Inductive result (A : Type) : Type :=
| Ok (a : A)
| Raise (e : exn).

Arguments Ok {A} a.
Arguments Raise {A} e.

Definition bind {A B : Type} (m : result A) (k : A -> result B) : result B :=
  match m with
  | Ok a => k a
  | Raise e => Raise e
  end.

Notation "x <- m ;; k" := (bind m (fun x => k))
  (at level 61, m at next level, right associativity).
Notation "' p <- m ;; k" := (bind m (fun p => k))
  (at level 61, p pattern, m at next level, right associativity).

(** *** Dictionaries with [str] keys, in insertion order *)

Definition dict (V : Type) : Type := list (string * V).

Fixpoint dict_get {V : Type} (k : string) (d : dict V) : option V :=
  match d with
  | [] => None
  | (k', v) :: rest => if String.eqb k' k then Some v else dict_get k rest
  end.

(** [d.get(k, default)]. *)
Definition dict_get_default {V : Type} (k : string) (d : dict V) (default : V) : V :=
  match dict_get k d with
  | Some v => v
  | None => default
  end.

(** [k in d]. *)
Definition dict_mem {V : Type} (k : string) (d : dict V) : bool :=
  match dict_get k d with
  | Some _ => true
  | None => false
  end.

(** [d[k] = v]: an existing key keeps its place, a new key goes last. *)
Fixpoint dict_set {V : Type} (k : string) (v : V) (d : dict V) : dict V :=
  match d with
  | [] => [(k, v)]
  | (k', v') :: rest =>
      if String.eqb k' k then (k, v) :: rest else (k', v') :: dict_set k v rest
  end.

(** [del d[k]] for a key that is present. *)
Definition dict_del {V : Type} (k : string) (d : dict V) : dict V :=
  filter (fun kv => negb (String.eqb (fst kv) k)) d.

Definition dict_keys {V : Type} (d : dict V) : list string := map fst d.

(** *** Operations on values of unknown JSON type *)

(** [x.get(k, default)]: only a dict has [.get]. *)
Definition py_get (x : json) (k : string) (default : json) : result json :=
  match x with
  | JObj d => Ok (dict_get_default k d default)
  | _ => Raise ShapeError
  end.

(** [x.lower()]: only a str has [.lower]. *)
Definition py_lower (x : json) : result string :=
  match x with
  | JStr s => Ok (lower s)
  | _ => Raise ShapeError
  end.

(** [len(x)]: defined on str, list and dict. *)
Definition py_len (x : json) : result Z :=
  match x with
  | JStr s => Ok (len_str s)
  | JArr l => Ok (Z.of_nat (List.length l))
  | JObj d => Ok (Z.of_nat (List.length d))
  | _ => Raise ShapeError
  end.

(** The items a [for] loop over [x] visits: the elements of a list, the
    characters of a str, the keys of a dict. *)
Definition py_iter (x : json) : result (list json) :=
  match x with
  | JArr l => Ok l
  | JStr s => Ok (map (fun c => JStr (String c EmptyString)) (list_ascii_of_string s))
  | JObj d => Ok (map JStr (dict_keys d))
  | _ => Raise ShapeError
  end.

(** Truth value of [x] in a condition. *)
Definition py_truthy (x : json) : bool :=
  match x with
  | JNull => false
  | JBool b => b
  | JInt z => negb (z =? 0)
  | JFloat t => negb (String.eqb t "0.0" || String.eqb t "-0.0")
  | JStr s => negb (String.eqb s "")
  | JArr l => match l with [] => false | _ :: _ => true end
  | JObj d => match d with [] => false | _ :: _ => true end
  end.

(** [k in x] for a str [k]: key of a dict, element of a list, substring of
    a str. *)
Definition py_contains (k : string) (x : json) : result bool :=
  match x with
  | JObj d => Ok (dict_mem k d)
  | JArr l => Ok (existsb (fun e => match e with
                                    | JStr s => String.eqb s k
                                    | _ => false
                                    end) l)
  | JStr s => Ok (str_in k s)
  | _ => Raise ShapeError
  end.

(** [x[k]] for a str [k]: only a dict can be indexed by a str. *)
Definition py_getitem (x : json) (k : string) : result json :=
  match x with
  | JObj d => match dict_get k d with
              | Some v => Ok v
              | None => Raise ShapeError
              end
  | _ => Raise ShapeError
  end.

(** [x[:n]] for [0 <= n]: a list or a str can be sliced. *)
Definition py_slice_to (x : json) (n : Z) : result json :=
  match x with
  | JArr l => Ok (JArr (firstn (Z.to_nat n) l))
  | JStr s => Ok (JStr (substring 0 (Z.to_nat n) s))
  | _ => Raise ShapeError
  end.

(** *** [json.dumps] *)

Definition hex_digit (n : nat) : string :=
  chr (if (n <? 10)%nat then 48 + n else 87 + n).

Definition hex2 (n : nat) : string :=
  hex_digit (Nat.div n 16) ++ hex_digit (Nat.modulo n 16).

(** One character inside a JSON string literal with [ensure_ascii=True]. *)
Definition json_escape_char (c : ascii) : string :=
  let n := nat_of_ascii c in
  if (n =? 34)%nat then backslash ++ dquote
  else if (n =? 92)%nat then backslash ++ backslash
  else if (n =? 10)%nat then backslash ++ "n"
  else if (n =? 13)%nat then backslash ++ "r"
  else if (n =? 9)%nat then backslash ++ "t"
  else if (n =? 8)%nat then backslash ++ "b"
  else if (n =? 12)%nat then backslash ++ "f"
  else if ((32 <=? n) && (n <=? 126))%nat then String c EmptyString
  else backslash ++ "u00" ++ hex2 n.

Fixpoint json_escape (s : string) : string :=
  match s with
  | EmptyString => EmptyString
  | String c r => json_escape_char c ++ json_escape r
  end.

Definition json_string (s : string) : string := dquote ++ json_escape s ++ dquote.

(** [json.dumps(j)]: separators [", "] and [": "], no line breaks. *)
Fixpoint json_dumps (j : json) : string :=
  match j with
  | JNull => "null"
  | JBool true => "true"
  | JBool false => "false"
  | JInt z => str_of_int z
  | JFloat t => t
  | JStr s => json_string s
  | JArr l => "[" ++ join ", " (map json_dumps l) ++ "]"
  | JObj d =>
      "{" ++ join ", " (map (fun kv => json_string (fst kv) ++ ": " ++ json_dumps (snd kv)) d)
          ++ "}"
  end.

(** Line break followed by the indentation of nesting depth [level]. *)
Definition newline_indent (level : nat) : string := nl ++ repeat_str "  " level.

(** [json.dumps(j, indent=2)] at nesting depth [level]. *)
Fixpoint json_dumps_indent (level : nat) (j : json) : string :=
  match j with
  | JNull => "null"
  | JBool true => "true"
  | JBool false => "false"
  | JInt z => str_of_int z
  | JFloat t => t
  | JStr s => json_string s
  | JArr l =>
      match l with
      | [] => "[]"
      | _ :: _ =>
          "[" ++ newline_indent (S level)
              ++ join ("," ++ newline_indent (S level)) (map (json_dumps_indent (S level)) l)
              ++ newline_indent level ++ "]"
      end
  | JObj d =>
      match d with
      | [] => "{}"
      | _ :: _ =>
          "{" ++ newline_indent (S level)
              ++ join ("," ++ newline_indent (S level))
                   (map (fun kv => json_string (fst kv) ++ ": "
                                     ++ json_dumps_indent (S level) (snd kv)) d)
              ++ newline_indent level ++ "}"
      end
  end.

Definition json_dumps_indent2 (j : json) : string := json_dumps_indent 0 j.

(** *** [str(x)] and [repr(x)], as used by an f-string field *)

(** One character of [repr(s)] for a str [s] quoted with the character of
    code [quote].  Code points below 256 that are not printable are
    U+0000..U+001F, U+007F..U+00A0 and U+00AD. *)
Definition repr_char (quote : nat) (c : ascii) : string :=
  let n := nat_of_ascii c in
  if ((n =? quote) || (n =? 92))%nat then backslash ++ String c EmptyString
  else if (n =? 9)%nat then backslash ++ "t"
  else if (n =? 10)%nat then backslash ++ "n"
  else if (n =? 13)%nat then backslash ++ "r"
  else if ((n <? 32) || (127 <=? n) && (n <=? 160) || (n =? 173))%nat
       then backslash ++ "x" ++ hex2 n
  else String c EmptyString.

Fixpoint repr_chars (quote : nat) (s : string) : string :=
  match s with
  | EmptyString => EmptyString
  | String c r => repr_char quote c ++ repr_chars quote r
  end.

(** [repr(s)]: single quotes, unless [s] has a single quote and no double
    quote. *)
Definition repr_str (s : string) : string :=
  if str_in squote s && negb (str_in dquote s)
  then dquote ++ repr_chars 34 s ++ dquote
  else squote ++ repr_chars 39 s ++ squote.

(** [repr(f)] of a float from the text [json.dumps] prints for it. *)
Definition repr_float (text : string) : string :=
  if String.eqb text "NaN" then "nan"
  else if String.eqb text "Infinity" then "inf"
  else if String.eqb text "-Infinity" then "-inf"
  else text.

Fixpoint py_repr (j : json) : string :=
  match j with
  | JNull => "None"
  | JBool true => "True"
  | JBool false => "False"
  | JInt z => str_of_int z
  | JFloat t => repr_float t
  | JStr s => repr_str s
  | JArr l => "[" ++ join ", " (map py_repr l) ++ "]"
  | JObj d =>
      "{" ++ join ", " (map (fun kv => repr_str (fst kv) ++ ": " ++ py_repr (snd kv)) d) ++ "}"
  end.

(** [str(x)]: a str is itself, any other value prints as its [repr]. *)
Definition py_str (j : json) : string :=
  match j with
  | JStr s => s
  | _ => py_repr j
  end.

(** *** [pathlib.Path(p).stem] on POSIX paths *)

(** [s.split("/")]: [cur] holds the characters of the piece being read. *)
Fixpoint split_slash (s : string) (cur : string) : list string :=
  match s with
  | EmptyString => [cur]
  | String c r =>
      if Ascii.eqb c "/"%char then cur :: split_slash r ""
      else split_slash r (cur ++ String c EmptyString)
  end.

(** The components of a path: empty pieces and ["."] pieces are dropped. *)
Definition path_parts (p : string) : list string :=
  filter (fun c => negb (String.eqb c "" || String.eqb c ".")) (split_slash p "").

(** [Path(p).name]: the last component, or the empty string. *)
Definition path_name (p : string) : string := last (path_parts p) "".

(** [s.rfind(".")] as the number of characters before the last dot. *)
Fixpoint rfind_dot (s : string) (pos : nat) (found : option nat) : option nat :=
  match s with
  | EmptyString => found
  | String c r =>
      rfind_dot r (S pos) (if Ascii.eqb c "."%char then Some pos else found)
  end.

(** [Path(p).stem] (pathlib up to Python 3.13): the name without its last
    suffix; a leading or a trailing dot does not start a suffix. *)
Definition path_stem (p : string) : string :=
  let name := path_name p in
  match rfind_dot name 0 None with
  | Some i =>
      if ((0 <? i) && (i <? String.length name - 1))%nat
      then substring 0 i name else name
  | None => name
  end.

(** A path is absolute when it starts with a slash. *)
Definition path_is_absolute (p : string) : bool := prefix "/" p.

(** The components of the file a path names, for a process whose current
    directory has the components [cwd]. *)
Definition path_resolve (cwd : list string) (p : string) : list string :=
  if path_is_absolute p then path_parts p else (cwd ++ path_parts p)%list.

(** The directory holding a resolved file. *)
Definition path_dir (resolved : list string) : list string := removelast resolved.

End Py.

(** ** The world around one invocation *)

Module World.
Import Py.

(** What reading and parsing the input file gives: a decoded document, a
    [UnicodeDecodeError], or any other failure (missing file, invalid
    JSON). *)
Inductive load_result : Type :=
| Loaded (doc : json)
| DecodeError
| LoadFailed.

Record message : Type := {
  role : string;
  content : string
}.

(** The arguments of one [client.chat.completions.create] call, with the key
    the client was built from.  The float [0.7] is kept as its literal. *)
Record request : Type := {
  api_key : string;
  model : string;
  messages : list message;
  max_tokens : option Z;
  max_completion_tokens : option Z;
  temperature : option string
}.

Record world : Type := {
  (** [open(path, "r", encoding="utf-8")] followed by [json.load] *)
  read_json_utf8 : string -> load_result;
  (** the same with [encoding="latin-1"] *)
  read_json_latin1 : string -> load_result;
  (** [datetime.datetime.now().strftime("%Y-%m-%d %H:%M:%S")] *)
  now : string;
  (** [os.environ.get] *)
  environ_get : string -> option string;
  (** the completion call followed by [response.choices[0].message.content]:
      the content, or the text of the exception *)
  chat_completions_create : request -> string + string;
  (** [open(path, "w", encoding=enc)] followed by [f.write(text)]: [None]
      when it succeeds, the text of the exception otherwise *)
  write_file : string -> string -> string -> option string
}.

(** The calls an invocation issues to the outside, in order. *)
Inductive event : Type :=
| ApiCall (r : request)
| FileWrite (path encoding text : string).

(** How an invocation ends: with a returned str, or with an exception that
    reaches the caller. *)
Inductive outcome : Type :=
| Returned (s : string)
| Raised (e : exn).

End World.

(** ** The pipeline of [summarize_workflow] *)

Module Summarizer.
Import Py World.

(** Lines 39-46: load the workflow JSON, retrying with latin-1 after a
    [UnicodeDecodeError]. *)
Definition load_workflow (w : world) (workflow_path : string) : result json :=
  match read_json_utf8 w workflow_path with
  | Loaded workflow_json => Ok workflow_json
  | DecodeError =>
      match read_json_latin1 w workflow_path with
      | Loaded workflow_json => Ok workflow_json
      | _ => Raise LoadError
      end
  | LoadFailed => Raise LoadError
  end.

(** Lines 63-66: the histogram of node types.  A type that is not a str
    either cannot be a dict key (line 66) or has no [.lower] (line 73);
    both exceptions leave the function before it has any effect, so the
    model raises as soon as it meets such a type. *)
Fixpoint count_node_types (nodes : list json) (node_types : dict Z) : result (dict Z) :=
  match nodes with
  | [] => Ok node_types
  | node :: rest =>
      node_type <- py_get node "type" (JStr "unknown") ;;
      match node_type with
      | JStr t =>
          count_node_types rest (dict_set t (dict_get_default t node_types 0 + 1) node_types)
      | _ => Raise ShapeError
      end
  end.

(** Lines 73-76: the condition of the AI sum. *)
Definition is_ai_type (type_ : string) : bool :=
  str_in "openai" (lower type_) || str_in "ai" (lower type_)
  || str_in "gpt" (lower type_) || str_in "llm" (lower type_)
  || str_in "agent" (lower type_) || str_in "anthropic" (lower type_)
  || str_in "langchain" (lower type_).

(** Lines 79-81: the condition of the database sum. *)
Definition is_db_type (type_ : string) : bool :=
  str_in "postgres" (lower type_) || str_in "mysql" (lower type_)
  || str_in "database" (lower type_) || str_in "sql" (lower type_)
  || str_in "mongo" (lower type_) || str_in "supabase" (lower type_).

(** [sum(count for type_, count in node_types.items() if cond(type_))]. *)
Definition sum_counts (cond : string -> bool) (node_types : dict Z) : Z :=
  fold_left Z.add (map snd (filter (fun item => cond (fst item)) node_types)) 0.

(** Lines 72-76. *)
Definition count_ai_nodes (node_types : dict Z) : Z := sum_counts is_ai_type node_types.

(** Lines 78-81. *)
Definition count_db_nodes (node_types : dict Z) : Z := sum_counts is_db_type node_types.

(** Line 91: is the node one whose prompts are read? *)
Definition is_prompt_node (node : json) : result bool :=
  node_type <- py_get node "type" (JStr "") ;;
  lowered <- py_lower node_type ;;
  Ok (str_in "agent" lowered || str_in "openai" lowered).

(** Lines 96 and 98: [p and len(p) > 10]. *)
Definition is_long_prompt (p : json) : result bool :=
  if py_truthy p then (n <- py_len p ;; Ok (10 <? n)) else Ok false.

(** Lines 87-99: the prompts of agent nodes, appended in node order. *)
Fixpoint extract_prompts (nodes : list json) (user_prompts system_prompts : list json)
  : result (list json * list json) :=
  match nodes with
  | [] => Ok (user_prompts, system_prompts)
  | node :: rest =>
      inspected <- is_prompt_node node ;;
      if inspected then
        parameters <- py_get node "parameters" (JObj []) ;;
        system_prompt <- py_get parameters "systemPrompt" (JStr "") ;;
        user_prompt <- py_get parameters "text" (JStr "") ;;
        keep_system <- is_long_prompt system_prompt ;;
        keep_user <- is_long_prompt user_prompt ;;
        extract_prompts rest
          (if keep_user then (user_prompts ++ [user_prompt])%list else user_prompts)
          (if keep_system then (system_prompts ++ [system_prompt])%list else system_prompts)
      else extract_prompts rest user_prompts system_prompts
  end.

(** What lines 52-99 compute from the document. *)
Record analysis : Type := {
  workflow_title : json;
  nodes : list json;
  node_count : Z;
  node_types : dict Z;
  ai_nodes : Z;
  db_nodes : Z;
  user_prompts : list json;
  system_prompts : list json
}.

(** Lines 52-99. *)
Definition analyse (workflow_json : json) : result analysis :=
  title <- py_get workflow_json "name" (JStr "Untitled Workflow") ;;
  nodes_value <- py_get workflow_json "nodes" (JArr []) ;;
  count <- py_len nodes_value ;;
  node_list <- py_iter nodes_value ;;
  types <- count_node_types node_list [] ;;
  ' (users, systems) <- extract_prompts node_list [] [] ;;
  Ok {| workflow_title := title;
        nodes := node_list;
        node_count := count;
        node_types := types;
        ai_nodes := count_ai_nodes types;
        db_nodes := count_db_nodes types;
        user_prompts := users;
        system_prompts := systems |}.

(** Line 120-126: [len(json.dumps(workflow_json)) // 4]. *)
Definition estimated_tokens (workflow_json : json) : Z :=
  len_str (json_dumps workflow_json) / 4.

(** Line 149. *)
Definition important_params : list string :=
  ["text"; "systemPrompt"; "operation"; "table"; "query"].

(** Line 159. *)
Definition keys_to_remove : list string :=
  ["pinData"; "connections"; "settings"; "staticData"].

(** Lines 150-152: copy the parameters named in [params] that are present. *)
Fixpoint keep_params (params : list string) (parameters : json) (kept : dict json)
  : result (dict json) :=
  match params with
  | [] => Ok kept
  | param :: rest =>
      present <- py_contains param parameters ;;
      if present then
        value <- py_getitem parameters param ;;
        keep_params rest parameters (dict_set param value kept)
      else keep_params rest parameters kept
  end.

(** Lines 140-152: one simplified node. *)
Definition simplify_node (node : json) : result json :=
  name <- py_get node "name" (JStr "") ;;
  type_ <- py_get node "type" (JStr "") ;;
  position <- py_get node "position" (JArr []) ;;
  parameters <- py_get node "parameters" (JObj []) ;;
  kept <- keep_params important_params parameters [] ;;
  Ok (JObj [("name", name); ("type", type_); ("parameters", JObj kept);
            ("position", position)]).

(** Lines 138-154. *)
Fixpoint simplify_nodes (nodes : list json) : result (list json) :=
  match nodes with
  | [] => Ok []
  | node :: rest =>
      simplified_node <- simplify_node node ;;
      simplified_rest <- simplify_nodes rest ;;
      Ok (simplified_node :: simplified_rest)
  end.

(** Lines 159-162. *)
Definition remove_keys (keys : list string) (workflow : dict json) : dict json :=
  fold_left (fun acc key => if dict_mem key acc then dict_del key acc else acc)
            keys workflow.

(** Lines 138-162: the simplified copy of the workflow. *)
Definition simplify_workflow (workflow : dict json) (nodes : list json)
  : result (dict json) :=
  simplified_nodes <- simplify_nodes nodes ;;
  Ok (remove_keys keys_to_remove (dict_set "nodes" (JArr simplified_nodes) workflow)).

(** Lines 131-171: the value of [simplified_workflow] after the branch.
    When the branch is taken [workflow_json] is rebound to the same value
    (line 171); when it is not, [simplified_workflow] is a copy of
    [workflow_json]: either way both names hold this value afterwards. *)
Definition size_reducer (workflow_json : json) (nodes : list json) : result json :=
  match workflow_json with
  | JObj workflow =>
      if 12000 <? estimated_tokens workflow_json then
        simplified <- simplify_workflow workflow nodes ;;
        Ok (JObj simplified)
      else Ok (JObj workflow)
  | _ => Raise ShapeError
  end.

(** A histogram as a JSON object, for [json.dumps]. *)
Definition json_of_node_types (node_types : dict Z) : json :=
  JObj (map (fun item => (fst item, JInt (snd item))) node_types).

(** Lines 174-197: the prompt of the primary attempt. *)
Definition build_prompt (a : analysis) (workflow_json : json) (timestamp : string) : string :=
  nl ++
  "    You are a workflow analysis expert. Analyze this n8n workflow JSON and provide a detailed summary." ++ nl ++
  "    " ++ nl ++
  "    Here's the workflow information:" ++ nl ++
  "    Title: " ++ py_str (workflow_title a) ++ nl ++
  "    Number of Nodes: " ++ str_of_int (node_count a) ++ nl ++
  "    Node Types: " ++ json_dumps_indent2 (json_of_node_types (node_types a)) ++ nl ++
  "    AI/Agent Nodes: " ++ str_of_int (ai_nodes a) ++ nl ++
  "    Database Nodes: " ++ str_of_int (db_nodes a) ++ nl ++
  "    " ++ nl ++
  "    User Prompts Found: " ++ json_dumps_indent2 (JArr (user_prompts a)) ++ nl ++
  "    System Prompts Found: " ++ json_dumps_indent2 (JArr (system_prompts a)) ++ nl ++
  "    " ++ nl ++
  "    Full Workflow JSON: " ++ json_dumps_indent2 workflow_json ++ nl ++
  "    " ++ nl ++
  "    Please provide a summary with the following sections:" ++ nl ++
  "    1) STRUCTURED SUMMARY: Basic workflow metadata in bullet points" ++ nl ++
  "    2) CURRENT TIMESTAMP: When this analysis was performed (" ++ timestamp ++ ")" ++ nl ++
  "    3) DETAILED STEP-BY-STEP EXPLANATION (MARKDOWN): How the workflow functions" ++ nl ++
  "    4) AGENT SYSTEM PROMPTS AND USER PROMPTS: Any prompts used in agent/AI nodes" ++ nl ++
  "    5) A PYTHON FUNCTION THAT REPLICATES THE WORKFLOW: Conceptual Python code that would perform similar operations" ++ nl ++
  "    " ++ nl ++
  "    Format the response in Markdown." ++ nl ++
  "    ".

(** Line 250: the fixed fallback model. *)
Definition fallback_model : string := "gpt-3.5-turbo-16k".

(** Lines 256-261: the payload of the fallback attempt. *)
Definition super_simplify (a : analysis) (simplified_workflow : json) : result json :=
  simplified_nodes <- py_get simplified_workflow "nodes" (JArr []) ;;
  n <- py_len simplified_nodes ;;
  first_nodes <- py_slice_to simplified_nodes (Z.min 20 n) ;;
  Ok (JObj [("name", workflow_title a);
            ("node_count", JInt (node_count a));
            ("node_types", json_of_node_types (node_types a));
            ("nodes", first_nodes)]).

(** Lines 264-279: the prompt of the fallback attempt. *)
Definition build_fallback_prompt (a : analysis) (super_simplified : json)
    (timestamp : string) : string :=
  nl ++
  "            Analyze this simplified n8n workflow and provide a summary:" ++ nl ++
  "            " ++ nl ++
  "            Title: " ++ py_str (workflow_title a) ++ nl ++
  "            Number of Nodes: " ++ str_of_int (node_count a) ++ nl ++
  "            Node Types: " ++ json_dumps_indent2 (json_of_node_types (node_types a)) ++ nl ++
  "            " ++ nl ++
  "            Simplified JSON: " ++ json_dumps_indent2 super_simplified ++ nl ++
  "            " ++ nl ++
  "            Format as markdown with these sections:" ++ nl ++
  "            1. Basic summary and stats" ++ nl ++
  "            2. Current timestamp (" ++ timestamp ++ ")" ++ nl ++
  "            3. Step-by-step explanation" ++ nl ++
  "            4. Found prompts" ++ nl ++
  "            5. Example Python function" ++ nl ++
  "            ".

(** Lines 210-224: the arguments of the primary call. *)
Definition primary_request (key model_name prompt : string) : request :=
  if String.eqb model_name "o1" then
    {| api_key := key; model := model_name;
       messages := [{| role := "user"; content := prompt |}];
       max_tokens := None; max_completion_tokens := Some 4000;
       temperature := None |}
  else
    {| api_key := key; model := model_name;
       messages := [{| role := "user"; content := prompt |}];
       max_tokens := Some 4000; max_completion_tokens := None;
       temperature := Some "0.7" |}.

(** Lines 282-287: the arguments of the fallback call. *)
Definition fallback_request (key fallback_prompt : string) : request :=
  {| api_key := key; model := fallback_model;
     messages := [{| role := "user"; content := fallback_prompt |}];
     max_tokens := Some 4000; max_completion_tokens := None;
     temperature := Some "0.7" |}.

(** Line 233 and line 296. *)
Definition output_path (workflow_path : string) : string :=
  path_stem workflow_path ++ "_summary.md".

(** The body of either [try] block (lines 210-241, lines 282-304): call the
    API, then write the summary.  The result is the summary, or the text of
    the exception the block raised. *)
Definition attempt (w : world) (r : request) (workflow_path : string)
  : (string + string) * list event :=
  match chat_completions_create w r with
  | inr e => (inr e, [ApiCall r])
  | inl summary =>
      let path := output_path workflow_path in
      match write_file w path "utf-8" summary with
      | None => (inl summary, [ApiCall r; FileWrite path "utf-8" summary])
      | Some e => (inr e, [ApiCall r; FileWrite path "utf-8" summary])
      end
  end.

(** Lines 108-312, once the document is loaded and analysed. *)
Definition complete (w : world) (workflow_path model_name : string)
    (workflow_json : json) (a : analysis) : outcome * list event :=
  let timestamp := now w in
  match environ_get w "OPENAI_API_KEY" with
  | None => (Returned "OPENAI_API_KEY environment variable not set", [])
  | Some openai_api_key =>
      if String.eqb openai_api_key "" then
        (Returned "OPENAI_API_KEY environment variable not set", [])
      else
        match size_reducer workflow_json (nodes a) with
        | Raise e => (Raised e, [])
        | Ok simplified_workflow =>
            let prompt := build_prompt a simplified_workflow timestamp in
            match attempt w (primary_request openai_api_key model_name prompt)
                          workflow_path with
            | (inl summary, trace) => (Returned summary, trace)
            | (inr e, trace) =>
                let error_message := "Error calling OpenAI API: " ++ e in
                if negb (String.eqb model_name fallback_model) then
                  match super_simplify a simplified_workflow with
                  | Raise e' => (Raised e', trace)
                  | Ok super_simplified =>
                      let fallback_prompt :=
                        build_fallback_prompt a super_simplified timestamp in
                      match attempt w (fallback_request openai_api_key fallback_prompt)
                                    workflow_path with
                      | (inl summary, trace') => (Returned summary, (trace ++ trace')%list)
                      | (inr fallback_error, trace') =>
                          (Returned ("Error with fallback model: " ++ fallback_error),
                           (trace ++ trace')%list)
                      end
                  end
                else (Returned error_message, trace)
            end
        end
  end.

(** [summarize_workflow(workflow_path, model)]: how the call ends, and the
    calls it issued. *)
Definition summarize_workflow (w : world) (workflow_path model_name : string)
  : outcome * list event :=
  match load_workflow w workflow_path with
  | Raise e => (Raised e, [])
  | Ok workflow_json =>
      match analyse workflow_json with
      | Raise e => (Raised e, [])
      | Ok a => complete w workflow_path model_name workflow_json a
      end
  end.

End Summarizer.

(** ** The properties the specification states, in its own words *)

Module Spec.
Import Py World Summarizer.

(** The two keyword sets of the node classifier. *)
Definition ai_keywords : list string :=
  ["openai"; "ai"; "gpt"; "llm"; "agent"; "anthropic"; "langchain"].

Definition db_keywords : list string :=
  ["postgres"; "mysql"; "database"; "sql"; "mongo"; "supabase"].

(** The same sets without the keyword another keyword is a part of. *)
Definition ai_keywords_small : list string :=
  ["ai"; "gpt"; "llm"; "agent"; "anthropic"; "langchain"].

Definition db_keywords_small : list string :=
  ["postgres"; "database"; "sql"; "mongo"; "supabase"].

(** Case-insensitive substring containment. *)
Definition contains_ci (keyword type_ : string) : bool :=
  str_in (lower keyword) (lower type_).

(** The type string contains some keyword of the set. *)
Definition matches_any (keywords : list string) (type_ : string) : bool :=
  existsb (fun keyword => contains_ci keyword type_) keywords.

(** Sum of the counts of the histogram buckets whose type matches. *)
Fixpoint bucket_sum (keywords : list string) (histogram : dict Z) : Z :=
  match histogram with
  | [] => 0
  | (type_, count) :: rest =>
      (if matches_any keywords type_ then count else 0) + bucket_sum keywords rest
  end.

(** The type string the classifier reads from a node. *)
Definition classified_type (node : json) : option string :=
  match node with
  | JObj fields =>
      match dict_get "type" fields with
      | None => Some "unknown"
      | Some (JStr t) => Some t
      | Some _ => None
      end
  | _ => None
  end.

(** Number of the nodes whose type matches some keyword of the set. *)
Fixpoint matching_nodes (keywords : list string) (nodes : list json) : Z :=
  match nodes with
  | [] => 0
  | node :: rest =>
      (match classified_type node with
       | Some t => if matches_any keywords t then 1 else 0
       | None => 0
       end) + matching_nodes keywords rest
  end.

(** A value that has a length. *)
Definition is_sized (v : json) : bool :=
  match v with
  | JStr _ | JArr _ | JObj _ => true
  | _ => false
  end.

(** A prompt value the extractor can test: falsy, or with a length. *)
Definition prompt_ok (v : json) : bool := negb (py_truthy v) || is_sized v.

(** The type string the prompt extractor reads from a node. *)
Definition prompt_type (node : json) : option string :=
  match node with
  | JObj fields =>
      match dict_get "type" fields with
      | None => Some ""
      | Some (JStr t) => Some t
      | Some _ => None
      end
  | _ => None
  end.

(** The nodes the prompt extractor inspects. *)
Definition inspected (node : json) : bool :=
  match prompt_type node with
  | Some t => contains_ci "agent" t || contains_ci "openai" t
  | None => false
  end.

(** The value of parameter [key] of a node, when the node has one. *)
Definition parameter (key : string) (node : json) : option json :=
  match node with
  | JObj fields =>
      match dict_get "parameters" fields with
      | Some (JObj parameters) => dict_get key parameters
      | _ => None
      end
  | _ => None
  end.

(** The length of a value, zero when it has none. *)
Definition size_of (v : json) : Z :=
  match py_len v with
  | Ok n => n
  | Raise _ => 0
  end.

(** The prompts collected under [key]: from the inspected nodes, in node
    order, the values that are present, truthy and longer than 10. *)
Definition collected (key : string) (nodes : list json) : list json :=
  flat_map (fun node =>
              match parameter key node with
              | Some v => if py_truthy v && (10 <? size_of v) then [v] else []
              | None => []
              end)
           (filter inspected nodes).

(** The nodes the extractor accepts: objects whose type, when present, is
    a str and, for the inspected ones, whose parameters, when present, are
    an object with testable [systemPrompt] and [text]. *)
Definition extractable (node : json) : bool :=
  match prompt_type node with
  | None => false
  | Some _ =>
      negb (inspected node) ||
      match node with
      | JObj fields =>
          match dict_get "parameters" fields with
          | None => true
          | Some (JObj parameters) =>
              prompt_ok (dict_get_default "systemPrompt" parameters (JStr ""))
              && prompt_ok (dict_get_default "text" parameters (JStr ""))
          | Some _ => false
          end
      | _ => false
      end
  end.

(** The data model of the specification: a document is an object whose
    [nodes], when present, is an array of node objects; a node's [type],
    when present, is a str, and its [parameters], when present, is an
    object with testable [systemPrompt] and [text]. *)
Definition well_shaped_node (node : json) : bool :=
  match node with
  | JObj fields =>
      match dict_get "type" fields with
      | None | Some (JStr _) => true
      | Some _ => false
      end
      && match dict_get "parameters" fields with
         | None => true
         | Some (JObj parameters) =>
             prompt_ok (dict_get_default "systemPrompt" parameters (JStr ""))
             && prompt_ok (dict_get_default "text" parameters (JStr ""))
         | Some _ => false
         end
  | _ => false
  end.

Definition well_shaped (doc : json) : bool :=
  match doc with
  | JObj fields =>
      match dict_get "nodes" fields with
      | None => true
      | Some (JArr nodes) => forallb well_shaped_node nodes
      | Some _ => false
      end
  | _ => false
  end.

(** Membership of a key in a list of keys. *)
Definition key_in (k : string) (keys : list string) : bool :=
  existsb (String.eqb k) keys.

(** The value is a JSON object. *)
Definition is_object (v : json) : bool :=
  match v with
  | JObj _ => true
  | _ => false
  end.

(** The parameters of a node as a mapping, empty when it has none. *)
Definition parameters_of (node : json) : dict json :=
  match node with
  | JObj fields =>
      match dict_get "parameters" fields with
      | Some (JObj parameters) => parameters
      | _ => []
      end
  | _ => []
  end.

(** A mapping restricted to the keys of [keys] it has, in the order of
    [keys], with its values. *)
Definition restrict (keys : list string) (d : dict json) : dict json :=
  flat_map (fun k => match dict_get k d with
                     | Some v => [(k, v)]
                     | None => []
                     end) keys.

(** The reduced form of a node: name, type, whitelisted parameters and
    position, absent fields replaced by empty values. *)
Definition reduced_node (node : json) : json :=
  match node with
  | JObj fields =>
      JObj [("name", dict_get_default "name" fields (JStr ""));
            ("type", dict_get_default "type" fields (JStr ""));
            ("parameters", JObj (restrict important_params (parameters_of node)));
            ("position", dict_get_default "position" fields (JArr []))]
  | _ => node
  end.

(** The nodes the reducer accepts: objects whose parameters, when present,
    are an object. *)
Definition reducible (node : json) : bool :=
  match node with
  | JObj fields =>
      match dict_get "parameters" fields with
      | None | Some (JObj _) => true
      | Some _ => false
      end
  | _ => false
  end.

(** The [nodes] of the document, when present, is an array. *)
Definition nodes_is_array (doc : json) : bool :=
  match doc with
  | JObj fields =>
      match dict_get "nodes" fields with
      | None | Some (JArr _) => true
      | Some _ => false
      end
  | _ => false
  end.

(** The nodes of a fallback payload. *)
Definition payload_nodes (payload : json) : list json :=
  match payload with
  | JObj fields =>
      match dict_get "nodes" fields with
      | Some (JArr l) => l
      | _ => []
      end
  | _ => []
  end.

(** A node in reduced form: its fields are among name, type, parameters
    and position, and its parameters among the whitelisted ones. *)
Definition is_reduced (node : json) : bool :=
  match node with
  | JObj fields =>
      forallb (fun k => key_in k ["name"; "type"; "parameters"; "position"])
              (dict_keys fields)
      && forallb (fun k => key_in k important_params) (dict_keys (parameters_of node))
  | _ => false
  end.

(** The primary and the fallback request of an invocation. *)
Definition primary_call (w : world) (key model_name : string) (a : analysis)
    (document : json) : request :=
  primary_request key model_name (build_prompt a document (now w)).

Definition fallback_call (w : world) (key : string) (a : analysis)
    (payload : json) : request :=
  fallback_request key (build_fallback_prompt a payload (now w)).

(** The API calls of a trace, and its file writes. *)
Definition api_calls (trace : list event) : list request :=
  flat_map (fun ev => match ev with ApiCall r => [r] | FileWrite _ _ _ => [] end) trace.

Definition file_writes (trace : list event) : list (string * string * string) :=
  flat_map (fun ev => match ev with
                      | ApiCall _ => []
                      | FileWrite path encoding text => [(path, encoding, text)]
                      end) trace.

(** An attempt succeeds with the summary [s]: the API returns [s] and the
    write of [s] to the output file succeeds. *)
Definition succeeds (w : world) (r : request) (workflow_path s : string) : Prop :=
  chat_completions_create w r = inl s /\
  write_file w (output_path workflow_path) "utf-8" s = None.

(** The credential is absent: the variable is unset or empty. *)
Definition credential_missing (w : world) : Prop :=
  environ_get w "OPENAI_API_KEY" = None \/ environ_get w "OPENAI_API_KEY" = Some "".

(** The credential [key] is present. *)
Definition credential (w : world) (key : string) : Prop :=
  environ_get w "OPENAI_API_KEY" = Some key /\ key <> "".

(** The file write of a successful attempt. *)
Definition summary_write (workflow_path s : string) : event :=
  FileWrite (output_path workflow_path) "utf-8" s.

(** The ways an invocation can end, one constructor for each terminal state
    of the pipeline, with the outcome and the calls issued on the way. *)
Inductive ends (w : world) (workflow_path model_name : string)
  : outcome -> list event -> Prop :=
| ends_load_error (e : exn) :
    load_workflow w workflow_path = Raise e ->
    ends w workflow_path model_name (Raised e) []
| ends_analysis_error (doc : json) (e : exn) :
    load_workflow w workflow_path = Ok doc ->
    analyse doc = Raise e ->
    ends w workflow_path model_name (Raised e) []
| ends_missing_credential (doc : json) (a : analysis) :
    load_workflow w workflow_path = Ok doc ->
    analyse doc = Ok a ->
    credential_missing w ->
    ends w workflow_path model_name
         (Returned "OPENAI_API_KEY environment variable not set") []
| ends_reducer_error (doc : json) (a : analysis) (key : string) (e : exn) :
    load_workflow w workflow_path = Ok doc ->
    analyse doc = Ok a ->
    credential w key ->
    size_reducer doc (nodes a) = Raise e ->
    ends w workflow_path model_name (Raised e) []
| ends_primary_success (doc : json) (a : analysis) (key : string) (d : json)
    (s : string) :
    load_workflow w workflow_path = Ok doc ->
    analyse doc = Ok a ->
    credential w key ->
    size_reducer doc (nodes a) = Ok d ->
    succeeds w (primary_call w key model_name a d) workflow_path s ->
    ends w workflow_path model_name (Returned s)
         [ApiCall (primary_call w key model_name a d); summary_write workflow_path s]
| ends_primary_failure (doc : json) (a : analysis) (key : string) (d : json)
    (e : string) (trace : list event) :
    load_workflow w workflow_path = Ok doc ->
    analyse doc = Ok a ->
    credential w key ->
    size_reducer doc (nodes a) = Ok d ->
    attempt w (primary_call w key model_name a d) workflow_path = (inr e, trace) ->
    model_name = fallback_model ->
    ends w workflow_path model_name
         (Returned ("Error calling OpenAI API: " ++ e)) trace
| ends_payload_error (doc : json) (a : analysis) (key : string) (d : json)
    (e : string) (trace : list event) (x : exn) :
    load_workflow w workflow_path = Ok doc ->
    analyse doc = Ok a ->
    credential w key ->
    size_reducer doc (nodes a) = Ok d ->
    attempt w (primary_call w key model_name a d) workflow_path = (inr e, trace) ->
    model_name <> fallback_model ->
    super_simplify a d = Raise x ->
    ends w workflow_path model_name (Raised x) trace
| ends_fallback_success (doc : json) (a : analysis) (key : string) (d : json)
    (e : string) (trace : list event) (payload : json) (s : string) :
    load_workflow w workflow_path = Ok doc ->
    analyse doc = Ok a ->
    credential w key ->
    size_reducer doc (nodes a) = Ok d ->
    attempt w (primary_call w key model_name a d) workflow_path = (inr e, trace) ->
    model_name <> fallback_model ->
    super_simplify a d = Ok payload ->
    succeeds w (fallback_call w key a payload) workflow_path s ->
    ends w workflow_path model_name (Returned s)
         (trace ++ [ApiCall (fallback_call w key a payload);
                    summary_write workflow_path s])%list
| ends_fallback_failure (doc : json) (a : analysis) (key : string) (d : json)
    (e : string) (trace : list event) (payload : json)
    (fe : string) (trace' : list event) :
    load_workflow w workflow_path = Ok doc ->
    analyse doc = Ok a ->
    credential w key ->
    size_reducer doc (nodes a) = Ok d ->
    attempt w (primary_call w key model_name a d) workflow_path = (inr e, trace) ->
    model_name <> fallback_model ->
    super_simplify a d = Ok payload ->
    attempt w (fallback_call w key a payload) workflow_path = (inr fe, trace') ->
    ends w workflow_path model_name
         (Returned ("Error with fallback model: " ++ fe))
         (trace ++ trace')%list.

(** The text has no slash. *)
Fixpoint no_slash (s : string) : bool :=
  match s with
  | EmptyString => true
  | String c r => negb (Ascii.eqb c "/"%char) && no_slash r
  end.

End Spec.

(** ** Sample documents and worlds *)

Module Samples.
Import Py World Summarizer Spec.

(** An HTTP node with a field and a parameter the reducer does not keep. *)
Definition http_node : json :=
  JObj [("id", JStr "n1");
        ("name", JStr "Fetch");
        ("type", JStr "n8n-nodes-base.httpRequest");
        ("parameters", JObj [("url", JStr "https://example.org"); ("operation", JStr "get")]);
        ("position", JArr [JInt 0; JInt 0])].

(** An agent node with a long system prompt and a short user prompt. *)
Definition agent_node : json :=
  JObj [("name", JStr "Agent");
        ("type", JStr "openAiAgent");
        ("parameters",
         JObj [("systemPrompt", JStr "You are a careful assistant for invoices.");
               ("text", JStr "short")]);
        ("position", JArr [JInt 200; JInt 0])].

(** A database node without parameters. *)
Definition mysql_node : json :=
  JObj [("name", JStr "Store"); ("type", JStr "n8n-nodes-base.mySql")].

(** A small workflow. *)
Definition small_doc : json :=
  JObj [("name", JStr "Demo");
        ("nodes", JArr [http_node; agent_node; mysql_node; agent_node]);
        ("connections", JObj []);
        ("active", JBool true)].

Definition small_analysis : analysis :=
  {| workflow_title := JStr "Demo";
     nodes := [http_node; agent_node; mysql_node; agent_node];
     node_count := 4;
     node_types := [("n8n-nodes-base.httpRequest", 1); ("openAiAgent", 2);
                    ("n8n-nodes-base.mySql", 1)];
     ai_nodes := 2;
     db_nodes := 1;
     user_prompts := [];
     system_prompts := [JStr "You are a careful assistant for invoices.";
                        JStr "You are a careful assistant for invoices."] |}.

(** A document whose serialization has 48001 characters. *)
Definition threshold_workflow : dict json :=
  [("name", JStr (repeat_str "a" 47989))].

Definition threshold_analysis : analysis :=
  {| workflow_title := JStr (repeat_str "a" 47989);
     nodes := [];
     node_count := 0;
     node_types := [];
     ai_nodes := 0;
     db_nodes := 0;
     user_prompts := [];
     system_prompts := [] |}.

(** A workflow large enough to be reduced: its pinned data alone has more
    than 48004 characters. *)
Definition large_workflow : dict json :=
  [("name", JStr "Big");
   ("nodes", JArr [http_node; agent_node]);
   ("pinData", JObj [("Fetch", JStr (repeat_str "x" 50000))]);
   ("settings", JObj [("executionOrder", JStr "v1")]);
   ("active", JBool false)].

Definition large_nodes : list json := [http_node; agent_node].

(** A world that holds [doc] at every path, has the key [key], and whose
    API and file system behave as [api] and [fs] say. *)
Definition world_with (doc : json) (key : option string)
    (api : request -> string + string)
    (fs : string -> string -> string -> option string) : world :=
  {| read_json_utf8 := fun _ => Loaded doc;
     read_json_latin1 := fun _ => LoadFailed;
     now := "2025-06-01 12:00:00";
     environ_get := fun name => if String.eqb name "OPENAI_API_KEY" then key else None;
     chat_completions_create := api;
     write_file := fs |}.

(** The API answers every request. *)
Definition api_up : request -> string + string :=
  fun _ => inl "# Summary".

(** The API fails on every request. *)
Definition api_down : request -> string + string :=
  fun _ => inr "Connection error.".

(** The API fails for every model but the fallback model. *)
Definition api_fallback_only : request -> string + string :=
  fun r => if String.eqb (model r) fallback_model then inl "# Short summary"
           else inr "model not found".

(** Every write succeeds. *)
Definition fs_ok : string -> string -> string -> option string :=
  fun _ _ _ => None.

(** The small workflow with a credential, first with the API down, then
    with only the fallback model answering, then with the API up. *)
Definition down_world : world := world_with small_doc (Some "sk-test") api_down fs_ok.

Definition fallback_world : world :=
  world_with small_doc (Some "sk-test") api_fallback_only fs_ok.

Definition up_world : world := world_with small_doc (Some "sk-test") api_up fs_ok.

(** The small workflow a day later, with the API down. *)
Definition later_world : world :=
  {| read_json_utf8 := fun _ => Loaded small_doc;
     read_json_latin1 := fun _ => LoadFailed;
     now := "2025-06-02 08:30:00";
     environ_get := fun name =>
                      if String.eqb name "OPENAI_API_KEY" then Some "sk-other" else None;
     chat_completions_create := api_down;
     write_file := fs_ok |}.

(** The small workflow without a credential. *)
Definition keyless_world : world := world_with small_doc None api_up fs_ok.

(** The large workflow with only the fallback model answering. *)
Definition large_world : world :=
  world_with (JObj large_workflow) (Some "sk-test") api_fallback_only fs_ok.

(** The document at the threshold with the API up. *)
Definition threshold_world : world :=
  world_with (JObj threshold_workflow) (Some "sk-test") api_up fs_ok.

(** The fallback payload of the small workflow. *)
Definition small_payload : json :=
  JObj [("name", JStr "Demo");
        ("node_count", JInt 4);
        ("node_types", json_of_node_types (node_types small_analysis));
        ("nodes", JArr [http_node; agent_node; mysql_node; agent_node])].

End Samples.

(** ** The example script, [src/example_usage.py] *)

Module Usage.
Import Py World Summarizer.

(** What the script writes: a line given to [print], or a record given to
    [logger.error], whose text is followed by [str(e)] when an exception
    [e] is formatted into it. *)
Inductive output : Type :=
| Print (text : string)
| LogError (text : string) (cause : option exn).

(** How the script ends: [main] returns, or [sys.exit(code)] is called. *)
Inductive status : Type :=
| Completed
| Exit (code : Z).

(** [s.split(sep)] for a one-character separator: [cur] holds the
    characters of the piece being read. *)
Fixpoint str_split (sep : ascii) (s : string) (cur : string) : list string :=
  match s with
  | EmptyString => [cur]
  | String c r =>
      if Ascii.eqb c sep then cur :: str_split sep r ""
      else str_split sep r (cur ++ String c EmptyString)
  end.

(** The line feed character. *)
Definition lf : ascii := ascii_of_nat 10.

(** Line 58: ["\n".join(summary.split("\n")[:10])]. *)
Definition preview (summary : string) : string :=
  join nl (firstn 10 (str_split lf summary "")).

(** Line 35: the path the script summarizes. *)
Definition example_path : string := "example_workflow.json".

(** Lines 21-62: [main()].  [path_exists] is [Path.exists]; the call of
    line 46 runs [summarize_workflow] without an observer.  The result is
    how the script ends, what it writes, and the calls it issued. *)
Definition main (w : world) (path_exists : string -> bool)
  : status * list output * list event :=
  let missing :=
    (Exit 1,
     [LogError "OPENAI_API_KEY environment variable is not set!" None;
      Print "Please set your OpenAI API key as an environment variable:";
      Print "export OPENAI_API_KEY='your-key-here'  # Linux/macOS";
      Print "set OPENAI_API_KEY=your-key-here  # Windows CMD";
      Print "$env:OPENAI_API_KEY='your-key-here'  # Windows PowerShell"],
     []) in
  match environ_get w "OPENAI_API_KEY" with
  | None => missing
  | Some key =>
      if String.eqb key "" then missing
      else
        let workflow_path := example_path in
        if negb (path_exists workflow_path) then
          (Exit 1,
           [LogError ("Workflow file not found: " ++ workflow_path) None;
            Print ("Please place an n8n workflow JSON file at " ++ workflow_path)],
           [])
        else
          match summarize_workflow w workflow_path "gpt-4o" with
          | (Returned summary, trace) =>
              (Completed,
               [Print ("Summarizing workflow: " ++ workflow_path);
                Print (nl ++ "Summary generated successfully!");
                Print ("Output saved to: " ++ path_stem workflow_path ++ "_summary.md");
                Print (nl ++ "Summary preview:");
                Print (repeat_str "-" 40);
                Print (preview summary);
                Print "..."],
               trace)
          | (Raised e, trace) =>
              (Exit 1,
               [Print ("Summarizing workflow: " ++ workflow_path);
                LogError "Error generating summary: " (Some e)],
               trace)
          end
  end.

End Usage.

(** ** Further properties, in the terms of the code *)

Module Facts.
Import Py World Summarizer Spec.

(** Number of the nodes the classifier files under the type [t]. *)
Fixpoint occurrences (t : string) (node_list : list json) : Z :=
  match node_list with
  | [] => 0
  | node :: rest =>
      (match classified_type node with
       | Some t' => if String.eqb t' t then 1 else 0
       | None => 0
       end) + occurrences t rest
  end.

(** The types of the nodes, each once, in the order of first occurrence,
    after the types [seen]. *)
Fixpoint first_types (seen : list string) (node_list : list json) : list string :=
  match node_list with
  | [] => seen
  | node :: rest =>
      match classified_type node with
      | Some t => first_types (if key_in t seen then seen else (seen ++ [t])%list) rest
      | None => first_types seen rest
      end
  end.

(** Sum of all the counts of a histogram. *)
Definition total (histogram : dict Z) : Z := sum_counts (fun _ => true) histogram.

(** The node has no [type] entry. *)
Definition untyped (node : json) : bool :=
  match node with
  | JObj fields => negb (dict_mem "type" fields)
  | _ => false
  end.

(** The two parameter shapes of a completion request. *)
Definition standard_shape (r : request) : Prop :=
  max_tokens r = Some 4000 /\ max_completion_tokens r = None /\
  temperature r = Some "0.7".

Definition o1_shape (r : request) : Prop :=
  max_tokens r = None /\ max_completion_tokens r = Some 4000 /\
  temperature r = None.

(** The request carries a single message, from the user. *)
Definition single_user_message (r : request) : Prop :=
  exists prompt, messages r = [{| role := "user"; content := prompt |}].

(** The API fails on every request. *)
Definition api_always_fails (w : world) : Prop :=
  forall r, exists e, chat_completions_create w r = inr e.

(** The shape of a trace: a call, then possibly the write of what the call
    returned. *)
Definition attempt_shape (w : world) (path : string) (r : request)
    (trace : list event) : Prop :=
  trace = [ApiCall r] \/
  exists s, trace = [ApiCall r; FileWrite (output_path path) "utf-8" s] /\
            chat_completions_create w r = inl s.

(** [s] starts with [p]. *)
Definition starts_with (p s : string) : Prop := exists rest, s = p ++ rest.

(** Number of line feeds in a text. *)
Fixpoint line_feeds (s : string) : nat :=
  match s with
  | EmptyString => O
  | String c r => ((if Ascii.eqb c Usage.lf then 1 else 0) + line_feeds r)%nat
  end.

End Facts.

(** * Properties of the pipeline *)

Import Py World Summarizer Spec Samples.

(** ** Substrings *)

Lemma prefix_app (a s : string) : prefix a s = true <-> exists q, s = a ++ q.
Proof.
  revert s. induction a as [|c a IH]; intros s.
  - split; [intros _; exists s; reflexivity | intros _; destruct s; reflexivity].
  - destruct s as [|d s]; simpl.
    + split; [discriminate | intros [q Hq]; discriminate].
    + destruct (ascii_dec c d) as [->|Hne].
      * rewrite IH. split; intros [q Hq]; exists q.
        -- now rewrite Hq.
        -- now inversion Hq.
      * split; [discriminate | intros [q Hq]; inversion Hq; congruence].
Qed.

Lemma str_in_nil (a : string) : str_in a "" = prefix a "".
Proof. destruct a; reflexivity. Qed.

Lemma str_in_cons (a : string) (d : ascii) (s : string) :
  str_in a (String d s) = prefix a (String d s) || str_in a s.
Proof. reflexivity. Qed.

Lemma str_in_app (a s : string) :
  str_in a s = true <-> exists p q, s = p ++ a ++ q.
Proof.
  induction s as [|d s IH].
  - rewrite str_in_nil, prefix_app. split.
    + intros [q Hq]. now exists "", q.
    + intros [p [q H]]. destruct p; [now exists q | discriminate].
  - rewrite str_in_cons, orb_true_iff, prefix_app, IH. split.
    + intros [[q Hq] | [p [q H]]].
      * now exists "", q.
      * exists (String d p), q. simpl. now rewrite H.
    + intros [p [q H]]. destruct p as [|e p].
      * left. now exists q.
      * right. simpl in H. inversion H. now exists p, q.
Qed.

Lemma append_assoc (a b c : string) : (a ++ b) ++ c = a ++ b ++ c.
Proof. induction a; simpl; [reflexivity | now rewrite IHa]. Qed.

(** A string that contains [b] contains every part of [b]. *)
Lemma str_in_trans (a b s : string) :
  str_in a b = true -> str_in b s = true -> str_in a s = true.
Proof.
  rewrite !str_in_app. intros [p1 [q1 H1]] [p2 [q2 H2]].
  exists (p2 ++ p1), (q1 ++ q2). subst.
  now rewrite !append_assoc.
Qed.

(** ** Sums over a histogram *)

Lemma fold_left_add (l : list Z) (a : Z) :
  fold_left Z.add l a = a + fold_left Z.add l 0.
Proof.
  revert a. induction l as [|x l IH]; intros a; simpl; [lia|].
  rewrite (IH (a + x)), (IH x). lia.
Qed.

Lemma sum_counts_nil cond : sum_counts cond [] = 0.
Proof. reflexivity. Qed.

Lemma sum_counts_cons cond t c rest :
  sum_counts cond ((t, c) :: rest) = (if cond t then c else 0) + sum_counts cond rest.
Proof.
  unfold sum_counts. simpl. destruct (cond t); simpl; [|lia].
  now rewrite fold_left_add.
Qed.

Lemma sum_counts_ext (f g : string -> bool) h :
  (forall t, f t = g t) -> sum_counts f h = sum_counts g h.
Proof.
  intros E. induction h as [|[t c] h IH]; [reflexivity|].
  now rewrite !sum_counts_cons, E, IH.
Qed.

Lemma sum_counts_bucket_sum keywords h :
  sum_counts (matches_any keywords) h = bucket_sum keywords h.
Proof.
  induction h as [|[t c] h IH]; [reflexivity|].
  rewrite sum_counts_cons. simpl. now rewrite IH.
Qed.

Lemma is_ai_type_spec t : is_ai_type t = matches_any ai_keywords t.
Proof.
  unfold is_ai_type, matches_any, ai_keywords, contains_ci. simpl.
  now rewrite orb_false_r, !orb_assoc.
Qed.

Lemma is_db_type_spec t : is_db_type t = matches_any db_keywords t.
Proof.
  unfold is_db_type, matches_any, db_keywords, contains_ci. simpl.
  now rewrite orb_false_r, !orb_assoc.
Qed.

(** Incrementing the bucket of [t] adds one to a sum exactly when [t]
    satisfies its condition. *)
Lemma sum_counts_incr cond t h :
  sum_counts cond (dict_set t (dict_get_default t h 0 + 1) h)
  = sum_counts cond h + (if cond t then 1 else 0).
Proof.
  induction h as [|[k c] h IH].
  - unfold dict_get_default. simpl. rewrite sum_counts_cons, sum_counts_nil.
    destruct (cond t); lia.
  - unfold dict_get_default in *. simpl.
    destruct (String.eqb k t) eqn:E.
    + apply String.eqb_eq in E. subst k.
      rewrite !sum_counts_cons. destruct (cond t); lia.
    + rewrite !sum_counts_cons, IH. lia.
Qed.

Lemma classified_type_get members t :
  dict_get_default "type" members (JStr "unknown") = JStr t ->
  classified_type (JObj members) = Some t.
Proof.
  unfold dict_get_default, classified_type.
  destruct (dict_get "type" members) as [[]|]; congruence.
Qed.

Lemma count_node_types_sum cond nodes : forall h h',
  count_node_types nodes h = Ok h' ->
  sum_counts cond h'
  = sum_counts cond h
    + fold_right (fun node acc =>
                    (match classified_type node with
                     | Some t => if cond t then 1 else 0
                     | None => 0
                     end) + acc) 0 nodes.
Proof.
  induction nodes as [|node nodes IH]; intros h h' H.
  - inversion H. simpl. lia.
  - destruct node; try discriminate.
    cbn [count_node_types py_get bind] in H.
    destruct (dict_get_default "type" members (JStr "unknown")) eqn:T;
      try discriminate.
    apply IH in H. rewrite H, sum_counts_incr.
    cbn [fold_right]. rewrite (classified_type_get _ _ T). lia.
Qed.

Local Open Scope list_scope.

(** ** Fallible computations *)

Lemma bind_ok {A B : Type} (m : result A) (k : A -> result B) (b : B) :
  bind m k = Ok b -> exists a, m = Ok a /\ k a = Ok b.
Proof. destruct m; simpl; [eauto | discriminate]. Qed.

Lemma ok_inj {A : Type} (a b : A) : Ok a = Ok b -> a = b.
Proof. congruence. Qed.

(** Inversion of one step of a computation that returned: [a] names the
    value of the step, [E] the equation that gives it. *)
Ltac bind_as H a E :=
  apply bind_ok in H; destruct H as [a [E H]]; cbv beta in H.

(** ** The analysis of a document *)

Lemma matching_nodes_fold keywords node_list :
  fold_right (fun node acc =>
                (match classified_type node with
                 | Some t => if matches_any keywords t then 1 else 0
                 | None => 0
                 end) + acc) 0 node_list
  = matching_nodes keywords node_list.
Proof. induction node_list as [|n l IH]; simpl; [reflexivity | now rewrite IH]. Qed.

Lemma matching_nodes_none keywords node_list :
  (forall node t, In node node_list -> classified_type node = Some t ->
                  matches_any keywords t = false) ->
  matching_nodes keywords node_list = 0.
Proof.
  induction node_list as [|n l IH]; intros H; simpl; [reflexivity|].
  rewrite IH by (intros node t I; apply H; now right).
  destruct (classified_type n) as [t|] eqn:T; [|reflexivity].
  now rewrite (H n t (or_introl eq_refl) T).
Qed.

Lemma analyse_inv doc a :
  analyse doc = Ok a ->
  exists fields,
    doc = JObj fields /\
    workflow_title a = dict_get_default "name" fields (JStr "Untitled Workflow") /\
    py_len (dict_get_default "nodes" fields (JArr [])) = Ok (node_count a) /\
    py_iter (dict_get_default "nodes" fields (JArr [])) = Ok (nodes a) /\
    count_node_types (nodes a) [] = Ok (node_types a) /\
    ai_nodes a = count_ai_nodes (node_types a) /\
    db_nodes a = count_db_nodes (node_types a) /\
    extract_prompts (nodes a) [] [] = Ok (user_prompts a, system_prompts a).
Proof.
  unfold analyse. intros H.
  destruct doc as [| | | | | |fields]; try discriminate H. exists fields.
  cbn [py_get bind] in H.
  bind_as H count Hlen. bind_as H node_list Hiter.
  bind_as H types Htypes. bind_as H prompts Hprompts.
  destruct prompts as [users systems]. apply ok_inj in H. subst a. simpl.
  repeat split; assumption.
Qed.

Lemma count_node_types_total node_list :
  forallb well_shaped_node node_list = true ->
  forall h, exists h', count_node_types node_list h = Ok h'.
Proof.
  induction node_list as [|node l IH]; intros W h.
  - now exists h.
  - simpl in W. apply andb_true_iff in W. destruct W as [Wn Wr].
    destruct node as [| | | | | |fields]; try discriminate Wn.
    cbn [count_node_types py_get bind]. unfold dict_get_default.
    simpl in Wn. apply andb_true_iff in Wn. destruct Wn as [Wt _].
    destruct (dict_get "type" fields) as [[]|]; try discriminate Wt;
      apply (IH Wr).
Qed.

(** ** The prompt extractor *)

Lemma is_prompt_node_inv node b :
  is_prompt_node node = Ok b ->
  exists fields t, node = JObj fields /\ prompt_type node = Some t /\ inspected node = b.
Proof.
  unfold is_prompt_node. intros H.
  destruct node as [| | | | | |fields]; try discriminate H. cbn [py_get bind] in H.
  unfold inspected, prompt_type. unfold dict_get_default in H.
  destruct (dict_get "type" fields) as [[]|]; try discriminate H;
    cbn [py_lower bind] in H; apply ok_inj in H; subst b; eauto.
Qed.

Lemma is_long_prompt_inv v b :
  is_long_prompt v = Ok b -> b = py_truthy v && (10 <? size_of v).
Proof.
  unfold is_long_prompt, size_of. destruct (py_truthy v).
  - destruct (py_len v); cbn [bind]; intros H; inversion H. reflexivity.
  - intros H. inversion H. reflexivity.
Qed.

Lemma is_long_prompt_total v :
  prompt_ok v = true -> exists b, is_long_prompt v = Ok b.
Proof.
  unfold prompt_ok, is_long_prompt. destruct (py_truthy v); simpl; [|eauto].
  destruct v; try discriminate; simpl; eauto.
Qed.

Lemma collected_cons key node rest :
  collected key (node :: rest)
  = (if inspected node then
       match parameter key node with
       | Some v => if py_truthy v && (10 <? size_of v) then [v] else []
       | None => []
       end
     else []) ++ collected key rest.
Proof. unfold collected. simpl. destruct (inspected node); reflexivity. Qed.

(** The value the extractor reads for [key], against the parameter of the
    specification: an absent parameter reads as the empty str. *)
Lemma read_parameter fields parameters key :
  py_get (JObj fields) "parameters" (JObj []) = Ok parameters ->
  forall v, py_get parameters key (JStr "") = Ok v ->
  match parameter key (JObj fields) with
  | Some p => v = p
  | None => v = JStr ""
  end.
Proof.
  cbn [py_get parameter]. unfold dict_get_default. intros H v Hv.
  destruct (dict_get "parameters" fields) as [p|].
  - apply ok_inj in H. subst p.
    destruct parameters as [| | | | | |members]; try discriminate Hv.
    cbn [py_get] in Hv. unfold dict_get_default in Hv.
    destruct (dict_get key members); congruence.
  - apply ok_inj in H. subst parameters. cbn in Hv. congruence.
Qed.

Lemma app_keep {A : Type} (b : bool) (l : list A) (v : A) (rest : list A) :
  (if b then l ++ [v] else l) ++ rest = l ++ (if b then [v] else []) ++ rest.
Proof. destruct b; simpl; [now rewrite <- app_assoc | reflexivity]. Qed.

Lemma extract_prompts_spec node_list : forall users systems users' systems',
  extract_prompts node_list users systems = Ok (users', systems') ->
  users' = users ++ collected "text" node_list /\
  systems' = systems ++ collected "systemPrompt" node_list.
Proof.
  induction node_list as [|node l IH]; intros users systems users' systems' H.
  - apply ok_inj in H. inversion H. now rewrite !app_nil_r.
  - cbn [extract_prompts] in H. bind_as H seen Hseen.
    destruct (is_prompt_node_inv _ _ Hseen) as [fields [t [-> [_ I]]]].
    rewrite !collected_cons, I. destruct seen.
    + bind_as H parameters Hpar. bind_as H system_prompt Hsys.
      bind_as H user_prompt Husr. bind_as H keep_system Hks.
      bind_as H keep_user Hku.
      apply IH in H. destruct H as [-> ->].
      apply is_long_prompt_inv in Hks, Hku.
      pose proof (read_parameter _ _ _ Hpar _ Hsys) as P1.
      pose proof (read_parameter _ _ _ Hpar _ Husr) as P2.
      rewrite !app_keep.
      destruct (parameter "systemPrompt" (JObj fields)),
               (parameter "text" (JObj fields));
        subst; split; reflexivity.
    + apply IH in H. exact H.
Qed.

Lemma extract_prompts_total node_list :
  forallb extractable node_list = true ->
  forall users systems, exists users' systems',
    extract_prompts node_list users systems = Ok (users', systems').
Proof.
  induction node_list as [|node l IH]; intros W users systems.
  - now exists users, systems.
  - simpl in W. apply andb_true_iff in W. destruct W as [Wn Wr].
    cbn [extract_prompts].
    unfold extractable in Wn.
    destruct (prompt_type node) as [t|] eqn:T; [|discriminate Wn].
    assert (P : is_prompt_node node = Ok (inspected node)).
    { unfold inspected. rewrite T. unfold is_prompt_node, prompt_type in *.
      destruct node as [| | | | | |fields]; try discriminate T. cbn [py_get bind].
      unfold dict_get_default.
      destruct (dict_get "type" fields) as [[]|]; try discriminate T;
        inversion T; subst; reflexivity. }
    rewrite P. cbn [bind]. destruct (inspected node); [|apply (IH Wr)].
    simpl in Wn. destruct node as [| | | | | |fields]; try discriminate Wn.
    cbn [py_get bind].
    destruct (dict_get "parameters" fields) as [[| | | | | |parameters]|] eqn:Pm;
      try discriminate Wn.
    + assert (G : dict_get_default "parameters" fields (JObj []) = JObj parameters)
        by (unfold dict_get_default; now rewrite Pm).
      rewrite G. cbn [py_get bind].
      apply andb_true_iff in Wn. destruct Wn as [W1 W2].
      destruct (is_long_prompt_total _ W1) as [b1 ->].
      destruct (is_long_prompt_total _ W2) as [b2 ->].
      cbn [bind]. apply (IH Wr).
    + assert (G : dict_get_default "parameters" fields (JObj []) = JObj [])
        by (unfold dict_get_default; now rewrite Pm).
      rewrite G. cbn. apply (IH Wr).
Qed.

Lemma collected_long key node_list :
  Forall (fun v => py_truthy v = true /\ 10 < size_of v) (collected key node_list).
Proof.
  induction node_list as [|n l IH]; [constructor|].
  rewrite collected_cons. destruct (inspected n); [|exact IH].
  destruct (parameter key n) as [v|]; [|exact IH].
  destruct (py_truthy v && (10 <? size_of v)) eqn:E; [|exact IH].
  apply andb_true_iff in E. destruct E as [T L]. apply Z.ltb_lt in L.
  constructor; [split; assumption | exact IH].
Qed.

(** ** Well-shaped documents *)

Lemma well_shaped_extractable node :
  well_shaped_node node = true -> extractable node = true.
Proof.
  unfold well_shaped_node, extractable, prompt_type.
  destruct node as [| | | | | |fields]; try discriminate. intros W.
  apply andb_true_iff in W. destruct W as [Wt Wp].
  destruct (dict_get "type" fields) as [[]|]; try discriminate Wt;
    rewrite Wp; apply orb_true_r.
Qed.

Lemma forallb_impl {A : Type} (f g : A -> bool) (l : list A) :
  (forall x, f x = true -> g x = true) -> forallb f l = true -> forallb g l = true.
Proof.
  intros I. induction l as [|x l IH]; simpl; [reflexivity|].
  rewrite !andb_true_iff. intros [Hx Hl]. split; [now apply I | now apply IH].
Qed.

Lemma well_shaped_nodes doc :
  well_shaped doc = true ->
  exists fields node_list,
    doc = JObj fields /\
    dict_get_default "nodes" fields (JArr []) = JArr node_list /\
    forallb well_shaped_node node_list = true.
Proof.
  unfold well_shaped, dict_get_default.
  destruct doc as [| | | | | |fields]; try discriminate.
  intros W. exists fields.
  destruct (dict_get "nodes" fields) as [[| | | | |items|]|]; try discriminate W.
  - now exists items.
  - now exists [].
Qed.

Lemma analyse_total doc :
  well_shaped doc = true -> exists a, analyse doc = Ok a.
Proof.
  intros W. destruct (well_shaped_nodes doc W) as [fields [l [-> [N Wl]]]].
  unfold analyse. cbn [py_get bind]. rewrite N. cbn [py_len py_iter bind].
  destruct (count_node_types_total l Wl []) as [h ->]. cbn [bind].
  destruct (extract_prompts_total l (forallb_impl _ _ l well_shaped_extractable Wl) [] [])
    as [u [s ->]].
  cbn [bind]. eauto.
Qed.

Lemma count_matching keywords cond a doc :
  analyse doc = Ok a ->
  (forall t, cond t = matches_any keywords t) ->
  sum_counts cond (node_types a) = bucket_sum keywords (node_types a) /\
  sum_counts cond (node_types a) = matching_nodes keywords (nodes a).
Proof.
  intros H E. apply analyse_inv in H.
  destruct H as [fields [_ [_ [_ [_ [C _]]]]]].
  rewrite (sum_counts_ext _ _ _ E). split.
  - apply sum_counts_bucket_sum.
  - rewrite (count_node_types_sum _ _ _ _ C), sum_counts_nil, matching_nodes_fold.
    lia.
Qed.

(** ** The node classifier *)

(** C3: the AI count is the sum of the counts of the histogram buckets
    whose type contains, case-insensitively, some AI keyword, and the
    database count the same sum for the database keywords.  Each count is
    also the number of nodes whose type matches some keyword of its set, so
    a type that contains several keywords of one set adds its bucket once.
    When no node type matches a keyword of either set both counts are 0.
    The analysis returns on every document that fits the data model. *)
Theorem classification_counts (doc : json) :
  (well_shaped doc = true -> exists a, analyse doc = Ok a) /\
  (forall a, analyse doc = Ok a ->
     ai_nodes a = bucket_sum ai_keywords (node_types a) /\
     db_nodes a = bucket_sum db_keywords (node_types a) /\
     ai_nodes a = matching_nodes ai_keywords (nodes a) /\
     db_nodes a = matching_nodes db_keywords (nodes a) /\
     ((forall node t, In node (nodes a) -> classified_type node = Some t ->
          matches_any ai_keywords t = false /\ matches_any db_keywords t = false) ->
      ai_nodes a = 0 /\ db_nodes a = 0)).
Proof.
  split; [apply analyse_total|]. intros a H.
  destruct (count_matching ai_keywords is_ai_type a doc H is_ai_type_spec) as [A1 A2].
  destruct (count_matching db_keywords is_db_type a doc H is_db_type_spec) as [D1 D2].
  destruct (analyse_inv _ _ H) as [fields [_ [_ [_ [_ [_ [Ea [Ed _]]]]]]]].
  unfold count_ai_nodes in Ea. unfold count_db_nodes in Ed.
  rewrite Ea, Ed. repeat (split; [assumption|]). intros N. split.
  - rewrite A2. apply matching_nodes_none. intros node t I T.
    now destruct (N node t I T).
  - rewrite D2. apply matching_nodes_none. intros node t I T.
    now destruct (N node t I T).
Qed.

(** The small workflow has two nodes of type "openAiAgent", a type that
    contains "openai", "ai" and "agent": its AI count is 2. *)
Lemma classification_counts_witness :
  (exists a, analyse small_doc = Ok a) /\
  analyse small_doc = Ok small_analysis /\
  ai_nodes small_analysis = bucket_sum ai_keywords (node_types small_analysis) /\
  ai_nodes small_analysis = matching_nodes ai_keywords (nodes small_analysis) /\
  ai_nodes small_analysis = 2 /\
  db_nodes small_analysis = 1.
Proof.
  assert (H : analyse small_doc = Ok small_analysis) by (vm_compute; reflexivity).
  split; [exact (proj1 (classification_counts small_doc) eq_refl)|].
  split; [exact H|].
  destruct (proj2 (classification_counts small_doc) small_analysis H)
    as [A1 [_ [A2 _]]].
  split; [exact A1|]. split; [exact A2|]. split; reflexivity.
Defined.

(** ** Redundant keywords *)

Lemma contains_ci_part (small big type_ : string) :
  str_in (lower small) (lower big) = true ->
  contains_ci big type_ = true -> contains_ci small type_ = true.
Proof. unfold contains_ci. apply str_in_trans. Qed.

Lemma matches_any_ai_small t :
  matches_any ai_keywords t = matches_any ai_keywords_small t.
Proof.
  unfold ai_keywords, ai_keywords_small. cbn [matches_any existsb].
  destruct (contains_ci "openai" t) eqn:E; [|reflexivity].
  now rewrite (contains_ci_part "ai" "openai" t eq_refl E).
Qed.

Lemma matches_any_db_small t :
  matches_any db_keywords t = matches_any db_keywords_small t.
Proof.
  unfold db_keywords, db_keywords_small. cbn [matches_any existsb].
  destruct (contains_ci "mysql" t) eqn:E; [|reflexivity].
  rewrite (contains_ci_part "sql" "mysql" t eq_refl E).
  now rewrite !orb_true_r.
Qed.

(** C10: the AI count of the code is the bucket sum over the full AI
    keyword set, and that sum equals the one over the set without "openai",
    because a string that contains "openai" contains "ai"; the database
    count is the bucket sum over the full database keyword set, and that sum
    equals the one over the set without "mysql", because a string that
    contains "mysql" contains "sql". *)
Theorem redundant_keywords :
  (forall s, str_in "openai" s = true -> str_in "ai" s = true) /\
  (forall s, str_in "mysql" s = true -> str_in "sql" s = true) /\
  (forall histogram,
     count_ai_nodes histogram = bucket_sum ai_keywords histogram /\
     bucket_sum ai_keywords histogram = bucket_sum ai_keywords_small histogram /\
     count_db_nodes histogram = bucket_sum db_keywords histogram /\
     bucket_sum db_keywords histogram = bucket_sum db_keywords_small histogram).
Proof.
  split; [|split].
  - intros s. now apply str_in_trans.
  - intros s. now apply str_in_trans.
  - intros h. unfold count_ai_nodes, count_db_nodes.
    rewrite (sum_counts_ext _ _ h is_ai_type_spec), (sum_counts_ext _ _ h is_db_type_spec).
    rewrite !sum_counts_bucket_sum.
    rewrite <- !sum_counts_bucket_sum.
    rewrite (sum_counts_ext _ _ h matches_any_ai_small).
    rewrite (sum_counts_ext _ _ h matches_any_db_small).
    repeat split; reflexivity.
Qed.

Lemma redundant_keywords_witness :
  str_in "ai" "n8n-nodes-base.openai" = true /\
  str_in "sql" "n8n-nodes-base.mysql" = true.
Proof.
  split.
  - apply (proj1 redundant_keywords). reflexivity.
  - apply (proj1 (proj2 redundant_keywords)). reflexivity.
Defined.

(** ** The prompt bundle *)

(** C4: the system prompts and the user prompts the extractor returns are
    the [systemPrompt] and [text] values of the nodes whose type contains,
    case-insensitively, "agent" or "openai", kept when present, truthy and
    longer than 10, in node order and with repetitions; a value of length
    10 or less is never returned.  The extractor returns on every list of
    node objects whose inspected nodes have testable parameters: what the
    other nodes hold as parameters is not looked at. *)
Theorem prompt_extraction (node_list : list json) :
  (forallb extractable node_list = true ->
   exists users systems, extract_prompts node_list [] [] = Ok (users, systems)) /\
  (forall users systems,
     extract_prompts node_list [] [] = Ok (users, systems) ->
     systems = collected "systemPrompt" node_list /\
     users = collected "text" node_list /\
     Forall (fun v => py_truthy v = true /\ 10 < size_of v) systems /\
     Forall (fun v => py_truthy v = true /\ 10 < size_of v) users).
Proof.
  split.
  - intros W. apply (extract_prompts_total node_list W).
  - intros users systems H. apply extract_prompts_spec in H.
    destruct H as [-> ->]. cbn [app].
    repeat split; auto using collected_long.
Qed.

(** The agent node occurs twice in the small workflow: its system prompt
    is collected twice, its user prompt of 5 characters never. *)
Lemma prompt_extraction_witness :
  (exists users systems,
     extract_prompts (nodes small_analysis) [] [] = Ok (users, systems)) /\
  collected "systemPrompt" (nodes small_analysis)
  = [JStr "You are a careful assistant for invoices.";
     JStr "You are a careful assistant for invoices."] /\
  collected "text" (nodes small_analysis) = [].
Proof.
  assert (H : extract_prompts (nodes small_analysis) [] []
              = Ok ([], [JStr "You are a careful assistant for invoices.";
                         JStr "You are a careful assistant for invoices."]))
    by (vm_compute; reflexivity).
  split; [exact (proj1 (prompt_extraction (nodes small_analysis)) eq_refl)|].
  destruct (proj2 (prompt_extraction (nodes small_analysis)) _ _ H) as [S [U _]].
  split; [symmetry; exact S | symmetry; exact U].
Defined.

(** ** Dictionaries *)

Section Dict.
Context {V : Type}.
Implicit Types (d : dict V) (k : string) (v : V).

Lemma dict_get_set k k' v d :
  dict_get k (dict_set k' v d) = if String.eqb k k' then Some v else dict_get k d.
Proof.
  induction d as [|[k0 v0] d IH]; simpl.
  - rewrite String.eqb_sym. reflexivity.
  - destruct (String.eqb k0 k') eqn:E0; simpl.
    + apply String.eqb_eq in E0. subst k0. rewrite (String.eqb_sym k k').
      destruct (String.eqb k' k); reflexivity.
    + destruct (String.eqb k0 k) eqn:E1; [|exact IH].
      apply String.eqb_eq in E1. subst k0. now rewrite E0.
Qed.

Lemma dict_get_del k k' d :
  dict_get k (dict_del k' d) = if String.eqb k k' then None else dict_get k d.
Proof.
  unfold dict_del. induction d as [|[k0 v0] d IH]; simpl.
  - now destruct (String.eqb k k').
  - destruct (String.eqb k0 k') eqn:E0; simpl.
    + rewrite IH. destruct (String.eqb k k') eqn:E; [reflexivity|].
      apply String.eqb_eq in E0. subst k0. rewrite String.eqb_sym. now rewrite E.
    + rewrite IH. destruct (String.eqb k0 k) eqn:E1; [|reflexivity].
      apply String.eqb_eq in E1. subst k0. now rewrite E0.
Qed.

Lemma dict_get_app k d1 d2 :
  dict_get k (d1 ++ d2)
  = match dict_get k d1 with Some v => Some v | None => dict_get k d2 end.
Proof.
  induction d1 as [|[k0 v0] d1 IH]; simpl; [reflexivity|].
  destruct (String.eqb k0 k); [reflexivity | exact IH].
Qed.

Lemma dict_set_fresh k v d :
  dict_get k d = None -> dict_set k v d = d ++ [(k, v)].
Proof.
  induction d as [|[k0 v0] d IH]; simpl; [reflexivity|].
  destruct (String.eqb k0 k); [discriminate|]. intros H. now rewrite IH.
Qed.

Lemma dict_del_absent k d :
  dict_get k d = None -> dict_del k d = d.
Proof.
  unfold dict_del. induction d as [|[k0 v0] d IH]; simpl; [reflexivity|].
  destruct (String.eqb k0 k); [discriminate|]. intros H. simpl. now rewrite IH.
Qed.

End Dict.

Lemma key_in_In k keys : key_in k keys = true <-> In k keys.
Proof.
  unfold key_in. rewrite existsb_exists. split.
  - intros [x [I E]]. apply String.eqb_eq in E. now subst.
  - intros I. exists k. split; [exact I | apply String.eqb_refl].
Qed.

Lemma filter_filter {A : Type} (f g : A -> bool) (l : list A) :
  filter f (filter g l) = filter (fun x => g x && f x) l.
Proof.
  induction l as [|x l IH]; simpl; [reflexivity|].
  destruct (g x); simpl; [destruct (f x)|]; now rewrite IH.
Qed.

(** Removing keys keeps, in order, the entries under the other keys. *)
Lemma remove_keys_filter keys : forall d : dict json,
  remove_keys keys d = filter (fun kv => negb (key_in (fst kv) keys)) d.
Proof.
  unfold remove_keys.
  induction keys as [|key keys IH]; intros d; simpl.
  - induction d as [|kv d IHd]; simpl; [reflexivity | now rewrite <- IHd].
  - assert (E : (if dict_mem key d then dict_del key d else d) = dict_del key d).
    { unfold dict_mem. destruct (dict_get key d) eqn:G; [reflexivity|].
      symmetry. now apply dict_del_absent. }
    rewrite E, IH. unfold dict_del. rewrite filter_filter.
    apply filter_ext. intros [k v]. simpl. now rewrite negb_orb.
Qed.

Lemma remove_keys_get keys : forall (d : dict json) k,
  dict_get k (remove_keys keys d) = if key_in k keys then None else dict_get k d.
Proof.
  unfold remove_keys, key_in.
  induction keys as [|key keys IH]; intros d k; simpl; [reflexivity|].
  rewrite IH. destruct (existsb (String.eqb k) keys);
    [now rewrite orb_true_r|]. rewrite orb_false_r.
  unfold dict_mem. destruct (dict_get key d) eqn:G.
  - apply dict_get_del.
  - destruct (String.eqb k key) eqn:E; [|reflexivity].
    apply String.eqb_eq in E. now subst.
Qed.

Lemma restrict_get keys (d : dict json) k :
  dict_get k (restrict keys d) = if key_in k keys then dict_get k d else None.
Proof.
  unfold restrict, key_in. induction keys as [|k0 keys IH]; simpl; [reflexivity|].
  rewrite dict_get_app, IH.
  destruct (String.eqb k k0) eqn:E; simpl.
  - apply String.eqb_eq in E. subst k0.
    destruct (dict_get k d) eqn:G; simpl.
    + now rewrite String.eqb_refl.
    + now destruct (existsb (String.eqb k) keys).
  - destruct (dict_get k0 d); simpl; [|reflexivity].
    rewrite String.eqb_sym. now rewrite E.
Qed.

Lemma restrict_keys keys (d : dict json) k :
  In k (dict_keys (restrict keys d)) -> In k keys.
Proof.
  unfold restrict, dict_keys. induction keys as [|k0 keys IH]; simpl; [tauto|].
  rewrite map_app, in_app_iff. intros [H|H]; [|right; now apply IH].
  destruct (dict_get k0 d); simpl in H; [|tauto]. destruct H; [now left | tauto].
Qed.

(** ** The size reducer *)

Lemma keep_params_object params parameters : forall kept,
  NoDup params ->
  (forall k, In k params -> dict_get k kept = None) ->
  keep_params params (JObj parameters) kept = Ok (kept ++ restrict params parameters).
Proof.
  induction params as [|param params IH]; intros kept N F.
  - simpl. now rewrite app_nil_r.
  - inversion N as [|? ? Nin N']; subst.
    cbn [keep_params py_contains py_getitem bind]. unfold dict_mem.
    change (restrict (param :: params) parameters)
      with ((match dict_get param parameters with
             | Some v => [(param, v)] | None => [] end) ++ restrict params parameters).
    destruct (dict_get param parameters) as [v|]; cbn [bind].
    + rewrite IH; [|exact N'|].
      * rewrite dict_set_fresh by (apply F; now left). now rewrite <- app_assoc.
      * intros k I. rewrite dict_get_set.
        destruct (String.eqb k param) eqn:E.
        -- apply String.eqb_eq in E. subst. contradiction.
        -- apply F. now right.
    + apply IH; [exact N'|]. intros k I. apply F. now right.
Qed.

(** Parameters that are not an object: the reducer keeps nothing, or
    raises. *)
Lemma keep_params_other params parameters : forall kept kept',
  (forall p, parameters <> JObj p) ->
  keep_params params parameters kept = Ok kept' -> kept' = kept.
Proof.
  induction params as [|param params IH]; intros kept kept' NO H.
  - now inversion H.
  - cbn [keep_params] in H. bind_as H present Hpresent. destruct present.
    + destruct parameters as [| | | | | |members]; try discriminate H.
      now destruct (NO members).
    + now apply IH in H.
Qed.

Lemma important_params_NoDup : NoDup important_params.
Proof.
  unfold important_params.
  repeat (constructor; [simpl; intuition discriminate|]). constructor.
Qed.

Lemma simplify_node_spec node reduced :
  simplify_node node = Ok reduced -> reduced = reduced_node node.
Proof.
  unfold simplify_node. intros H.
  destruct node as [| | | | | |fields]; try discriminate H.
  cbn [py_get bind] in H. bind_as H kept Hkept. apply ok_inj in H. subst reduced.
  unfold reduced_node, parameters_of. unfold dict_get_default in Hkept at 1.
  destruct (dict_get "parameters" fields) as [p|].
  - destruct p;
      try (apply keep_params_other in Hkept; [now subst | intros ? ?; discriminate]).
    rewrite keep_params_object in Hkept;
      [now inversion Hkept | apply important_params_NoDup | reflexivity].
  - rewrite keep_params_object in Hkept;
      [now inversion Hkept | apply important_params_NoDup | reflexivity].
Qed.

Lemma simplify_node_total node :
  reducible node = true -> simplify_node node = Ok (reduced_node node).
Proof.
  unfold reducible, simplify_node, reduced_node, parameters_of.
  destruct node as [| | | | | |fields]; try discriminate.
  cbn [py_get bind]. intros R.
  assert (G : dict_get_default "parameters" fields (JObj [])
              = JObj match dict_get "parameters" fields with
                     | Some (JObj parameters) => parameters
                     | _ => []
                     end).
  { unfold dict_get_default.
    destruct (dict_get "parameters" fields) as [[]|]; try discriminate R;
      reflexivity. }
  rewrite G, keep_params_object by (apply important_params_NoDup || reflexivity).
  reflexivity.
Qed.

Lemma simplify_nodes_spec node_list : forall reduced,
  simplify_nodes node_list = Ok reduced ->
  reduced = map reduced_node node_list /\
  Forall (fun node => is_object node = true) node_list.
Proof.
  induction node_list as [|n l IH]; intros reduced H.
  - apply ok_inj in H. subst. split; [reflexivity | constructor].
  - cbn [simplify_nodes] in H. bind_as H rn Hrn. bind_as H others Hothers.
    apply ok_inj in H. subst reduced.
    destruct (IH _ Hothers) as [-> O]. split.
    + apply simplify_node_spec in Hrn. now rewrite Hrn.
    + constructor; [|exact O].
      destruct n; try discriminate Hrn. reflexivity.
Qed.

Lemma simplify_nodes_total node_list :
  forallb reducible node_list = true ->
  simplify_nodes node_list = Ok (map reduced_node node_list).
Proof.
  induction node_list as [|n l IH]; [reflexivity|]. simpl.
  rewrite andb_true_iff. intros [Hn Hl].
  now rewrite (simplify_node_total n Hn), (IH Hl).
Qed.

Lemma simplify_workflow_spec workflow node_list simplified :
  simplify_workflow workflow node_list = Ok simplified ->
  simplified
  = filter (fun kv => negb (key_in (fst kv) keys_to_remove))
           (dict_set "nodes" (JArr (map reduced_node node_list)) workflow) /\
  Forall (fun node => is_object node = true) node_list.
Proof.
  unfold simplify_workflow. intros H. bind_as H reduced Hreduced.
  apply ok_inj in H. subst simplified.
  destruct (simplify_nodes_spec _ _ Hreduced) as [-> O].
  rewrite remove_keys_filter. split; [reflexivity | exact O].
Qed.

Lemma size_reducer_large workflow node_list :
  12000 < estimated_tokens (JObj workflow) ->
  size_reducer (JObj workflow) node_list
  = (simplified <- simplify_workflow workflow node_list ;; Ok (JObj simplified)).
Proof. intros L. apply Z.ltb_lt in L. unfold size_reducer. now rewrite L. Qed.

Lemma size_reducer_small workflow node_list :
  estimated_tokens (JObj workflow) <= 12000 ->
  size_reducer (JObj workflow) node_list = Ok (JObj workflow).
Proof.
  intros L. unfold size_reducer.
  destruct (12000 <? estimated_tokens (JObj workflow)) eqn:E; [|reflexivity].
  apply Z.ltb_lt in E. lia.
Qed.

Lemma reduced_node_is_reduced node :
  is_object node = true -> is_reduced (reduced_node node) = true.
Proof.
  destruct node as [| | | | | |fields]; try discriminate. intros _.
  unfold reduced_node, is_reduced. apply andb_true_iff. split; [reflexivity|].
  apply forallb_forall. intros k I. apply key_in_In.
  apply restrict_keys in I. exact I.
Qed.

(** C5: when reduction is triggered, the reduced document is the workflow
    with its [nodes] replaced and the entries under [pinData],
    [connections], [settings] and [staticData] taken out: these four keys
    are absent from it, every key other than them and [nodes] has the value
    it had, and [nodes] holds, for each node in order, the object with the
    fields name, type, parameters and position, where parameters is the
    node's parameters restricted to the whitelisted keys it has, with their
    values.  The reducer returns whenever every node is an object whose
    parameters, if any, are an object. *)
Theorem reduction_frame (workflow : dict json) (node_list : list json) :
  12000 < estimated_tokens (JObj workflow) ->
  (forallb reducible node_list = true ->
   exists reduced, size_reducer (JObj workflow) node_list = Ok (JObj reduced)) /\
  (forall out, size_reducer (JObj workflow) node_list = Ok out ->
   exists reduced,
     out = JObj reduced /\
     reduced = filter (fun kv => negb (key_in (fst kv) keys_to_remove))
                      (dict_set "nodes" (JArr (map reduced_node node_list)) workflow) /\
     (forall k, In k keys_to_remove -> dict_get k reduced = None) /\
     (forall k, ~ In k keys_to_remove -> k <> "nodes" ->
                dict_get k reduced = dict_get k workflow) /\
     dict_get "nodes" reduced = Some (JArr (map reduced_node node_list)) /\
     Forall (fun node => is_object node = true) node_list) /\
  (forall node k,
     dict_get k (restrict important_params (parameters_of node))
     = if key_in k important_params then dict_get k (parameters_of node) else None).
Proof.
  intros L. rewrite (size_reducer_large _ _ L). split; [|split].
  - intros R. unfold simplify_workflow.
    rewrite (simplify_nodes_total _ R). cbn [bind]. eauto.
  - intros out H. bind_as H reduced Hreduced. apply ok_inj in H. subst out.
    exists reduced. split; [reflexivity|].
    destruct (simplify_workflow_spec _ _ _ Hreduced) as [S O].
    split; [exact S|]. rewrite S, <- remove_keys_filter.
    split; [|split; [|split; [|exact O]]].
    + intros k I. rewrite remove_keys_get.
      now rewrite (proj2 (key_in_In k keys_to_remove) I).
    + intros k NI NN. rewrite remove_keys_get.
      destruct (key_in k keys_to_remove) eqn:K.
      * apply key_in_In in K. contradiction.
      * rewrite dict_get_set. destruct (String.eqb k "nodes") eqn:EN; [|reflexivity].
        apply String.eqb_eq in EN. contradiction.
    + rewrite remove_keys_get, dict_get_set. reflexivity.
  - intros node k. apply restrict_get.
Qed.

(** The large workflow is reduced: [pinData] and [settings] go, [name] and
    [active] stay, and the HTTP node loses its [id] field and its [url]
    parameter. *)
Lemma reduction_frame_witness :
  exists reduced,
    size_reducer (JObj large_workflow) large_nodes = Ok (JObj reduced) /\
    dict_get "pinData" reduced = None /\
    dict_get "settings" reduced = None /\
    dict_get "active" reduced = Some (JBool false) /\
    dict_get "nodes" reduced = Some (JArr (map reduced_node large_nodes)) /\
    reduced_node http_node
    = JObj [("name", JStr "Fetch");
            ("type", JStr "n8n-nodes-base.httpRequest");
            ("parameters", JObj [("operation", JStr "get")]);
            ("position", JArr [JInt 0; JInt 0])].
Proof.
  assert (L : 12000 < estimated_tokens (JObj large_workflow))
    by (vm_compute; reflexivity).
  destruct (reduction_frame large_workflow large_nodes L) as [T [F _]].
  destruct (T eq_refl) as [reduced R].
  destruct (F _ R) as [reduced' [E [_ [Gone [Kept [N _]]]]]].
  apply (f_equal (fun j => match j with JObj d => d | _ => [] end)) in E.
  cbn beta iota in E. subst reduced'.
  exists reduced. split; [exact R|].
  split; [apply Gone; left; reflexivity|].
  split; [apply Gone; right; right; left; reflexivity|].
  split.
  - rewrite Kept.
    + reflexivity.
    + intros [H|[H|[H|[H|[]]]]]; discriminate H.
    + discriminate.
  - split; [exact N | reflexivity].
Defined.

(** ** The pipeline *)

Lemma summarize_loaded w path model_name doc a :
  load_workflow w path = Ok doc -> analyse doc = Ok a ->
  summarize_workflow w path model_name = complete w path model_name doc a.
Proof. intros L A. unfold summarize_workflow. now rewrite L, A. Qed.

(** The four ways an attempt can go. *)
Lemma attempt_cases w r path :
  (exists e, chat_completions_create w r = inr e /\
             attempt w r path = (inr e, [ApiCall r])) \/
  (exists s e, chat_completions_create w r = inl s /\
               write_file w (output_path path) "utf-8" s = Some e /\
               attempt w r path
               = (inr e, [ApiCall r; FileWrite (output_path path) "utf-8" s])) \/
  (exists s, succeeds w r path s /\
             attempt w r path
             = (inl s, [ApiCall r; FileWrite (output_path path) "utf-8" s])).
Proof.
  unfold attempt, succeeds.
  destruct (chat_completions_create w r) as [s|e]; [|left; eauto].
  right. destruct (write_file w (output_path path) "utf-8" s) as [e|] eqn:W.
  - left. eauto.
  - right. eauto.
Qed.

Lemma attempt_api_error w r path e :
  chat_completions_create w r = inr e -> attempt w r path = (inr e, [ApiCall r]).
Proof. intros H. unfold attempt. now rewrite H. Qed.

Lemma attempt_success w r path s :
  succeeds w r path s ->
  attempt w r path = (inl s, [ApiCall r; FileWrite (output_path path) "utf-8" s]).
Proof. intros [H1 H2]. unfold attempt. now rewrite H1, H2. Qed.

(** With a credential and a document that passed the size reducer, the
    invocation is the primary attempt followed, when it fails, by the
    fallback. *)
Lemma complete_with_key w path model_name doc a key d :
  environ_get w "OPENAI_API_KEY" = Some key -> key <> "" ->
  size_reducer doc (nodes a) = Ok d ->
  complete w path model_name doc a
  = match attempt w (primary_call w key model_name a d) path with
    | (inl summary, trace) => (Returned summary, trace)
    | (inr e, trace) =>
        if negb (String.eqb model_name fallback_model) then
          match super_simplify a d with
          | Raise e' => (Raised e', trace)
          | Ok payload =>
              match attempt w (fallback_call w key a payload) path with
              | (inl summary, trace') => (Returned summary, trace ++ trace')
              | (inr fallback_error, trace') =>
                  (Returned ("Error with fallback model: " ++ fallback_error)%string,
                   trace ++ trace')
              end
          end
        else (Returned ("Error calling OpenAI API: " ++ e)%string, trace)
    end.
Proof.
  intros K NE S. unfold complete. rewrite K.
  destruct (String.eqb key "") eqn:E; [apply String.eqb_eq in E; contradiction|].
  rewrite S. reflexivity.
Qed.

Lemma complete_without_key w path model_name doc a :
  credential_missing w ->
  complete w path model_name doc a
  = (Returned "OPENAI_API_KEY environment variable not set", []).
Proof. unfold complete. intros [-> | ->]; reflexivity. Qed.

Lemma firstn_min {A : Type} (l : list A) :
  firstn (Z.to_nat (Z.min 20 (Z.of_nat (List.length l)))) l = firstn 20 l.
Proof.
  destruct (Z.le_ge_cases 20 (Z.of_nat (List.length l))) as [H|H].
  - rewrite Z.min_l by exact H. reflexivity.
  - rewrite Z.min_r by exact H. rewrite Nat2Z.id, firstn_all.
    symmetry. apply firstn_all2. lia.
Qed.

(** The fallback payload of a document whose nodes are the array [l]. *)
Lemma super_simplify_array a d l :
  py_get d "nodes" (JArr []) = Ok (JArr l) ->
  super_simplify a d
  = Ok (JObj [("name", workflow_title a);
              ("node_count", JInt (node_count a));
              ("node_types", json_of_node_types (node_types a));
              ("nodes", JArr (firstn 20 l))]).
Proof.
  intros G. unfold super_simplify. rewrite G. cbn [bind py_len py_slice_to].
  now rewrite firstn_min.
Qed.

(** The nodes held by [simplified_workflow]: the reduced nodes when the
    reduction was triggered, the nodes of the document otherwise. *)
Lemma size_reducer_nodes doc a d :
  analyse doc = Ok a -> nodes_is_array doc = true ->
  size_reducer doc (nodes a) = Ok d ->
  py_get d "nodes" (JArr [])
  = Ok (JArr (if 12000 <? estimated_tokens doc
              then map reduced_node (nodes a) else nodes a)).
Proof.
  intros A N S. destruct (analyse_inv _ _ A) as [fields [-> [_ [_ [I _]]]]].
  unfold size_reducer in S.
  destruct (12000 <? estimated_tokens (JObj fields)).
  - bind_as S simplified Hsimplified. apply ok_inj in S. subst d.
    destruct (simplify_workflow_spec _ _ _ Hsimplified) as [-> _].
    cbn [py_get]. unfold dict_get_default.
    rewrite <- remove_keys_filter, remove_keys_get. cbn [key_in existsb String.eqb Ascii.eqb Bool.eqb orb].
    now rewrite dict_get_set.
  - apply ok_inj in S. subst d. cbn [py_get]. f_equal.
    unfold nodes_is_array in N. unfold dict_get_default in *.
    destruct (dict_get "nodes" fields) as [[]|]; try discriminate N;
      cbn in I; congruence.
Qed.

(** ** Terminal states *)

Lemma credential_cases w :
  credential_missing w \/ exists key, credential w key.
Proof.
  unfold credential_missing, credential.
  destruct (environ_get w "OPENAI_API_KEY") as [key|]; [|left; now left].
  destruct (String.eqb key "") eqn:E.
  - apply String.eqb_eq in E. subst. left. now right.
  - apply String.eqb_neq in E. right. now exists key.
Qed.

(** Every invocation ends in one of the terminal states. *)
Lemma summarize_workflow_ends w path model_name :
  ends w path model_name (fst (summarize_workflow w path model_name))
                         (snd (summarize_workflow w path model_name)).
Proof.
  unfold summarize_workflow.
  destruct (load_workflow w path) as [doc|e] eqn:L; [|now apply ends_load_error].
  destruct (analyse doc) as [a|e] eqn:A; [|now apply (ends_analysis_error _ _ _ doc)].
  destruct (credential_cases w) as [M | [key [K NE]]].
  - rewrite (complete_without_key _ _ _ _ _ M).
    now apply (ends_missing_credential _ _ _ doc a).
  - destruct (size_reducer doc (nodes a)) as [d|e] eqn:S.
    + rewrite (complete_with_key _ _ _ _ _ _ _ K NE S).
      destruct (attempt w (primary_call w key model_name a d) path) as [[s|e] trace] eqn:P.
      * destruct (attempt_cases w (primary_call w key model_name a d) path)
          as [[x [_ H]] | [[s' [x [_ [_ H]]]] | [s' [SU H]]]];
          rewrite H in P; inversion P; subst.
        now apply (ends_primary_success _ _ _ doc a key d).
      * destruct (String.eqb model_name fallback_model) eqn:F; cbn [negb].
        -- apply String.eqb_eq in F.
           now apply (ends_primary_failure _ _ _ doc a key d).
        -- apply String.eqb_neq in F.
           destruct (super_simplify a d) as [payload|x] eqn:SS;
             [|now apply (ends_payload_error _ _ _ doc a key d e)].
           destruct (attempt w (fallback_call w key a payload) path)
             as [[s|fe] trace'] eqn:FB.
           ++ destruct (attempt_cases w (fallback_call w key a payload) path)
                as [[x [_ H]] | [[s' [x [_ [_ H]]]] | [s' [SU H]]]];
                rewrite H in FB; inversion FB; subst.
              now apply (ends_fallback_success _ _ _ doc a key d e).
           ++ now apply (ends_fallback_failure _ _ _ doc a key d e trace payload).
    + unfold complete. rewrite K.
      destruct (String.eqb key "") eqn:E; [apply String.eqb_eq in E; contradiction|].
      rewrite S. now apply (ends_reducer_error _ _ _ doc a key).
Qed.

Lemma summarize_workflow_run w path model_name out trace :
  summarize_workflow w path model_name = (out, trace) ->
  ends w path model_name out trace.
Proof.
  intros H. pose proof (summarize_workflow_ends w path model_name) as E.
  now rewrite H in E.
Qed.

(** Each terminal state is the one the invocation reaches. *)
Lemma ends_summarize_workflow w path model_name out trace :
  ends w path model_name out trace ->
  summarize_workflow w path model_name = (out, trace).
Proof.
  intros H.
  destruct H as
    [ e L
    | doc e L A
    | doc a L A M
    | doc a key e L A [K NE] S
    | doc a key d s L A [K NE] S SU
    | doc a key d e tr L A [K NE] S AT F
    | doc a key d e tr x L A [K NE] S AT F SS
    | doc a key d e tr payload s L A [K NE] S AT F SS SU
    | doc a key d e tr payload fe tr' L A [K NE] S AT F SS AT' ].
  - unfold summarize_workflow. now rewrite L.
  - unfold summarize_workflow. now rewrite L, A.
  - rewrite (summarize_loaded _ _ _ _ _ L A). now apply complete_without_key.
  - rewrite (summarize_loaded _ _ _ _ _ L A). unfold complete. rewrite K.
    destruct (String.eqb key "") eqn:E; [apply String.eqb_eq in E; contradiction|].
    now rewrite S.
  - rewrite (summarize_loaded _ _ _ _ _ L A), (complete_with_key _ _ _ _ _ _ _ K NE S).
    now rewrite (attempt_success _ _ _ _ SU).
  - rewrite (summarize_loaded _ _ _ _ _ L A), (complete_with_key _ _ _ _ _ _ _ K NE S).
    rewrite AT. apply String.eqb_eq in F. now rewrite F.
  - rewrite (summarize_loaded _ _ _ _ _ L A), (complete_with_key _ _ _ _ _ _ _ K NE S).
    rewrite AT. apply String.eqb_neq in F. rewrite F. cbn [negb]. now rewrite SS.
  - rewrite (summarize_loaded _ _ _ _ _ L A), (complete_with_key _ _ _ _ _ _ _ K NE S).
    rewrite AT. apply String.eqb_neq in F. rewrite F. cbn [negb]. rewrite SS.
    now rewrite (attempt_success _ _ _ _ SU).
  - rewrite (summarize_loaded _ _ _ _ _ L A), (complete_with_key _ _ _ _ _ _ _ K NE S).
    rewrite AT. apply String.eqb_neq in F. rewrite F. cbn [negb]. rewrite SS.
    now rewrite AT'.
Qed.

(** ** Attempts and traces *)

Lemma str_in_middle (p a q : string) : str_in a (p ++ a ++ q)%string = true.
Proof. apply str_in_app. now exists p, q. Qed.

Lemma append_nil_r (s : string) : (s ++ "")%string = s.
Proof. induction s; simpl; [reflexivity | now rewrite IHs]. Qed.

Lemma attempt_api_calls w r path res trace :
  attempt w r path = (res, trace) -> api_calls trace = [r].
Proof.
  destruct (attempt_cases w r path) as [[e [_ H]] | [[s [e [_ [_ H]]]] | [s [_ H]]]];
    rewrite H; intros E; inversion E; reflexivity.
Qed.

Lemma api_calls_app t1 t2 : api_calls (t1 ++ t2) = api_calls t1 ++ api_calls t2.
Proof. unfold api_calls. apply flat_map_app. Qed.

Lemma payload_nodes_built title count histogram l :
  payload_nodes (JObj [("name", title); ("node_count", count);
                       ("node_types", histogram); ("nodes", JArr l)]) = l.
Proof. reflexivity. Qed.

Lemma in_firstn {A : Type} (n : nat) (l : list A) (x : A) :
  In x (firstn n l) -> In x l.
Proof.
  revert l. induction n as [|n IH]; intros [|y l]; simpl; try tauto.
  intros [H|H]; [now left | right; now apply IH].
Qed.

Lemma succeeds_unique w r path s s' :
  succeeds w r path s -> succeeds w r path s' -> s = s'.
Proof. intros [H _] [H' _]. congruence. Qed.

Lemma succeeds_not_failed w r path s e trace :
  succeeds w r path s -> attempt w r path = (inr e, trace) -> False.
Proof. intros S A. rewrite (attempt_success _ _ _ _ S) in A. discriminate A. Qed.

Lemma last_call_one (r r' : request) (before : list request) :
  [r] = before ++ [r'] -> r' = r.
Proof. intros H. apply (app_inj_tail [] before) in H. now destruct H. Qed.

Lemma last_call_two (p r r' : request) (before : list request) :
  [p] ++ [r] = before ++ [r'] -> r' = r.
Proof. intros H. apply (app_inj_tail [p] before) in H. now destruct H. Qed.

(** ** The first call of an invocation *)

Lemma attempt_head w r path res trace :
  attempt w r path = (res, trace) -> exists rest, trace = ApiCall r :: rest.
Proof.
  destruct (attempt_cases w r path) as [[e [_ H]] | [[s [e [_ [_ H]]]] | [s [_ H]]]];
    rewrite H; intros E; inversion E; eauto.
Qed.

Lemma first_call_is_primary w path model_name out trace :
  ends w path model_name out trace ->
  forall r rest, trace = ApiCall r :: rest ->
  exists doc a key d,
    load_workflow w path = Ok doc /\ analyse doc = Ok a /\ credential w key /\
    size_reducer doc (nodes a) = Ok d /\ r = primary_call w key model_name a d.
Proof.
  intros H.
  destruct H as
    [ e L
    | doc e L A
    | doc a L A M
    | doc a key e L A K S
    | doc a key d s L A K S SU
    | doc a key d e tr L A K S AT F
    | doc a key d e tr x L A K S AT F SS
    | doc a key d e tr payload s L A K S AT F SS SU
    | doc a key d e tr payload fe tr' L A K S AT F SS AT' ];
    intros r rest T; try discriminate T;
    try (destruct (attempt_head _ _ _ _ _ AT) as [rest' ->]);
    inversion T; subst; exists doc, a, key, d; auto.
Qed.

Lemma primary_call_messages w key model_name a d :
  messages (primary_call w key model_name a d)
  = [{| role := "user"; content := build_prompt a d (now w) |}].
Proof.
  unfold primary_call, primary_request.
  destruct (String.eqb model_name "o1"); reflexivity.
Qed.

(** ** The threshold of the size reducer *)

Lemma tokens_boundary doc :
  estimated_tokens doc <= 12000 <-> len_str (json_dumps doc) <= 48003.
Proof.
  unfold estimated_tokens.
  pose proof (Z.div_mod (len_str (json_dumps doc)) 4 ltac:(lia)) as D.
  pose proof (Z.mod_pos_bound (len_str (json_dumps doc)) 4 ltac:(lia)) as B.
  lia.
Qed.

Lemma first_call w path model_name doc a key d :
  load_workflow w path = Ok doc -> analyse doc = Ok a ->
  credential w key -> size_reducer doc (nodes a) = Ok d ->
  exists out rest,
    summarize_workflow w path model_name
    = (out, ApiCall (primary_call w key model_name a d) :: rest).
Proof.
  intros L A [K NE] S.
  rewrite (summarize_loaded _ _ _ _ _ L A), (complete_with_key _ _ _ _ _ _ _ K NE S).
  destruct (attempt w (primary_call w key model_name a d) path) as [res trace] eqn:P.
  destruct (attempt_head _ _ _ _ _ P) as [rest ->].
  destruct res as [s|e]; [eexists; eexists; reflexivity|].
  destruct (negb (String.eqb model_name fallback_model));
    [|eexists; eexists; reflexivity].
  destruct (super_simplify a d) as [payload|x]; [|eexists; eexists; reflexivity].
  destruct (attempt w (fallback_call w key a payload) path) as [[s|fe] trace'];
    eexists; eexists; reflexivity.
Qed.

(** ** The fallback attempt *)

(** C1: when the primary completion raises and the requested model is not
    "gpt-3.5-turbo-16k", the invocation issues, after the primary call,
    exactly one more call: to the model "gpt-3.5-turbo-16k", with the prompt
    built from a payload of at most 20 nodes.  If that attempt fails the
    invocation returns "Error with fallback model: " followed by the
    failure text and issues nothing more; if the failure is the completion
    raising, the trace has no file write, and the returned text contains
    "fallback" and the failure text.  When the requested model is the
    fallback model the invocation returns the error text after the primary
    call alone. *)
Theorem fallback_protocol (w : world) (path model_name : string)
    (doc : json) (a : analysis) (d : json) (key e : string) :
  load_workflow w path = Ok doc ->
  analyse doc = Ok a ->
  nodes_is_array doc = true ->
  environ_get w "OPENAI_API_KEY" = Some key ->
  key <> "" ->
  size_reducer doc (nodes a) = Ok d ->
  chat_completions_create w (primary_call w key model_name a d) = inr e ->
  (model_name <> fallback_model ->
   exists payload,
     super_simplify a d = Ok payload /\
     (List.length (payload_nodes payload) <= 20)%nat /\
     model (fallback_call w key a payload) = "gpt-3.5-turbo-16k" /\
     (exists out rest,
        summarize_workflow w path model_name
        = (out, ApiCall (primary_call w key model_name a d)
                  :: ApiCall (fallback_call w key a payload) :: rest) /\
        api_calls rest = []) /\
     (forall fe trace,
        attempt w (fallback_call w key a payload) path = (inr fe, trace) ->
        summarize_workflow w path model_name
        = (Returned ("Error with fallback model: " ++ fe)%string,
           ApiCall (primary_call w key model_name a d) :: trace)) /\
     (forall fe,
        chat_completions_create w (fallback_call w key a payload) = inr fe ->
        exists text trace,
          summarize_workflow w path model_name = (Returned text, trace) /\
          trace = [ApiCall (primary_call w key model_name a d);
                   ApiCall (fallback_call w key a payload)] /\
          file_writes trace = [] /\
          str_in "fallback" text = true /\
          str_in fe text = true)) /\
  (model_name = fallback_model ->
   summarize_workflow w path model_name
   = (Returned ("Error calling OpenAI API: " ++ e)%string,
      [ApiCall (primary_call w key model_name a d)])).
Proof.
  intros L A N K NE S P.
  rewrite (summarize_loaded _ _ _ _ _ L A), (complete_with_key _ _ _ _ _ _ _ K NE S).
  rewrite (attempt_api_error _ _ _ _ P). split.
  - intros NF. apply String.eqb_neq in NF. rewrite NF. cbn [negb].
    pose proof (size_reducer_nodes _ _ _ A N S) as G.
    rewrite (super_simplify_array _ _ _ G).
    eexists. split; [reflexivity|]. split; [|split; [reflexivity|]].
    { rewrite payload_nodes_built, length_firstn. apply Nat.le_min_l. }
    match goal with |- context [attempt w ?r path] => set (fb := r) end.
    split; [|split].
    + destruct (attempt w fb path) as [res trace] eqn:T.
      pose proof (attempt_api_calls _ _ _ _ _ T) as C.
      assert (exists rest, trace = ApiCall fb :: rest /\ api_calls rest = []) as [rest [-> R]].
      { destruct (attempt_cases w fb path) as [[x [_ H]] | [[s [x [_ [_ H]]]] | [s [_ H]]]];
          rewrite H in T; inversion T; eexists; split; reflexivity. }
      destruct res; eexists; exists rest; split; try reflexivity; exact R.
    + intros fe trace T. rewrite T. reflexivity.
    + intros fe F. rewrite (attempt_api_error _ _ _ _ F).
      eexists; eexists. split; [reflexivity|]. split; [reflexivity|].
      split; [reflexivity|]. split.
      * apply (str_in_middle "Error with " "fallback" (" model: " ++ fe)).
      * rewrite <- (append_nil_r fe) at 2.
        apply (str_in_middle "Error with fallback model: " fe "").
  - intros ->. reflexivity.
Qed.

(** The small workflow with the API down and the model "gpt-4o": one
    primary call, one fallback call, no write. *)
Lemma fallback_protocol_witness :
  exists payload,
    super_simplify small_analysis small_doc = Ok payload /\
    (List.length (payload_nodes payload) <= 20)%nat /\
    summarize_workflow down_world "wf.json" "gpt-4o"
    = (Returned "Error with fallback model: Connection error.",
       [ApiCall (primary_call down_world "sk-test" "gpt-4o" small_analysis small_doc);
        ApiCall (fallback_call down_world "sk-test" small_analysis payload)]).
Proof.
  destruct (fallback_protocol down_world "wf.json" "gpt-4o" small_doc small_analysis
              small_doc "sk-test" "Connection error."
              eq_refl ltac:(vm_compute; reflexivity) eq_refl eq_refl
              ltac:(discriminate) ltac:(vm_compute; reflexivity) eq_refl) as [H _].
  destruct (H ltac:(discriminate)) as [payload [H1 [H2 [_ [_ [H3 _]]]]]].
  exists payload. split; [exact H1|]. split; [exact H2|].
  apply (H3 "Connection error."). reflexivity.
Defined.

(** ** The nodes of the fallback payload *)

(** C6, as the code has it: the nodes of the fallback payload are the
    first 20 nodes of [simplified_workflow].  When the size reduction was
    triggered these are reduced nodes, each in reduced form; when it was
    not, they are the nodes of the document as they stand, with every
    field and parameter. *)
Theorem fallback_payload_nodes (w : world) (path model_name : string)
    (doc : json) (a : analysis) (d : json) (key e : string) :
  load_workflow w path = Ok doc ->
  analyse doc = Ok a ->
  nodes_is_array doc = true ->
  environ_get w "OPENAI_API_KEY" = Some key ->
  key <> "" ->
  size_reducer doc (nodes a) = Ok d ->
  chat_completions_create w (primary_call w key model_name a d) = inr e ->
  model_name <> fallback_model ->
  exists payload,
    super_simplify a d = Ok payload /\
    (exists out rest,
       summarize_workflow w path model_name
       = (out, ApiCall (primary_call w key model_name a d)
                 :: ApiCall (fallback_call w key a payload) :: rest)) /\
    (12000 < estimated_tokens doc ->
     payload_nodes payload = firstn 20 (map reduced_node (nodes a)) /\
     Forall (fun node => is_reduced node = true) (payload_nodes payload)) /\
    (estimated_tokens doc <= 12000 ->
     payload_nodes payload = firstn 20 (nodes a)).
Proof.
  intros L A N K NE S P NF.
  pose proof (size_reducer_nodes _ _ _ A N S) as G.
  exists (JObj [("name", workflow_title a);
                ("node_count", JInt (node_count a));
                ("node_types", json_of_node_types (node_types a));
                ("nodes", JArr (firstn 20 (if 12000 <? estimated_tokens doc
                                           then map reduced_node (nodes a)
                                           else nodes a)))]).
  split; [apply (super_simplify_array _ _ _ G)|]. split; [|split].
  - rewrite (summarize_loaded _ _ _ _ _ L A), (complete_with_key _ _ _ _ _ _ _ K NE S).
    rewrite (attempt_api_error _ _ _ _ P).
    apply String.eqb_neq in NF. rewrite NF. cbn [negb].
    rewrite (super_simplify_array _ _ _ G).
    match goal with |- context [attempt w ?r path] => set (fb := r) end.
    destruct (attempt_cases w fb path) as [[x [_ H]] | [[s [x [_ [_ H]]]] | [s [_ H]]]];
      rewrite H; eexists; eexists; reflexivity.
  - intros T. rewrite payload_nodes_built. apply Z.ltb_lt in T. rewrite T.
    split; [reflexivity|].
    destruct (analyse_inv _ _ A) as [fields [-> _]].
    unfold size_reducer in S. rewrite T in S. bind_as S simplified SW.
    destruct (simplify_workflow_spec _ _ _ SW) as [_ O].
    apply Forall_forall. intros node I. apply in_firstn in I.
    apply in_map_iff in I. destruct I as [n [<- I]].
    apply reduced_node_is_reduced. rewrite Forall_forall in O. now apply O.
  - intros T. rewrite payload_nodes_built.
    destruct (12000 <? estimated_tokens doc) eqn:B; [|reflexivity].
    apply Z.ltb_lt in B. lia.
Qed.

Lemma fallback_payload_nodes_witness :
  exists payload,
    super_simplify small_analysis small_doc = Ok payload /\
    payload_nodes payload = firstn 20 (nodes small_analysis).
Proof.
  destruct (fallback_payload_nodes down_world "wf.json" "gpt-4o" small_doc small_analysis
              small_doc "sk-test" "Connection error."
              eq_refl ltac:(vm_compute; reflexivity) eq_refl eq_refl
              ltac:(discriminate) ltac:(vm_compute; reflexivity) eq_refl
              ltac:(discriminate)) as [payload [H1 [_ [_ H2]]]].
  exists payload. split; [exact H1|]. apply H2. vm_compute. discriminate.
Defined.

(** C6 as stated fails: with the small workflow no reduction is triggered,
    the primary attempt with "gpt-4o" fails, and the fallback payload holds
    the HTTP node as it stands, with its [id] field and its [url]
    parameter: it is not in reduced form. *)
Lemma fallback_payload_counterexample :
  estimated_tokens small_doc <= 12000 /\
  summarize_workflow down_world "wf.json" "gpt-4o"
  = (Returned "Error with fallback model: Connection error.",
     [ApiCall (primary_call down_world "sk-test" "gpt-4o" small_analysis small_doc);
      ApiCall (fallback_call down_world "sk-test" small_analysis small_payload)]) /\
  In http_node (payload_nodes small_payload) /\
  is_reduced http_node = false /\
  reduced_node http_node <> http_node.
Proof.
  split; [vm_compute; discriminate|].
  split; [vm_compute; reflexivity|].
  split; [left; reflexivity|].
  split; [reflexivity|]. vm_compute. discriminate.
Qed.

Local Open Scope string_scope.

(** ** Paths *)

Lemma no_slash_app (s t : string) :
  no_slash (s ++ t) = no_slash s && no_slash t.
Proof.
  induction s as [|c s IH]; simpl; [reflexivity|].
  rewrite IH. now rewrite andb_assoc.
Qed.

Lemma split_slash_pieces (s : string) : forall cur,
  no_slash cur = true ->
  Forall (fun piece => no_slash piece = true) (split_slash s cur).
Proof.
  induction s as [|c s IH]; intros cur H; simpl.
  - now constructor.
  - destruct (Ascii.eqb c "/") eqn:E.
    + constructor; [exact H | now apply IH].
    + apply IH. rewrite no_slash_app, H. simpl. now rewrite E.
Qed.

Lemma split_slash_whole (s : string) : forall cur,
  no_slash s = true -> split_slash s cur = [cur ++ s].
Proof.
  induction s as [|c s IH]; intros cur H; simpl in *.
  - now rewrite append_nil_r.
  - apply andb_true_iff in H. destruct H as [Hc Hs].
    apply negb_true_iff in Hc. rewrite Hc, (IH _ Hs).
    now rewrite append_assoc.
Qed.

Lemma no_slash_substring (s : string) : forall n m,
  no_slash s = true -> no_slash (substring n m s) = true.
Proof.
  induction s as [|c s IH]; intros n m H.
  - destruct n, m; reflexivity.
  - simpl in H. apply andb_true_iff in H. destruct H as [Hc Hs].
    destruct n as [|n]; simpl.
    + destruct m as [|m]; [reflexivity|]. simpl. now rewrite Hc, IH.
    + now apply IH.
Qed.

Lemma no_slash_last (pieces : list string) :
  Forall (fun piece => no_slash piece = true) pieces ->
  no_slash (last pieces "") = true.
Proof.
  induction 1 as [|p l Hp Hl IH]; [reflexivity|].
  destruct l; [exact Hp | exact IH].
Qed.

Lemma Forall_filter {A : Type} (P : A -> Prop) (f : A -> bool) (l : list A) :
  Forall P l -> Forall P (filter f l).
Proof.
  induction 1 as [|x l Hx Hl IH]; simpl; [constructor|].
  destruct (f x); [now constructor | exact IH].
Qed.

Lemma path_stem_no_slash (p : string) : no_slash (path_stem p) = true.
Proof.
  assert (N : no_slash (path_name p) = true).
  { unfold path_name, path_parts. apply no_slash_last, Forall_filter.
    apply split_slash_pieces. reflexivity. }
  unfold path_stem. destruct (rfind_dot (path_name p) 0 None); [|exact N].
  destruct (_ && _)%bool; [now apply no_slash_substring | exact N].
Qed.

Lemma eqb_length (s t : string) :
  String.eqb s t = true -> String.length s = String.length t.
Proof. intros H. apply String.eqb_eq in H. now subst. Qed.

Lemma append_length (s t : string) :
  String.length (s ++ t) = (String.length s + String.length t)%nat.
Proof. induction s; simpl; [reflexivity | now rewrite IHs]. Qed.

(** The output file is named by a single component: it lands in the
    current directory of the process. *)
Lemma output_path_resolve (cwd : list string) (p : string) :
  path_resolve cwd (output_path p) = (cwd ++ [(path_stem p ++ "_summary.md")%string])%list.
Proof.
  unfold path_resolve, output_path, path_is_absolute.
  set (name := path_stem p ++ "_summary.md").
  assert (N : no_slash name = true).
  { unfold name. rewrite no_slash_app, path_stem_no_slash. reflexivity. }
  assert (L : (String.length name >= 11)%nat).
  { unfold name. rewrite append_length. simpl. lia. }
  destruct (prefix "/" name) eqn:P.
  - apply prefix_app in P. destruct P as [q Hq]. rewrite Hq in N. discriminate N.
  - f_equal. unfold path_parts. rewrite (split_slash_whole _ "" N). simpl.
    destruct (String.eqb name "") eqn:E1.
    { apply eqb_length in E1. simpl in E1. lia. }
    destruct (String.eqb name ".") eqn:E2.
    { apply eqb_length in E2. simpl in E2. lia. }
    reflexivity.
Qed.

Local Open Scope list_scope.

(** ** Successful invocations *)

(** C7, as the code has it: when the last completion attempt of an
    invocation succeeds with the summary [s] (the API returns [s] and the
    write goes through), the invocation returns [s], and its last call is
    the write of exactly [s], with encoding "utf-8", to the file named
    [<stem>_summary.md], where [<stem>] is the stem of the input path; this
    name has no directory part, so the file is in the current directory
    of the process, whatever directory the input file is in. *)
Theorem summary_written (w : world) (path model_name : string)
    (out : outcome) (trace : list event)
    (before : list request) (r : request) (s : string) :
  summarize_workflow w path model_name = (out, trace) ->
  api_calls trace = before ++ [r] ->
  succeeds w r path s ->
  out = Returned s /\
  (exists earlier,
     trace = earlier ++ [ApiCall r;
                         FileWrite (path_stem path ++ "_summary.md") "utf-8" s]) /\
  (forall cwd,
     path_resolve cwd (path_stem path ++ "_summary.md")
     = cwd ++ [(path_stem path ++ "_summary.md")%string] /\
     path_dir (path_resolve cwd (path_stem path ++ "_summary.md")) = cwd).
Proof.
  intros H C S. apply summarize_workflow_run in H.
  assert (R : forall cwd,
             path_resolve cwd (path_stem path ++ "_summary.md")
             = cwd ++ [(path_stem path ++ "_summary.md")%string] /\
             path_dir (path_resolve cwd (path_stem path ++ "_summary.md")) = cwd).
  { intros cwd. pose proof (output_path_resolve cwd path) as O.
    unfold output_path in O. rewrite O. split; [reflexivity|].
    unfold path_dir. apply removelast_last. }
  destruct H as
    [ e L
    | doc e L A
    | doc a L A M
    | doc a key e L A K Sz
    | doc a key d s' L A K Sz SU
    | doc a key d e tr L A K Sz AT F
    | doc a key d e tr x L A K Sz AT F SS
    | doc a key d e tr payload s' L A K Sz AT F SS SU
    | doc a key d e tr payload fe tr' L A K Sz AT F SS AT' ];
    try (cbn in C; now destruct before).
  - cbn in C. apply last_call_one in C. subst r.
    rewrite (succeeds_unique _ _ _ _ _ S SU).
    split; [reflexivity|]. split; [|exact R]. now exists [].
  - rewrite (attempt_api_calls _ _ _ _ _ AT) in C. apply last_call_one in C. subst r.
    destruct (succeeds_not_failed _ _ _ _ _ _ S AT).
  - rewrite (attempt_api_calls _ _ _ _ _ AT) in C. apply last_call_one in C. subst r.
    destruct (succeeds_not_failed _ _ _ _ _ _ S AT).
  - rewrite api_calls_app, (attempt_api_calls _ _ _ _ _ AT) in C. cbn in C.
    apply last_call_two in C. subst r.
    rewrite (succeeds_unique _ _ _ _ _ S SU).
    split; [reflexivity|]. split; [|exact R]. now exists tr.
  - rewrite api_calls_app, (attempt_api_calls _ _ _ _ _ AT),
      (attempt_api_calls _ _ _ _ _ AT') in C.
    apply last_call_two in C. subst r.
    destruct (succeeds_not_failed _ _ _ _ _ _ S AT').
Qed.

(** With only the fallback model answering, the summary of the fallback
    attempt is returned and written to [wf_summary.md], though the input
    is [exports/wf.json]. *)
Lemma summary_written_witness :
  summarize_workflow fallback_world "exports/wf.json" "gpt-4o"
  = (Returned "# Short summary",
     [ApiCall (primary_call fallback_world "sk-test" "gpt-4o" small_analysis small_doc);
      ApiCall (fallback_call fallback_world "sk-test" small_analysis small_payload);
      FileWrite "wf_summary.md" "utf-8" "# Short summary"]) /\
  path_stem "exports/wf.json" = "wf" /\
  path_dir (path_resolve ["home"; "user"] (path_stem "exports/wf.json" ++ "_summary.md"))
  = ["home"; "user"].
Proof.
  assert (H : summarize_workflow fallback_world "exports/wf.json" "gpt-4o"
              = (Returned "# Short summary",
                 [ApiCall (primary_call fallback_world "sk-test" "gpt-4o"
                                        small_analysis small_doc);
                  ApiCall (fallback_call fallback_world "sk-test"
                                         small_analysis small_payload);
                  FileWrite "wf_summary.md" "utf-8" "# Short summary"]))
    by (vm_compute; reflexivity).
  split; [exact H|]. split; [reflexivity|].
  destruct (summary_written fallback_world "exports/wf.json" "gpt-4o" _ _
              [primary_call fallback_world "sk-test" "gpt-4o" small_analysis small_doc]
              (fallback_call fallback_world "sk-test" small_analysis small_payload)
              "# Short summary" H eq_refl (conj eq_refl eq_refl)) as [_ [_ R]].
  exact (proj2 (R ["home"; "user"])).
Defined.

(** C7 as stated fails: for the input [exports/wf.json], read by a process
    whose current directory is [/home/user], the summary is written to
    [/home/user/wf_summary.md], which is not in the directory
    [/home/user/exports] of the input file. *)
Lemma summary_written_counterexample :
  summarize_workflow up_world "exports/wf.json" "gpt-4o"
  = (Returned "# Summary",
     [ApiCall (primary_call up_world "sk-test" "gpt-4o" small_analysis small_doc);
      FileWrite "wf_summary.md" "utf-8" "# Summary"]) /\
  path_dir (path_resolve ["home"; "user"] "exports/wf.json")
  = ["home"; "user"; "exports"] /\
  path_dir (path_resolve ["home"; "user"] "wf_summary.md") = ["home"; "user"] /\
  path_dir (path_resolve ["home"; "user"] "wf_summary.md")
  <> path_dir (path_resolve ["home"; "user"] "exports/wf.json").
Proof.
  split; [vm_compute; reflexivity|].
  split; [reflexivity|]. split; [reflexivity|].
  vm_compute. discriminate.
Qed.

(** ** Errors *)

(** C8, as the code has it: the terminal states of [summarize_workflow]
    are exactly those of [ends].  An error is returned as a str in three of
    them: the credential is missing (after the document was loaded and
    analysed), the primary attempt fails while the requested model is the
    fallback model, and the fallback attempt fails.  Every other failure
    (loading, analysis, reduction, building the fallback payload) reaches
    the caller as an exception; a failure of the API or of the write never
    does. *)
Theorem error_reporting (w : world) (path model_name : string)
    (out : outcome) (trace : list event) :
  (summarize_workflow w path model_name = (out, trace) <->
   ends w path model_name out trace) /\
  (forall s,
     summarize_workflow w path model_name = (Returned s, trace) ->
     (s = "OPENAI_API_KEY environment variable not set" /\
      credential_missing w /\ trace = []) \/
     (exists e, s = ("Error calling OpenAI API: " ++ e)%string /\
                model_name = fallback_model) \/
     (exists fe, s = ("Error with fallback model: " ++ fe)%string /\
                 model_name <> fallback_model) \/
     (exists r, In (ApiCall r) trace /\ succeeds w r path s)) /\
  (forall e,
     summarize_workflow w path model_name = (Raised e, trace) ->
     load_workflow w path = Raise e \/
     exists doc,
       load_workflow w path = Ok doc /\
       (analyse doc = Raise e \/
        exists a,
          analyse doc = Ok a /\
          (size_reducer doc (nodes a) = Raise e \/
           exists d, size_reducer doc (nodes a) = Ok d /\
                     super_simplify a d = Raise e))).
Proof.
  split; [split; [apply summarize_workflow_run | apply ends_summarize_workflow]|].
  split.
  - intros s H. apply summarize_workflow_run in H.
    remember (Returned s) as o eqn:O.
    destruct H as
      [ e L
      | doc e L A
      | doc a L A M
      | doc a key e L A K S
      | doc a key d s' L A K S SU
      | doc a key d e tr L A K S AT F
      | doc a key d e tr x L A K S AT F SS
      | doc a key d e tr payload s' L A K S AT F SS SU
      | doc a key d e tr payload fe tr' L A K S AT F SS AT' ];
      try discriminate O; injection O as <-.
    + left. auto.
    + right; right; right. eexists. split; [left; reflexivity | exact SU].
    + right; left. exists e. split; [reflexivity | exact F].
    + right; right; right. eexists. split; [|exact SU].
      apply in_or_app. right. left. reflexivity.
    + right; right; left. exists fe. split; [reflexivity | exact F].
  - intros e H. apply summarize_workflow_run in H.
    remember (Raised e) as o eqn:O.
    destruct H as
      [ e' L
      | doc e' L A
      | doc a L A M
      | doc a key e' L A K S
      | doc a key d s' L A K S SU
      | doc a key d e' tr L A K S AT F
      | doc a key d e' tr x L A K S AT F SS
      | doc a key d e' tr payload s' L A K S AT F SS SU
      | doc a key d e' tr payload fe tr' L A K S AT F SS AT' ];
      try discriminate O; injection O as <-.
    + now left.
    + right. exists doc. split; [exact L|]. now left.
    + right. exists doc. split; [exact L|]. right. exists a. split; [exact A|].
      now left.
    + right. exists doc. split; [exact L|]. right. exists a. split; [exact A|].
      right. now exists d.
Qed.

(** Without a credential the small workflow ends in the missing-credential
    state, with nothing issued. *)
Lemma error_reporting_witness :
  ends keyless_world "wf.json" "gpt-4o"
       (Returned "OPENAI_API_KEY environment variable not set") [] /\
  ((("OPENAI_API_KEY environment variable not set"
     = "OPENAI_API_KEY environment variable not set") /\
    credential_missing keyless_world /\ @nil event = []) \/
   (exists e, "OPENAI_API_KEY environment variable not set"
              = ("Error calling OpenAI API: " ++ e)%string /\
              "gpt-4o" = fallback_model) \/
   (exists fe, "OPENAI_API_KEY environment variable not set"
               = ("Error with fallback model: " ++ fe)%string /\
               "gpt-4o" <> fallback_model) \/
   (exists r, In (ApiCall r) [] /\
              succeeds keyless_world r "wf.json"
                       "OPENAI_API_KEY environment variable not set")).
Proof.
  destruct (error_reporting keyless_world "wf.json" "gpt-4o"
              (Returned "OPENAI_API_KEY environment variable not set") [])
    as [I [R _]].
  split.
  - apply (proj1 I). reflexivity.
  - apply R. reflexivity.
Defined.

(** C8 as stated fails: with the fallback model requested and the API
    down, the credential is present and the only call is the primary one,
    yet the failure comes back as a str, which is neither the
    missing-credential text nor the fallback failure text. *)
Lemma error_reporting_counterexample :
  environ_get down_world "OPENAI_API_KEY" = Some "sk-test" /\
  summarize_workflow down_world "wf.json" "gpt-3.5-turbo-16k"
  = (Returned "Error calling OpenAI API: Connection error.",
     [ApiCall (primary_call down_world "sk-test" "gpt-3.5-turbo-16k"
                            small_analysis small_doc)]) /\
  "Error calling OpenAI API: Connection error."
  <> "OPENAI_API_KEY environment variable not set" /\
  prefix "Error with fallback model: " "Error calling OpenAI API: Connection error."
  = false.
Proof.
  split; [reflexivity|]. split; [vm_compute; reflexivity|].
  split; [discriminate | reflexivity].
Qed.

(** ** Repeated invocations *)

(** C9: two invocations that load the same document, whatever their
    clocks, credentials, models, APIs and file systems, send prompts built
    from one and the same analysis (histogram, classification counts,
    prompt bundle) and one and the same possibly reduced document; the
    prompts differ at most in the timestamp. *)
Theorem repeatable_analysis (w1 w2 : world) (path1 path2 model1 model2 : string)
    (doc : json) (out1 out2 : outcome) (r1 r2 : request) (rest1 rest2 : list event) :
  load_workflow w1 path1 = Ok doc ->
  load_workflow w2 path2 = Ok doc ->
  summarize_workflow w1 path1 model1 = (out1, ApiCall r1 :: rest1) ->
  summarize_workflow w2 path2 model2 = (out2, ApiCall r2 :: rest2) ->
  exists a d,
    analyse doc = Ok a /\
    size_reducer doc (nodes a) = Ok d /\
    messages r1 = [{| role := "user"; content := build_prompt a d (now w1) |}] /\
    messages r2 = [{| role := "user"; content := build_prompt a d (now w2) |}] /\
    (now w1 = now w2 -> messages r1 = messages r2).
Proof.
  intros L1 L2 H1 H2.
  apply summarize_workflow_run in H1, H2.
  destruct (first_call_is_primary _ _ _ _ _ H1 _ _ eq_refl)
    as [doc1 [a1 [key1 [d1 [L1' [A1 [_ [S1 ->]]]]]]]].
  destruct (first_call_is_primary _ _ _ _ _ H2 _ _ eq_refl)
    as [doc2 [a2 [key2 [d2 [L2' [A2 [_ [S2 ->]]]]]]]].
  assert (doc1 = doc) by congruence. assert (doc2 = doc) by congruence. subst.
  assert (a2 = a1) by congruence. subst.
  assert (d2 = d1) by congruence. subst.
  exists a1, d1. rewrite !primary_call_messages.
  repeat split; try assumption. intros T. now rewrite T.
Qed.

(** The small workflow summarized on two days, with two credentials and
    two models. *)
Lemma repeatable_analysis_witness :
  exists a d,
    analyse small_doc = Ok a /\
    size_reducer small_doc (nodes a) = Ok d /\
    messages (primary_call up_world "sk-test" "gpt-4o" small_analysis small_doc)
    = [{| role := "user"; content := build_prompt a d "2025-06-01 12:00:00" |}] /\
    messages (primary_call later_world "sk-other" "o1" small_analysis small_doc)
    = [{| role := "user"; content := build_prompt a d "2025-06-02 08:30:00" |}].
Proof.
  destruct (repeatable_analysis up_world later_world "wf.json" "copy/wf.json"
              "gpt-4o" "o1" small_doc
              (Returned "# Summary")
              (Returned "Error with fallback model: Connection error.")
              (primary_call up_world "sk-test" "gpt-4o" small_analysis small_doc)
              (primary_call later_world "sk-other" "o1" small_analysis small_doc)
              [FileWrite "wf_summary.md" "utf-8" "# Summary"]
              [ApiCall (fallback_call later_world "sk-other" small_analysis small_payload)]
              eq_refl eq_refl
              ltac:(vm_compute; reflexivity) ltac:(vm_compute; reflexivity))
    as [a [d [A [S [M1 [M2 _]]]]]].
  exists a, d. auto.
Defined.

(** ** The reduction threshold *)

(** C2, as the code has it: with the estimate the length of
    [json.dumps(workflow_json)] divided by 4, rounded down, a document whose
    estimate is at most 12000 (a serialization of at most 48003 characters)
    goes to the prompt builder unchanged; a document whose estimate is
    above 12000 (at least 48004 characters) is replaced by its reduced
    form, which is what the prompt builder receives. *)
Theorem reduction_threshold (w : world) (path model_name : string)
    (workflow : dict json) (a : analysis) (key : string) :
  load_workflow w path = Ok (JObj workflow) ->
  analyse (JObj workflow) = Ok a ->
  credential w key ->
  (estimated_tokens (JObj workflow) <= 12000 <->
   len_str (json_dumps (JObj workflow)) <= 48003) /\
  (estimated_tokens (JObj workflow) <= 12000 ->
   size_reducer (JObj workflow) (nodes a) = Ok (JObj workflow) /\
   exists out rest,
     summarize_workflow w path model_name
     = (out, ApiCall (primary_call w key model_name a (JObj workflow)) :: rest)) /\
  (12000 < estimated_tokens (JObj workflow) ->
   forall reduced,
     simplify_workflow workflow (nodes a) = Ok reduced ->
     size_reducer (JObj workflow) (nodes a) = Ok (JObj reduced) /\
     exists out rest,
       summarize_workflow w path model_name
       = (out, ApiCall (primary_call w key model_name a (JObj reduced)) :: rest)).
Proof.
  intros L A K. split; [apply tokens_boundary|]. split.
  - intros T. pose proof (size_reducer_small workflow (nodes a) T) as S.
    split; [exact S|]. apply (first_call _ _ _ _ _ _ _ L A K S).
  - intros T reduced R.
    assert (S : size_reducer (JObj workflow) (nodes a) = Ok (JObj reduced)).
    { rewrite (size_reducer_large _ _ T), R. reflexivity. }
    split; [exact S|]. apply (first_call _ _ _ _ _ _ _ L A K S).
Qed.


(** The document at the threshold is not reduced. *)
Lemma reduction_threshold_witness :
  size_reducer (JObj threshold_workflow) (nodes threshold_analysis)
  = Ok (JObj threshold_workflow) /\
  exists out rest,
    summarize_workflow threshold_world "wf.json" "gpt-4o"
    = (out, ApiCall (primary_call threshold_world "sk-test" "gpt-4o"
                                  threshold_analysis (JObj threshold_workflow))
              :: rest).
Proof.
  assert (T : estimated_tokens (JObj threshold_workflow) <= 12000)
    by (vm_compute; discriminate).
  assert (K : credential threshold_world "sk-test")
    by (split; [reflexivity | discriminate]).
  pose proof (reduction_threshold threshold_world "wf.json" "gpt-4o"
                threshold_workflow threshold_analysis "sk-test") as R.
  specialize (R eq_refl). specialize (R eq_refl). specialize (R K).
  destruct R as [_ [R _]].
  exact (R T).
Defined.

(** C2 as stated fails: the serialization of this document has 48001
    characters, just over the 48000-character boundary, and its estimate is
    12000; yet the reduced document, which would have a [nodes] entry, is
    not built: the prompt builder receives the document unchanged. *)
Lemma reduction_threshold_counterexample :
  len_str (json_dumps (JObj threshold_workflow)) = 48001 /\
  estimated_tokens (JObj threshold_workflow) = 12000 /\
  size_reducer (JObj threshold_workflow) (nodes threshold_analysis)
  = Ok (JObj threshold_workflow) /\
  (exists out rest,
     summarize_workflow threshold_world "wf.json" "gpt-4o"
     = (out, ApiCall (primary_call threshold_world "sk-test" "gpt-4o"
                                   threshold_analysis (JObj threshold_workflow))
               :: rest)) /\
  simplify_workflow threshold_workflow (nodes threshold_analysis)
  = Ok (threshold_workflow ++ [("nodes", JArr [])]) /\
  threshold_workflow ++ [("nodes", JArr [])] <> threshold_workflow.
Proof.
  assert (T : estimated_tokens (JObj threshold_workflow) <= 12000)
    by (vm_compute; discriminate).
  assert (S : size_reducer (JObj threshold_workflow) (nodes threshold_analysis)
              = Ok (JObj threshold_workflow))
    by (apply (size_reducer_small threshold_workflow (nodes threshold_analysis) T)).
  assert (K : credential threshold_world "sk-test")
    by (split; [reflexivity | discriminate]).
  split; [vm_compute; reflexivity|].
  split; [vm_compute; reflexivity|].
  split; [exact S|].
  split.
  - apply (first_call threshold_world "wf.json" "gpt-4o" (JObj threshold_workflow)
             threshold_analysis "sk-test" (JObj threshold_workflow) eq_refl eq_refl K S).
  - split; [reflexivity|]. intros H.
    apply (f_equal (@List.length (string * json))) in H. discriminate H.
Qed.

(** * Further properties of the code *)

Import Usage Facts.

Local Open Scope list_scope.
Local Open Scope Z_scope.

(** ** The histogram of node types *)

Lemma dict_keys_set {V : Type} (k : string) (v : V) (d : dict V) :
  dict_keys (dict_set k v d)
  = if dict_mem k d then dict_keys d else dict_keys d ++ [k].
Proof.
  unfold dict_keys, dict_mem. induction d as [|[k0 v0] d IH]; simpl; [reflexivity|].
  destruct (String.eqb k0 k) eqn:E; simpl.
  - apply String.eqb_eq in E. now subst.
  - rewrite IH. now destruct (dict_get k d).
Qed.

Lemma dict_mem_keys {V : Type} (k : string) (d : dict V) :
  dict_mem k d = key_in k (dict_keys d).
Proof.
  unfold dict_mem, key_in, dict_keys. induction d as [|[k0 v0] d IH]; simpl; [reflexivity|].
  rewrite (String.eqb_sym k k0). destruct (String.eqb k0 k); [reflexivity | exact IH].
Qed.

Lemma NoDup_snoc {A : Type} (l : list A) (x : A) :
  NoDup l -> ~ In x l -> NoDup (l ++ [x]).
Proof.
  intros N I. induction N as [|y l Hy N IH]; simpl.
  - constructor; [tauto | constructor].
  - constructor.
    + rewrite in_app_iff. simpl. intros [H|[H|[]]]; [tauto|]. subst. apply I. now left.
    + apply IH. intros H. apply I. now right.
Qed.

Lemma dict_set_NoDup {V : Type} (k : string) (v : V) (d : dict V) :
  NoDup (dict_keys d) -> NoDup (dict_keys (dict_set k v d)).
Proof.
  intros N. rewrite dict_keys_set, dict_mem_keys.
  destruct (key_in k (dict_keys d)) eqn:E; [exact N|].
  apply NoDup_snoc; [exact N|]. intros I. apply key_in_In in I. congruence.
Qed.

Lemma dict_get_default_set (k k' : string) (v : Z) (d : dict Z) :
  dict_get_default k (dict_set k' v d) 0
  = if String.eqb k k' then v else dict_get_default k d 0.
Proof.
  unfold dict_get_default. rewrite dict_get_set. now destruct (String.eqb k k').
Qed.

Lemma dict_set_positive (t : string) (v : Z) (h : dict Z) :
  Forall (fun item => 1 <= snd item) h -> 1 <= v ->
  Forall (fun item => 1 <= snd item) (dict_set t v h).
Proof.
  intros P G. induction h as [|[k c] h IH]; simpl.
  - constructor; [exact G | constructor].
  - inversion P; subst. destruct (String.eqb k t).
    + constructor; [exact G | assumption].
    + constructor; [assumption | now apply IH].
Qed.

Lemma dict_get_default_nonneg (t : string) (h : dict Z) :
  Forall (fun item => 1 <= snd item) h -> 0 <= dict_get_default t h 0.
Proof.
  intros P. unfold dict_get_default. destruct (dict_get t h) as [c|] eqn:E; [|lia].
  induction h as [|[k v] h IH]; [discriminate|].
  inversion P; subst. simpl in E. destruct (String.eqb k t).
  - inversion E; subst. simpl in *. lia.
  - now apply IH.
Qed.

(** One step of the loop of lines 64-66. *)
Lemma count_node_types_step node rest h h' :
  count_node_types (node :: rest) h = Ok h' ->
  exists t,
    classified_type node = Some t /\
    count_node_types rest (dict_set t (dict_get_default t h 0 + 1) h) = Ok h'.
Proof.
  intros H. destruct node as [| | | | | |fields]; try discriminate H.
  cbn [count_node_types py_get bind] in H.
  destruct (dict_get_default "type" fields (JStr "unknown")) as [| | | |t| |] eqn:T;
    try discriminate H.
  exists t. split; [apply (classified_type_get _ _ T) | exact H].
Qed.

Lemma count_node_types_invariant node_list : forall h h',
  count_node_types node_list h = Ok h' ->
  NoDup (dict_keys h) ->
  Forall (fun item => 1 <= snd item) h ->
  NoDup (dict_keys h') /\
  Forall (fun item => 1 <= snd item) h' /\
  dict_keys h' = first_types (dict_keys h) node_list /\
  (forall t, dict_get_default t h' 0 = dict_get_default t h 0 + occurrences t node_list) /\
  total h' = total h + Z.of_nat (List.length node_list).
Proof.
  induction node_list as [|node rest IH]; intros h h' H N P.
  - apply ok_inj in H. subst h'. simpl.
    repeat split; try assumption; intros; lia.
  - destruct (count_node_types_step _ _ _ _ H) as [t [T H']].
    pose proof (dict_get_default_nonneg t h P) as G.
    destruct (IH _ _ H') as [N' [P' [K' [C' S']]]].
    + now apply dict_set_NoDup.
    + apply dict_set_positive; [exact P | lia].
    + split; [exact N'|]. split; [exact P'|]. split; [|split].
      * rewrite K'. cbn [first_types]. rewrite T, dict_keys_set, dict_mem_keys.
        reflexivity.
      * intros t'. rewrite C', dict_get_default_set. cbn [occurrences]. rewrite T.
        rewrite (String.eqb_sym t t').
        destruct (String.eqb t' t) eqn:E; [|lia].
        apply String.eqb_eq in E. subst. lia.
      * rewrite S'. unfold total. rewrite sum_counts_incr.
        cbn [List.length]. rewrite Nat2Z.inj_succ. lia.
Qed.

(** X1: the histogram built by lines 63-66 has one bucket for each type
    that occurs, in the order in which the types first occur; the count of
    a bucket is the number of nodes of that type, so it is at least 1, a
    type that does not occur has no bucket, and the counts add up to the
    number of nodes. *)
Theorem histogram_counts (node_list : list json) (histogram : dict Z) :
  count_node_types node_list [] = Ok histogram ->
  NoDup (dict_keys histogram) /\
  dict_keys histogram = first_types [] node_list /\
  (forall t, dict_get_default t histogram 0 = occurrences t node_list) /\
  (forall t c, dict_get t histogram = Some c ->
               c = occurrences t node_list /\ 1 <= c) /\
  (forall t, dict_get t histogram = None <-> occurrences t node_list = 0) /\
  total histogram = Z.of_nat (List.length node_list).
Proof.
  intros H.
  destruct (count_node_types_invariant _ _ _ H (NoDup_nil _) (Forall_nil _))
    as [N [P [K [C S]]]].
  assert (Pos : forall t c, dict_get t histogram = Some c -> 1 <= c).
  { clear - P. intros t c E. induction histogram as [|[k v] h IH]; [discriminate|].
    inversion P; subst. simpl in E. destruct (String.eqb k t).
    - inversion E; subst. assumption.
    - now apply IH. }
  assert (C' : forall t, dict_get_default t histogram 0 = occurrences t node_list).
  { intros t. rewrite C. reflexivity. }
  clear C.
  split; [exact N|]. split; [exact K|]. split; [|split; [|split]].
  - exact C'.
  - intros t c E. split; [|now apply (Pos t)].
    rewrite <- C'. unfold dict_get_default. now rewrite E.
  - intros t. specialize (C' t). unfold dict_get_default in C'.
    destruct (dict_get t histogram) as [c|] eqn:E.
    + pose proof (Pos t c E). split; [discriminate | lia].
    + split; [lia | reflexivity].
  - rewrite S. reflexivity.
Qed.

(** The histogram of the small workflow. *)
Lemma histogram_counts_witness :
  dict_keys (node_types small_analysis)
  = first_types [] (nodes small_analysis) /\
  dict_get_default "openAiAgent" (node_types small_analysis) 0
  = occurrences "openAiAgent" (nodes small_analysis) /\
  total (node_types small_analysis) = 4.
Proof.
  destruct (histogram_counts (nodes small_analysis) (node_types small_analysis))
    as [_ [K [C [_ [_ S]]]]].
  - vm_compute. reflexivity.
  - split; [exact K|]. split; [apply C | exact S].
Defined.

Lemma matching_nodes_bounds keywords node_list :
  0 <= matching_nodes keywords node_list <= Z.of_nat (List.length node_list).
Proof.
  induction node_list as [|n l IH]; [simpl; lia|].
  cbn [matching_nodes List.length]. rewrite Nat2Z.inj_succ.
  destruct (classified_type n) as [t|]; [destruct (matches_any keywords t)|]; lia.
Qed.

(** The number of nodes is the length of the node list: a [nodes] value
    that is not an array passes the loops only when it is empty. *)
Lemma node_count_length doc a :
  analyse doc = Ok a -> node_count a = Z.of_nat (List.length (nodes a)).
Proof.
  intros H. destruct (analyse_inv _ _ H) as [fields [_ [_ [L [I [C _]]]]]].
  destruct (dict_get_default "nodes" fields (JArr [])) as [| | | |s|l|d];
    try discriminate L; cbn [py_len py_iter] in L, I;
    apply ok_inj in L; apply ok_inj in I; rewrite <- L, <- I in *.
  - destruct s as [|c s]; [reflexivity | discriminate C].
  - reflexivity.
  - destruct d as [|[k v] d]; [reflexivity | discriminate C].
Qed.

(** X2: in every analysis the node count is the number of nodes visited,
    the counts of the histogram add up to it, and the AI count and the
    database count each lie between 0 and it. *)
Theorem counts_bounded (doc : json) (a : analysis) :
  analyse doc = Ok a ->
  node_count a = Z.of_nat (List.length (nodes a)) /\
  total (node_types a) = node_count a /\
  0 <= ai_nodes a <= node_count a /\
  0 <= db_nodes a <= node_count a.
Proof.
  intros H. pose proof (node_count_length _ _ H) as L.
  destruct (analyse_inv _ _ H) as [fields [_ [_ [_ [_ [C [Ea [Ed _]]]]]]]].
  destruct (count_node_types_invariant _ _ _ C (NoDup_nil _) (Forall_nil _))
    as [_ [_ [_ [_ T]]]].
  destruct (count_matching ai_keywords is_ai_type a doc H is_ai_type_spec) as [_ A].
  destruct (count_matching db_keywords is_db_type a doc H is_db_type_spec) as [_ D].
  unfold count_ai_nodes in Ea. unfold count_db_nodes in Ed.
  rewrite L, Ea, Ed, A, D. split; [reflexivity|]. split; [exact T|].
  split; apply matching_nodes_bounds.
Qed.

Lemma counts_bounded_witness :
  node_count small_analysis = 4 /\
  total (node_types small_analysis) = node_count small_analysis /\
  0 <= ai_nodes small_analysis <= node_count small_analysis.
Proof.
  destruct (counts_bounded small_doc small_analysis) as [_ [T [A _]]].
  - vm_compute. reflexivity.
  - split; [reflexivity|]. split; [exact T | exact A].
Defined.

(** ** Prompts and AI nodes *)

Lemma inspected_is_ai node :
  inspected node = true ->
  exists t, classified_type node = Some t /\ matches_any ai_keywords t = true.
Proof.
  unfold inspected, prompt_type, classified_type.
  destruct node as [| | | | | |fields]; try discriminate.
  destruct (dict_get "type" fields) as [[| | | |t| |]|]; try discriminate.
  intros I. exists t. split; [reflexivity|].
  unfold ai_keywords. cbn [matches_any existsb].
  apply orb_true_iff in I. destruct I as [I|I]; rewrite I;
    rewrite ?orb_true_r; reflexivity.
Qed.

Lemma collected_length key node_list :
  Z.of_nat (List.length (collected key node_list))
  <= matching_nodes ai_keywords node_list.
Proof.
  induction node_list as [|n l IH]; [simpl; lia|].
  rewrite collected_cons, length_app, Nat2Z.inj_add. cbn [matching_nodes].
  destruct (inspected n) eqn:I.
  - destruct (inspected_is_ai n I) as [t [-> ->]].
    destruct (parameter key n) as [v|]; [destruct (_ && _)%bool|];
      cbn [List.length]; lia.
  - pose proof (matching_nodes_bounds ai_keywords [n]) as B.
    cbn [matching_nodes List.length] in B. cbn [List.length]. lia.
Qed.

Lemma analysis_prompts doc a :
  analyse doc = Ok a ->
  user_prompts a = collected "text" (nodes a) /\
  system_prompts a = collected "systemPrompt" (nodes a).
Proof.
  intros H. destruct (analyse_inv _ _ H) as [fields [_ [_ [_ [_ [_ [_ [_ E]]]]]]]].
  apply extract_prompts_spec in E. exact E.
Qed.

Lemma analysis_ai_nodes doc a :
  analyse doc = Ok a -> ai_nodes a = matching_nodes ai_keywords (nodes a).
Proof.
  intros H. destruct (analyse_inv _ _ H) as [fields [_ [_ [_ [_ [_ [Ea _]]]]]]].
  destruct (count_matching ai_keywords is_ai_type a doc H is_ai_type_spec) as [_ A].
  unfold count_ai_nodes in Ea. now rewrite Ea.
Qed.

Lemma analysis_db_nodes doc a :
  analyse doc = Ok a -> db_nodes a = matching_nodes db_keywords (nodes a).
Proof.
  intros H. destruct (analyse_inv _ _ H) as [fields [_ [_ [_ [_ [_ [_ [Ed _]]]]]]]].
  destruct (count_matching db_keywords is_db_type a doc H is_db_type_spec) as [_ D].
  unfold count_db_nodes in Ed. now rewrite Ed.
Qed.

(** X3: every node whose prompts are read is a node counted as an AI node,
    so an analysis never holds more system prompts, or more user prompts,
    than AI nodes. *)
Theorem prompts_from_ai_nodes (doc : json) (a : analysis) :
  analyse doc = Ok a ->
  (forall node, In node (nodes a) -> inspected node = true ->
     exists t, classified_type node = Some t /\ matches_any ai_keywords t = true) /\
  Z.of_nat (List.length (system_prompts a)) <= ai_nodes a /\
  Z.of_nat (List.length (user_prompts a)) <= ai_nodes a.
Proof.
  intros H. destruct (analysis_prompts _ _ H) as [-> ->].
  rewrite (analysis_ai_nodes _ _ H).
  split; [intros node _; apply inspected_is_ai|].
  split; apply collected_length.
Qed.

Lemma prompts_from_ai_nodes_witness :
  Z.of_nat (List.length (system_prompts small_analysis)) <= ai_nodes small_analysis /\
  Z.of_nat (List.length (user_prompts small_analysis)) <= ai_nodes small_analysis.
Proof.
  destruct (prompts_from_ai_nodes small_doc small_analysis) as [_ B].
  - vm_compute. reflexivity.
  - exact B.
Defined.

(** ** Nodes without a type *)

Lemma untyped_classified node :
  untyped node = true ->
  classified_type node = Some "unknown" /\ inspected node = false.
Proof.
  unfold untyped, classified_type, inspected, prompt_type, dict_mem.
  destruct node as [| | | | | |fields]; try discriminate.
  destruct (dict_get "type" fields); [discriminate|]. intros _. split; reflexivity.
Qed.

Lemma untyped_first_types node_list : forall seen,
  forallb untyped node_list = true ->
  first_types seen node_list
  = match node_list with
    | [] => seen
    | _ :: _ => if key_in "unknown" seen then seen else seen ++ ["unknown"]
    end.
Proof.
  induction node_list as [|n l IH]; intros seen U; [reflexivity|].
  simpl in U. apply andb_true_iff in U. destruct U as [Un Ul].
  cbn [first_types]. rewrite (proj1 (untyped_classified n Un)), (IH _ Ul).
  destruct l as [|m l]; [reflexivity|].
  destruct (key_in "unknown" seen) eqn:K; [now rewrite K|].
  assert (K' : key_in "unknown" (seen ++ ["unknown"]) = true).
  { apply key_in_In, in_or_app. right. now left. }
  now rewrite K'.
Qed.

Lemma untyped_occurrences node_list :
  forallb untyped node_list = true ->
  occurrences "unknown" node_list = Z.of_nat (List.length node_list).
Proof.
  induction node_list as [|n l IH]; intros U; [reflexivity|].
  simpl in U. apply andb_true_iff in U. destruct U as [Un Ul].
  cbn [occurrences List.length]. rewrite (proj1 (untyped_classified n Un)), (IH Ul).
  rewrite Nat2Z.inj_succ, String.eqb_refl. lia.
Qed.

Lemma untyped_collected key node_list :
  forallb untyped node_list = true -> collected key node_list = [].
Proof.
  induction node_list as [|n l IH]; intros U; [reflexivity|].
  simpl in U. apply andb_true_iff in U. destruct U as [Un Ul].
  rewrite collected_cons, (proj2 (untyped_classified n Un)), (IH Ul). reflexivity.
Qed.

(** X4: nodes without a [type] entry are filed under "unknown" and are
    neither AI nodes, database nodes nor prompt sources.  So a document
    whose nodes all lack a type (in particular one without nodes) has an
    empty histogram or the single bucket "unknown" with the node count,
    both counts 0 and no prompts. *)
Theorem untyped_nodes (doc : json) (a : analysis) :
  analyse doc = Ok a ->
  forallb untyped (nodes a) = true ->
  node_types a = match nodes a with
                 | [] => []
                 | _ :: _ => [("unknown", node_count a)]
                 end /\
  ai_nodes a = 0 /\ db_nodes a = 0 /\
  user_prompts a = [] /\ system_prompts a = [].
Proof.
  intros H U.
  destruct (analysis_prompts _ _ H) as [-> ->].
  rewrite (analysis_ai_nodes _ _ H), (analysis_db_nodes _ _ H).
  rewrite !(untyped_collected _ _ U).
  assert (M : forall keywords, matches_any keywords "unknown" = false ->
                               matching_nodes keywords (nodes a) = 0).
  { intros keywords F. apply matching_nodes_none. intros node t I T.
    assert (Un : untyped node = true).
    { rewrite forallb_forall in U. now apply U. }
    rewrite (proj1 (untyped_classified node Un)) in T. inversion T. now subst. }
  rewrite (M ai_keywords eq_refl), (M db_keywords eq_refl).
  split; [|repeat split].
  rewrite (node_count_length _ _ H).
  destruct (analyse_inv _ _ H) as [fields [_ [_ [_ [_ [C _]]]]]].
  destruct (count_node_types_invariant _ _ _ C (NoDup_nil _) (Forall_nil _))
    as [_ [_ [K [O _]]]].
  rewrite (untyped_first_types _ _ U) in K. specialize (O "unknown").
  rewrite (untyped_occurrences _ U) in O.
  destruct (nodes a) as [|n l].
  - destruct (node_types a); [reflexivity | discriminate K].
  - cbn in K. destruct (node_types a) as [|[k c] [|item rest]]; try discriminate K.
    inversion K; subst k. unfold dict_get_default in O. cbn in O. now subst c.
Qed.

(** Two nodes without a type, and a document without nodes. *)
Lemma untyped_nodes_witness :
  node_types {| workflow_title := JStr "Untitled Workflow";
                nodes := [JObj []; JObj [("name", JStr "x")]];
                node_count := 2;
                node_types := [("unknown", 2)];
                ai_nodes := 0; db_nodes := 0;
                user_prompts := []; system_prompts := [] |}
  = [("unknown", 2)].
Proof.
  destruct (untyped_nodes
              (JObj [("nodes", JArr [JObj []; JObj [("name", JStr "x")]])])
              {| workflow_title := JStr "Untitled Workflow";
                 nodes := [JObj []; JObj [("name", JStr "x")]];
                 node_count := 2;
                 node_types := [("unknown", 2)];
                 ai_nodes := 0; db_nodes := 0;
                 user_prompts := []; system_prompts := [] |}
              eq_refl eq_refl) as [T _].
  exact T.
Defined.

(** ** The requests an invocation sends *)

Lemma attempt_events w r path res trace :
  attempt w r path = (res, trace) ->
  forall ev, In ev trace ->
    ev = ApiCall r \/
    exists s, ev = FileWrite (output_path path) "utf-8" s /\
              chat_completions_create w r = inl s.
Proof.
  destruct (attempt_cases w r path)
    as [[e [_ H]] | [[s [e [C [_ H]]]] | [s [[C _] H]]]];
    rewrite H; intros E; inversion E; subst; intros ev I;
    repeat (destruct I as [I|I]; [subst ev; eauto|]); destruct I.
Qed.

Lemma primary_call_shape w key model_name a d :
  api_key (primary_call w key model_name a d) = key /\
  model (primary_call w key model_name a d) = model_name /\
  single_user_message (primary_call w key model_name a d) /\
  (model_name = "o1" -> o1_shape (primary_call w key model_name a d)) /\
  (model_name <> "o1" -> standard_shape (primary_call w key model_name a d)).
Proof.
  unfold primary_call, primary_request, single_user_message, o1_shape, standard_shape.
  destruct (String.eqb model_name "o1") eqn:E; cbn.
  - apply String.eqb_eq in E.
    repeat split; eauto; intros; congruence.
  - apply String.eqb_neq in E.
    repeat split; eauto; intros; congruence.
Qed.

Lemma fallback_call_shape w key a payload :
  api_key (fallback_call w key a payload) = key /\
  model (fallback_call w key a payload) = fallback_model /\
  single_user_message (fallback_call w key a payload) /\
  standard_shape (fallback_call w key a payload).
Proof.
  unfold fallback_call, fallback_request, single_user_message, standard_shape. cbn.
  repeat split; eauto.
Qed.

(** The API calls of an invocation: none, the primary call, or the primary
    call followed by the fallback call. *)
Lemma ends_calls w path model_name out trace :
  ends w path model_name out trace ->
  forall r, In (ApiCall r) trace ->
  exists doc a key d,
    load_workflow w path = Ok doc /\ analyse doc = Ok a /\
    credential w key /\ size_reducer doc (nodes a) = Ok d /\
    (r = primary_call w key model_name a d \/
     exists payload, model_name <> fallback_model /\
                     super_simplify a d = Ok payload /\
                     r = fallback_call w key a payload).
Proof.
  intros H.
  destruct H as
    [ e L
    | doc e L A
    | doc a L A M
    | doc a key e L A K S
    | doc a key d s L A K S SU
    | doc a key d e tr L A K S AT F
    | doc a key d e tr x L A K S AT F SS
    | doc a key d e tr payload s L A K S AT F SS SU
    | doc a key d e tr payload fe tr' L A K S AT F SS AT' ];
    intros r I; try (now destruct I);
    exists doc, a, key, d; repeat (split; [assumption|]).
  - destruct I as [I|[I|[]]]; [|discriminate I]. inversion I. now left.
  - destruct (attempt_events _ _ _ _ _ AT _ I) as [E|[s [E _]]];
      [|discriminate E]. inversion E. now left.
  - destruct (attempt_events _ _ _ _ _ AT _ I) as [E|[s [E _]]];
      [|discriminate E]. inversion E. now left.
  - apply in_app_or in I. destruct I as [I|I].
    + destruct (attempt_events _ _ _ _ _ AT _ I) as [E|[s' [E _]]];
        [|discriminate E]. inversion E. now left.
    + destruct I as [I|[I|[]]]; [|discriminate I]. inversion I.
      right. now exists payload.
  - apply in_app_or in I. destruct I as [I|I].
    + destruct (attempt_events _ _ _ _ _ AT _ I) as [E|[s' [E _]]];
        [|discriminate E]. inversion E. now left.
    + destruct (attempt_events _ _ _ _ _ AT' _ I) as [E|[s' [E _]]];
        [|discriminate E]. inversion E. right. now exists payload.
Qed.

(** X5: every request an invocation sends carries the credential read
    from the environment and a single user message, and goes to the
    requested model or to the fallback model; it has the shape with
    [max_completion_tokens] exactly when its model is "o1", and the
    standard shape ([max_tokens] 4000, temperature 0.7) otherwise. *)
Theorem request_shape (w : world) (path model_name : string)
    (out : outcome) (trace : list event) (r : request) :
  summarize_workflow w path model_name = (out, trace) ->
  In (ApiCall r) trace ->
  credential w (api_key r) /\
  single_user_message r /\
  (model r = model_name \/ model r = fallback_model) /\
  (model r = "o1" -> o1_shape r) /\
  (model r <> "o1" -> standard_shape r).
Proof.
  intros H I. apply summarize_workflow_run in H.
  destruct (ends_calls _ _ _ _ _ H r I) as [doc [a [key [d [_ [_ [K [_ R]]]]]]]].
  destruct R as [-> | [payload [_ [_ ->]]]].
  - destruct (primary_call_shape w key model_name a d) as [-> [-> [M [O S]]]].
    split; [exact K|]. split; [exact M|]. split; [now left|].
    split; [exact O | exact S].
  - destruct (fallback_call_shape w key a payload) as [-> [-> [M S]]].
    split; [exact K|]. split; [exact M|]. split; [now right|].
    split; [intros E; discriminate E | intros _; exact S].
Qed.

(** The fallback call of the small workflow has the standard shape. *)
Lemma request_shape_witness :
  standard_shape (fallback_call down_world "sk-test" small_analysis small_payload) /\
  api_key (fallback_call down_world "sk-test" small_analysis small_payload) = "sk-test".
Proof.
  destruct (request_shape down_world "wf.json" "gpt-4o"
              (Returned "Error with fallback model: Connection error.")
              [ApiCall (primary_call down_world "sk-test" "gpt-4o" small_analysis small_doc);
               ApiCall (fallback_call down_world "sk-test" small_analysis small_payload)]
              (fallback_call down_world "sk-test" small_analysis small_payload))
    as [_ [_ [_ [_ S]]]].
  - vm_compute. reflexivity.
  - right. left. reflexivity.
  - split; [apply S; discriminate | reflexivity].
Defined.

(** ** The trace of an invocation *)

Lemma attempt_trace w r path res trace :
  attempt w r path = (res, trace) ->
  trace = [ApiCall r] \/
  exists s, trace = [ApiCall r; FileWrite (output_path path) "utf-8" s] /\
            chat_completions_create w r = inl s.
Proof.
  destruct (attempt_cases w r path)
    as [[e [_ H]] | [[s [e [C [_ H]]]] | [s [[C _] H]]]];
    rewrite H; intros E; inversion E; subst; eauto.
Qed.

Lemma ends_trace w path model_name out trace :
  ends w path model_name out trace ->
  trace = [] \/
  (exists r, model r = model_name /\ attempt_shape w path r trace) \/
  (exists r1 r2 t1 t2,
     model r1 = model_name /\ model_name <> fallback_model /\
     model r2 = fallback_model /\
     attempt_shape w path r1 t1 /\ attempt_shape w path r2 t2 /\
     trace = t1 ++ t2).
Proof.
  intros H.
  destruct H as
    [ e L
    | doc e L A
    | doc a L A M
    | doc a key e L A K S
    | doc a key d s L A K S SU
    | doc a key d e tr L A K S AT F
    | doc a key d e tr x L A K S AT F SS
    | doc a key d e tr payload s L A K S AT F SS SU
    | doc a key d e tr payload fe tr' L A K S AT F SS AT' ];
    try (now left); right.
  - left. exists (primary_call w key model_name a d).
    split; [apply primary_call_shape|]. right. exists s. split; [reflexivity | apply SU].
  - left. exists (primary_call w key model_name a d).
    split; [apply primary_call_shape | apply (attempt_trace _ _ _ _ _ AT)].
  - left. exists (primary_call w key model_name a d).
    split; [apply primary_call_shape | apply (attempt_trace _ _ _ _ _ AT)].
  - right. exists (primary_call w key model_name a d), (fallback_call w key a payload),
      tr, [ApiCall (fallback_call w key a payload); summary_write path s].
    split; [apply primary_call_shape|]. split; [exact F|].
    split; [apply fallback_call_shape|].
    split; [apply (attempt_trace _ _ _ _ _ AT)|]. split; [|reflexivity].
    right. exists s. split; [reflexivity | apply SU].
  - right. exists (primary_call w key model_name a d), (fallback_call w key a payload),
      tr, tr'.
    split; [apply primary_call_shape|]. split; [exact F|].
    split; [apply fallback_call_shape|].
    split; [apply (attempt_trace _ _ _ _ _ AT)|].
    split; [apply (attempt_trace _ _ _ _ _ AT') | reflexivity].
Qed.

Lemma attempt_shape_facts w path r trace :
  attempt_shape w path r trace ->
  api_calls trace = [r] /\
  (List.length (file_writes trace) <= 1)%nat /\
  (exists rest, trace = ApiCall r :: rest) /\
  (forall p enc text, In (FileWrite p enc text) trace ->
     p = output_path path /\ enc = "utf-8" /\
     chat_completions_create w r = inl text).
Proof.
  intros [-> | [s [-> C]]].
  - split; [reflexivity|]. split; [cbn; lia|]. split; [eauto|].
    intros p enc text [I|[]]. discriminate I.
  - split; [reflexivity|]. split; [cbn; lia|]. split; [eauto|].
    intros p enc text [I|[I|[]]]; [discriminate I|].
    inversion I; subst. auto.
Qed.

Lemma file_writes_app t1 t2 : file_writes (t1 ++ t2) = file_writes t1 ++ file_writes t2.
Proof. unfold file_writes. apply flat_map_app. Qed.

(** X6: an invocation issues at most two API calls and never more writes
    than calls; its trace is empty or starts with the call to the requested
    model; a second call happens only when the requested model is not the
    fallback model, and goes to the fallback model; every write goes to
    the one output path, as UTF-8, and carries exactly the text that a call
    of the same invocation returned. *)
Theorem trace_discipline (w : world) (path model_name : string)
    (out : outcome) (trace : list event) :
  summarize_workflow w path model_name = (out, trace) ->
  (List.length (api_calls trace) <= 2)%nat /\
  (List.length (file_writes trace) <= List.length (api_calls trace))%nat /\
  (trace = [] \/ exists r rest, trace = ApiCall r :: rest /\ model r = model_name) /\
  (forall r1 r2, api_calls trace = [r1; r2] ->
     model_name <> fallback_model /\ model r2 = fallback_model) /\
  (forall p enc text, In (FileWrite p enc text) trace ->
     p = output_path path /\ enc = "utf-8" /\
     exists r, In r (api_calls trace) /\ chat_completions_create w r = inl text).
Proof.
  intros H. apply summarize_workflow_run in H.
  destruct (ends_trace _ _ _ _ _ H)
    as [-> | [[r [M S]] | [r1 [r2 [t1 [t2 [M1 [F [M2 [S1 [S2 ->]]]]]]]]]]].
  - cbn. split; [lia|]. split; [lia|]. split; [now left|].
    split; [intros r1 r2 E; discriminate E | intros p enc text []].
  - destruct (attempt_shape_facts _ _ _ _ S) as [C [W [[rest T] P]]].
    rewrite C. cbn [List.length]. split; [lia|]. split; [lia|].
    split; [right; exists r, rest; now split|].
    split; [intros r1 r2 E; discriminate E|].
    intros p enc text I. destruct (P p enc text I) as [-> [-> Ch]].
    repeat split. exists r. split; [now left | exact Ch].
  - destruct (attempt_shape_facts _ _ _ _ S1) as [C1 [W1 [[rest1 T1] P1]]].
    destruct (attempt_shape_facts _ _ _ _ S2) as [C2 [W2 [_ P2]]].
    rewrite api_calls_app, file_writes_app, C1, C2, !length_app.
    cbn [List.length app]. split; [lia|]. split; [lia|].
    split; [right; exists r1, (rest1 ++ t2); rewrite T1; now split|].
    split; [intros x y E; inversion E; subst; now split|].
    intros p enc text I. apply in_app_or in I. destruct I as [I|I].
    + destruct (P1 p enc text I) as [-> [-> Ch]].
      repeat split. exists r1. split; [now left | exact Ch].
    + destruct (P2 p enc text I) as [-> [-> Ch]].
      repeat split. exists r2. split; [right; now left | exact Ch].
Qed.

(** The trace of the small workflow when only the fallback model
    answers: two calls, one write. *)
Lemma trace_discipline_witness :
  (List.length (api_calls
     [ApiCall (primary_call fallback_world "sk-test" "gpt-4o" small_analysis small_doc);
      ApiCall (fallback_call fallback_world "sk-test" small_analysis small_payload);
      FileWrite "wf_summary.md" "utf-8" "# Short summary"]) <= 2)%nat /\
  "wf_summary.md" = output_path "exports/wf.json".
Proof.
  destruct (trace_discipline fallback_world "exports/wf.json" "gpt-4o"
              (Returned "# Short summary")
              [ApiCall (primary_call fallback_world "sk-test" "gpt-4o"
                                     small_analysis small_doc);
               ApiCall (fallback_call fallback_world "sk-test"
                                      small_analysis small_payload);
               FileWrite "wf_summary.md" "utf-8" "# Short summary"])
    as [C [_ [_ [_ P]]]].
  - vm_compute. reflexivity.
  - split; [exact C|].
    apply (P "wf_summary.md" "utf-8" "# Short summary").
    right. right. left. reflexivity.
Defined.

Local Open Scope string_scope.
Local Open Scope Z_scope.

(** ** The name of the output file *)

Lemma append_inv_head (s t u : string) : s ++ t = s ++ u -> t = u.
Proof. induction s as [|c s IH]; simpl; intros H; [exact H|]. inversion H. auto. Qed.

(** The position [rfind_dot] returns holds a dot. *)
Lemma rfind_dot_spec (s : string) : forall pos found i,
  rfind_dot s pos found = Some i ->
  found = Some i \/
  (pos <= i)%nat /\ String.get (i - pos) s = Some "."%char.
Proof.
  induction s as [|c s IH]; intros pos found i H; simpl in H.
  - now left.
  - apply IH in H. destruct H as [H | [L G]].
    + destruct (Ascii.eqb c ".") eqn:E; [|now left].
      inversion H; subst. apply Ascii.eqb_eq in E. subst c.
      right. split; [lia|]. now rewrite Nat.sub_diag.
    + right. split; [lia|].
      replace (i - pos)%nat with (S (i - S pos)) by lia. exact G.
Qed.

(** A text splits at any of its positions. *)
Lemma split_at (s : string) : forall i c,
  String.get i s = Some c ->
  exists rest, s = substring 0 i s ++ String c rest.
Proof.
  induction s as [|d s IH]; intros i c G; [discriminate G|].
  destruct i as [|i]; simpl in G.
  - inversion G; subst. exists s. reflexivity.
  - destruct (IH _ _ G) as [rest E]. exists rest. simpl. now rewrite <- E.
Qed.

(** The stem is the name, or the name cut before a dot. *)
Lemma path_stem_name (p : string) :
  path_stem p = path_name p \/
  exists rest, path_name p = path_stem p ++ "." ++ rest.
Proof.
  unfold path_stem. destruct (rfind_dot (path_name p) 0 None) as [i|] eqn:R; [|now left].
  destruct (_ && _)%bool; [|now left]. right.
  apply rfind_dot_spec in R. destruct R as [R | [_ G]]; [discriminate R|].
  rewrite Nat.sub_0_r in G. apply (split_at _ _ _ G).
Qed.

Lemma output_path_not_name (p : string) : output_path p <> path_name p.
Proof.
  unfold output_path. destruct (path_stem_name p) as [E | [rest E]]; rewrite E.
  - intros H. apply (f_equal String.length) in H.
    rewrite append_length in H. simpl in H. lia.
  - intros H. apply append_inv_head in H. discriminate H.
Qed.

Lemma last_snoc {A : Type} (l : list A) (x d : A) : last (l ++ [x])%list d = x.
Proof.
  induction l as [|y l IH]; [reflexivity|]. simpl.
  destruct (l ++ [x])%list eqn:E; [now destruct l | exact IH].
Qed.

(** X7: the summary is never written over the workflow file: the name of
    the output file differs from the name of the input file, so the two
    paths, resolved from any current directory, differ. *)
Theorem output_is_not_input (workflow_path : string) :
  output_path workflow_path <> path_name workflow_path /\
  forall cwd,
    path_resolve cwd (output_path workflow_path) <> path_resolve cwd workflow_path.
Proof.
  split; [apply output_path_not_name|]. intros cwd H.
  pose proof (output_path_resolve cwd workflow_path) as O.
  rewrite O in H. fold (output_path workflow_path) in H.
  assert (N : path_name workflow_path = output_path workflow_path).
  { unfold path_resolve in H. unfold path_name.
    destruct (path_is_absolute workflow_path).
    - rewrite <- H. apply last_snoc.
    - apply app_inv_head in H. rewrite <- H. reflexivity. }
  apply (output_path_not_name workflow_path). now rewrite N.
Qed.

Lemma output_is_not_input_witness :
  output_path "flows/demo.json" <> path_name "flows/demo.json" /\
  forall cwd,
    path_resolve cwd (output_path "flows/demo.json")
    <> path_resolve cwd "flows/demo.json".
Proof. exact (output_is_not_input "flows/demo.json"). Defined.

Local Open Scope list_scope.
Local Open Scope Z_scope.

(** ** Reducing twice *)

Lemma restrict_restrict keys (d : dict json) :
  restrict keys (restrict keys d) = restrict keys d.
Proof.
  unfold restrict at 1 3.
  assert (G : forall sub, (forall k, In k sub -> In k keys) ->
            flat_map (fun k => match dict_get k (restrict keys d) with
                               | Some v => [(k, v)] | None => [] end) sub
            = flat_map (fun k => match dict_get k d with
                                 | Some v => [(k, v)] | None => [] end) sub).
  { induction sub as [|k sub IH]; intros S; [reflexivity|]. simpl.
    rewrite IH by (intros k' I; apply S; now right).
    rewrite restrict_get, (proj2 (key_in_In k keys) (S k (or_introl eq_refl))).
    reflexivity. }
  apply G. auto.
Qed.

Lemma reduced_node_object node :
  is_object node = true -> is_object (reduced_node node) = true.
Proof. destruct node; try discriminate. reflexivity. Qed.

Lemma reduced_node_reducible node :
  is_object node = true -> reducible (reduced_node node) = true.
Proof. destruct node; try discriminate. reflexivity. Qed.

Lemma reduced_node_built name type_ kept position :
  reduced_node (JObj [("name", name); ("type", type_); ("parameters", JObj kept);
                      ("position", position)])
  = JObj [("name", name); ("type", type_);
          ("parameters", JObj (restrict important_params kept));
          ("position", position)].
Proof. reflexivity. Qed.

Lemma reduced_node_twice node :
  reduced_node (reduced_node node) = reduced_node node.
Proof.
  destruct node as [| | | | | |fields]; try reflexivity.
  unfold reduced_node at 2. rewrite reduced_node_built, restrict_restrict.
  reflexivity.
Qed.

Lemma dict_set_same {V : Type} (k : string) (v : V) (d : dict V) :
  dict_get k d = Some v -> dict_set k v d = d.
Proof.
  induction d as [|[k0 v0] d IH]; simpl; [discriminate|].
  destruct (String.eqb k0 k) eqn:E.
  - apply String.eqb_eq in E. intros H. inversion H. now subst.
  - intros H. now rewrite IH.
Qed.

Lemma filter_twice {A : Type} (f : A -> bool) (l : list A) :
  filter f (filter f l) = filter f l.
Proof.
  rewrite filter_filter. apply filter_ext. intros x. now destruct (f x).
Qed.

Lemma simplify_workflow_nodes workflow node_list reduced :
  simplify_workflow workflow node_list = Ok reduced ->
  dict_get "nodes" reduced = Some (JArr (map reduced_node node_list)).
Proof.
  intros H. destruct (simplify_workflow_spec _ _ _ H) as [-> _].
  rewrite <- remove_keys_filter, remove_keys_get, dict_get_set. reflexivity.
Qed.

(** X8: reducing is idempotent.  A node that came out of the reducer is
    returned unchanged when reduced again, and so is a reduced document
    reduced again with its own nodes. *)
Theorem reduction_idempotent (workflow : dict json) (node_list : list json)
    (reduced : dict json) :
  simplify_workflow workflow node_list = Ok reduced ->
  exists reduced_nodes,
    simplify_nodes node_list = Ok reduced_nodes /\
    dict_get "nodes" reduced = Some (JArr reduced_nodes) /\
    simplify_nodes reduced_nodes = Ok reduced_nodes /\
    simplify_workflow reduced reduced_nodes = Ok reduced.
Proof.
  intros H. exists (map reduced_node node_list).
  pose proof (simplify_workflow_nodes _ _ _ H) as N.
  destruct (simplify_workflow_spec _ _ _ H) as [E O].
  assert (S1 : simplify_nodes node_list = Ok (map reduced_node node_list)).
  { unfold simplify_workflow in H. bind_as H rn Hrn.
    destruct (simplify_nodes_spec _ _ Hrn) as [<- _]. exact Hrn. }
  assert (S2 : simplify_nodes (map reduced_node node_list)
               = Ok (map reduced_node node_list)).
  { rewrite simplify_nodes_total.
    - rewrite map_map. f_equal. apply map_ext. intros n. apply reduced_node_twice.
    - rewrite forallb_forall. intros n I. apply in_map_iff in I.
      destruct I as [m [<- I]]. apply reduced_node_reducible.
      rewrite Forall_forall in O. now apply O. }
  split; [exact S1|]. split; [exact N|]. split; [exact S2|].
  unfold simplify_workflow. rewrite S2. cbn [bind].
  rewrite (dict_set_same _ _ _ N), remove_keys_filter, E, filter_twice. reflexivity.
Qed.

(** The large workflow: its reduced form is a fixed point of the reducer. *)
Lemma reduction_idempotent_witness :
  exists reduced_nodes,
    dict_get "nodes" [("name", JStr "Big");
                      ("nodes", JArr (map reduced_node large_nodes));
                      ("active", JBool false)] = Some (JArr reduced_nodes) /\
    simplify_nodes reduced_nodes = Ok reduced_nodes.
Proof.
  destruct (reduction_idempotent large_workflow large_nodes
              [("name", JStr "Big");
               ("nodes", JArr (map reduced_node large_nodes));
               ("active", JBool false)]) as [rn [_ [N [S _]]]].
  - vm_compute. reflexivity.
  - exists rn. split; [exact N | exact S].
Defined.

(** ** What the reducer keeps well formed *)

Lemma dict_keys_filter {V : Type} (g : string -> bool) (d : dict V) :
  dict_keys (filter (fun kv => g (fst kv)) d) = filter g (dict_keys d).
Proof.
  unfold dict_keys. induction d as [|[k v] d IH]; simpl; [reflexivity|].
  destruct (g k); simpl; now rewrite IH.
Qed.

Lemma restrict_dict_keys keys (d : dict json) :
  dict_keys (restrict keys d) = filter (fun k => dict_mem k d) keys.
Proof.
  unfold restrict, dict_keys, dict_mem. induction keys as [|k keys IH]; simpl; [reflexivity|].
  rewrite map_app, IH. now destruct (dict_get k d).
Qed.

Lemma filter_length {A : Type} (f : A -> bool) (l : list A) :
  (List.length (filter f l) <= List.length l)%nat.
Proof.
  induction l as [|x l IH]; simpl; [lia|]. destruct (f x); simpl; lia.
Qed.

Lemma dict_set_length {V : Type} (k : string) (v : V) (d : dict V) :
  (List.length (dict_set k v d) <= S (List.length d))%nat.
Proof.
  induction d as [|[k0 v0] d IH]; simpl; [lia|].
  destruct (String.eqb k0 k); simpl; lia.
Qed.

(** X9: the reducer keeps documents well formed.  If the keys of the
    workflow are pairwise distinct, so are those of the reduced document,
    which has at most one entry more; it holds exactly as many nodes as
    the workflow, and the parameters kept for a node have pairwise distinct
    keys, taken in whitelist order, and so at most 5 entries. *)
Theorem reduction_well_formed (workflow : dict json) (node_list : list json)
    (reduced : dict json) :
  simplify_workflow workflow node_list = Ok reduced ->
  NoDup (dict_keys workflow) ->
  NoDup (dict_keys reduced) /\
  (List.length reduced <= S (List.length workflow))%nat /\
  exists reduced_nodes,
    dict_get "nodes" reduced = Some (JArr reduced_nodes) /\
    List.length reduced_nodes = List.length node_list /\
    Forall (fun node =>
              exists name type_ kept position,
                node = JObj [("name", name); ("type", type_);
                             ("parameters", JObj kept); ("position", position)] /\
                NoDup (dict_keys kept) /\
                dict_keys kept
                = filter (fun k => key_in k (dict_keys kept)) important_params /\
                (List.length kept <= 5)%nat)
           reduced_nodes.
Proof.
  intros H N. pose proof (simplify_workflow_nodes _ _ _ H) as G.
  destruct (simplify_workflow_spec _ _ _ H) as [E O]. split; [|split].
  - rewrite E.
    rewrite (dict_keys_filter (fun k => negb (key_in k keys_to_remove))).
    apply NoDup_filter, dict_set_NoDup, N.
  - rewrite E. etransitivity; [apply filter_length | apply dict_set_length].
  - exists (map reduced_node node_list). split; [exact G|].
    split; [apply length_map|].
    apply Forall_forall. intros rn I. apply in_map_iff in I.
    destruct I as [n [<- I]]. rewrite Forall_forall in O. specialize (O n I).
    destruct n as [| | | | | |fields]; try discriminate O.
    eexists; eexists; eexists; eexists. split; [reflexivity|].
    set (p := parameters_of (JObj fields)).
    assert (K : dict_keys (restrict important_params p)
                = filter (fun k => dict_mem k p) important_params)
      by apply restrict_dict_keys.
    split; [|split].
    + rewrite K. apply NoDup_filter, important_params_NoDup.
    + rewrite K at 1. apply filter_ext_in. intros k I'.
      rewrite <- dict_mem_keys. unfold dict_mem at 2.
      rewrite restrict_get, (proj2 (key_in_In _ _) I'). reflexivity.
    + unfold dict_keys in K. rewrite <- (length_map fst), K.
      etransitivity; [apply filter_length | reflexivity].
Qed.

Lemma reduction_well_formed_witness :
  NoDup (dict_keys [("name", JStr "Big");
                    ("nodes", JArr (map reduced_node large_nodes));
                    ("active", JBool false)]).
Proof.
  destruct (reduction_well_formed large_workflow large_nodes
              [("name", JStr "Big");
               ("nodes", JArr (map reduced_node large_nodes));
               ("active", JBool false)]) as [N _].
  - vm_compute. reflexivity.
  - unfold large_workflow. cbn [dict_keys map fst].
    repeat (constructor; [simpl; intuition discriminate|]). constructor.
  - exact N.
Defined.

Local Open Scope string_scope.
Local Open Scope Z_scope.

(** ** The preview of the example script *)

Lemma str_split_cons (sep : ascii) (s : string) : forall cur,
  exists p rest, str_split sep s cur = p :: rest.
Proof.
  induction s as [|c s IH]; intros cur; simpl; [eauto|].
  destruct (Ascii.eqb c sep); [eauto | apply IH].
Qed.

Lemma join_cons (sep p q : string) (rest : list string) :
  join sep (p :: q :: rest) = p ++ sep ++ join sep (q :: rest).
Proof. reflexivity. Qed.

(** Splitting at line feeds and joining with line feeds gives the text
    back. *)
Lemma join_str_split (s : string) : forall cur,
  join nl (str_split lf s cur) = cur ++ s.
Proof.
  induction s as [|c s IH]; intros cur; simpl.
  - now rewrite append_nil_r.
  - destruct (Ascii.eqb c lf) eqn:E.
    + apply Ascii.eqb_eq in E. subst c.
      destruct (str_split_cons lf s "") as [p [rest S]].
      specialize (IH ""). rewrite S in *. rewrite join_cons, IH. reflexivity.
    + rewrite IH, append_assoc. reflexivity.
Qed.

Lemma str_split_length (s : string) : forall cur,
  List.length (str_split lf s cur) = S (line_feeds s).
Proof.
  induction s as [|c s IH]; intros cur; simpl; [reflexivity|].
  destruct (Ascii.eqb c lf); simpl; now rewrite IH.
Qed.

Lemma join_firstn (sep : string) (pieces : list string) : forall k,
  starts_with (join sep (firstn k pieces)) (join sep pieces).
Proof.
  unfold starts_with.
  induction pieces as [|p l IH]; intros k.
  - destruct k; exists ""; reflexivity.
  - destruct k as [|k]; [exists (join sep (p :: l)); reflexivity|].
    cbn [firstn]. destruct l as [|q l].
    + destruct k; exists ""; simpl; now rewrite append_nil_r.
    + destruct k as [|k].
      * exists (sep ++ join sep (q :: l)). reflexivity.
      * destruct (IH (S k)) as [rest E]. exists rest.
        cbn [firstn] in *. rewrite !join_cons, E, !append_assoc. reflexivity.
Qed.

(** X10: the preview the example script prints is the beginning of the
    summary, and the whole summary when it has fewer than 10 line feeds:
    joining the pieces of a split gives the text back. *)
Theorem preview_prefix (summary : string) :
  join nl (str_split lf summary "") = summary /\
  starts_with (preview summary) summary /\
  ((line_feeds summary < 10)%nat -> preview summary = summary).
Proof.
  pose proof (join_str_split summary "") as J. cbn [append] in J.
  split; [exact J|]. unfold preview. split.
  - rewrite <- J at 2. apply join_firstn.
  - intros L. rewrite firstn_all2; [exact J|].
    rewrite str_split_length. lia.
Qed.

Lemma preview_prefix_witness :
  preview "# Summary" = "# Summary".
Proof.
  apply (proj2 (proj2 (preview_prefix "# Summary"))). vm_compute. lia.
Defined.

Local Open Scope list_scope.
Local Open Scope Z_scope.

(** ** The example script *)

Lemma main_missing w path_exists :
  credential_missing w ->
  fst (fst (main w path_exists)) = Exit 1 /\ snd (main w path_exists) = [].
Proof. unfold main. intros [-> | ->]; split; reflexivity. Qed.

Lemma main_with_key w path_exists key :
  credential w key ->
  main w path_exists
  = if negb (path_exists example_path) then
      (Exit 1,
       [LogError ("Workflow file not found: " ++ example_path)%string None;
        Print ("Please place an n8n workflow JSON file at " ++ example_path)%string],
       [])
    else
      match summarize_workflow w example_path "gpt-4o" with
      | (Returned summary, trace) =>
          (Completed,
           [Print ("Summarizing workflow: " ++ example_path)%string;
            Print (nl ++ "Summary generated successfully!")%string;
            Print ("Output saved to: " ++ path_stem example_path ++ "_summary.md")%string;
            Print (nl ++ "Summary preview:")%string;
            Print (repeat_str "-" 40);
            Print (preview summary);
            Print "..."],
           trace)
      | (Raised e, trace) =>
          (Exit 1,
           [Print ("Summarizing workflow: " ++ example_path)%string;
            LogError "Error generating summary: " (Some e)],
           trace)
      end.
Proof.
  intros [K NE]. unfold main. rewrite K.
  destruct (String.eqb key "") eqn:E; [apply String.eqb_eq in E; contradiction|].
  reflexivity.
Qed.

Lemma ends_writes w path model_name out trace :
  ends w path model_name out trace ->
  forall p enc text, In (FileWrite p enc text) trace -> p = output_path path.
Proof.
  intros H p enc text I.
  destruct (ends_trace _ _ _ _ _ H)
    as [-> | [[r [_ S]] | [r1 [r2 [t1 [t2 [_ [_ [_ [S1 [S2 ->]]]]]]]]]]].
  - destruct I.
  - destruct (attempt_shape_facts _ _ _ _ S) as [_ [_ [_ P]]].
    now destruct (P p enc text I).
  - apply in_app_or in I. destruct I as [I|I].
    + destruct (attempt_shape_facts _ _ _ _ S1) as [_ [_ [_ P]]].
      now destruct (P p enc text I).
    + destruct (attempt_shape_facts _ _ _ _ S2) as [_ [_ [_ P]]].
      now destruct (P p enc text I).
Qed.

(** X11: the example script exits with status 1, before anything is
    issued, when the credential is missing or the workflow file does not
    exist; otherwise it runs [summarize_workflow] on
    [example_workflow.json] with the model "gpt-4o", exits with status 1
    when that raises and completes when it returns a str.  Whatever it
    writes goes to [example_workflow_summary.md], the name it prints. *)
Theorem main_status (w : world) (path_exists : string -> bool)
    (st : status) (printed : list output) (trace : list event) :
  main w path_exists = (st, printed, trace) ->
  (credential_missing w \/ path_exists example_path = false ->
   st = Exit 1 /\ trace = []) /\
  (st = Completed <->
   (exists key, credential w key) /\ path_exists example_path = true /\
   exists summary,
     summarize_workflow w example_path "gpt-4o" = (Returned summary, trace)) /\
  (st = Completed \/ st = Exit 1) /\
  (st = Completed ->
   In (Print "Output saved to: example_workflow_summary.md") printed) /\
  (forall p enc text, In (FileWrite p enc text) trace ->
     p = "example_workflow_summary.md").
Proof.
  intros H.
  destruct (credential_cases w) as [M | [key K]].
  - destruct (main_missing w path_exists M) as [S T]. rewrite H in S, T.
    cbn in S, T. subst st trace.
    split; [auto|]. split; [|split; [now right|split]].
    + split; [discriminate|]. intros [[key [K NE]] _].
      destruct M as [M|M]; rewrite M in K; [discriminate K|].
      inversion K. subst key. now destruct NE.
    + discriminate.
    + intros p enc text [].
  - rewrite (main_with_key _ _ _ K) in H.
    destruct (path_exists example_path) eqn:PE; cbn [negb] in H.
    + destruct (summarize_workflow w example_path "gpt-4o") as [[s|e] tr] eqn:SW;
        inversion H; subst; clear H.
      * split.
        { intros [M|F]; [|discriminate F]. destruct K as [K NE].
          destruct M as [M|M]; rewrite M in K; [discriminate K|].
          inversion K. subst key. now destruct NE. }
        split; [split; [intros _; split; [now exists key|]; split; eauto | reflexivity]|].
        split; [now left|]. split; [intros _; right; right; left; reflexivity|].
        apply summarize_workflow_run in SW. apply (ends_writes _ _ _ _ _ SW).
      * split.
        { intros [M|F]; [|discriminate F]. destruct K as [K NE].
          destruct M as [M|M]; rewrite M in K; [discriminate K|].
          inversion K. subst key. now destruct NE. }
        split; [split; [discriminate | intros [_ [_ [s E]]]; discriminate E]|].
        split; [now right|]. split; [discriminate|].
        apply summarize_workflow_run in SW. apply (ends_writes _ _ _ _ _ SW).
    + inversion H; subst; clear H.
      split; [auto|]. split; [split; [discriminate | intros [_ [F _]]; discriminate F]|].
      split; [now right|]. split; [discriminate | intros p enc text []].
Qed.

(** Without a credential the script stops at once. *)
Lemma main_status_witness :
  main keyless_world (fun _ => true)
  = (Exit 1,
     [LogError "OPENAI_API_KEY environment variable is not set!" None;
      Print "Please set your OpenAI API key as an environment variable:";
      Print "export OPENAI_API_KEY='your-key-here'  # Linux/macOS";
      Print "set OPENAI_API_KEY=your-key-here  # Windows CMD";
      Print "$env:OPENAI_API_KEY='your-key-here'  # Windows PowerShell"],
     []) /\
  Exit 1 = Exit 1 /\ @nil event = [].
Proof.
  assert (H : main keyless_world (fun _ => true)
              = (Exit 1,
                 [LogError "OPENAI_API_KEY environment variable is not set!" None;
                  Print "Please set your OpenAI API key as an environment variable:";
                  Print "export OPENAI_API_KEY='your-key-here'  # Linux/macOS";
                  Print "set OPENAI_API_KEY=your-key-here  # Windows CMD";
                  Print "$env:OPENAI_API_KEY='your-key-here'  # Windows PowerShell"],
                 [])) by reflexivity.
  split; [exact H|].
  destruct (main_status _ _ _ _ _ H) as [G _].
  apply G. left. left. reflexivity.
Defined.

(** ** Soft failures seen from the script *)

Lemma well_shaped_reducible node :
  well_shaped_node node = true -> reducible node = true.
Proof.
  unfold well_shaped_node, reducible.
  destruct node as [| | | | | |fields]; try discriminate. intros W.
  apply andb_true_iff in W. destruct W as [_ W].
  destruct (dict_get "parameters" fields) as [[]|]; try discriminate W; reflexivity.
Qed.

Lemma well_shaped_array doc : well_shaped doc = true -> nodes_is_array doc = true.
Proof.
  unfold well_shaped, nodes_is_array. destruct doc as [| | | | | |fields]; try discriminate.
  destruct (dict_get "nodes" fields) as [[]|]; try discriminate; reflexivity.
Qed.

(** On a document of the data model every step before the calls returns. *)
Lemma pipeline_total doc :
  well_shaped doc = true ->
  exists a d payload,
    analyse doc = Ok a /\ size_reducer doc (nodes a) = Ok d /\
    super_simplify a d = Ok payload.
Proof.
  intros W. destruct (analyse_total doc W) as [a A].
  destruct (well_shaped_nodes doc W) as [fields [l [-> [N Wl]]]].
  destruct (analyse_inv _ _ A) as [fields' [E [_ [_ [I _]]]]].
  apply (f_equal (fun j => match j with JObj d => d | _ => [] end)) in E.
  cbn in E. subst fields'. rewrite N in I. cbn in I. apply ok_inj in I.
  assert (S : exists d, size_reducer (JObj fields) (nodes a) = Ok d).
  { unfold size_reducer. destruct (12000 <? estimated_tokens (JObj fields)); [|eauto].
    unfold simplify_workflow. rewrite simplify_nodes_total.
    - cbn [bind]. eauto.
    - rewrite <- I. apply (forallb_impl _ _ l well_shaped_reducible Wl). }
  destruct S as [d S]. exists a, d.
  pose proof (size_reducer_nodes _ _ _ A (well_shaped_array _ W) S) as G.
  eexists. split; [exact A|]. split; [exact S|].
  apply (super_simplify_array _ _ _ G).
Qed.

(** X12: when the API fails on every request, the example script still
    completes and reports success: for a workflow file that exists and
    holds a document of the data model, with a credential set, it prints
    "Summary generated successfully!" and "Output saved to:
    example_workflow_summary.md" although no file is written; what it
    previews as the summary is the text "Error with fallback model: ..."
    that [summarize_workflow] returned. *)
Theorem main_reports_soft_failure (w : world) (path_exists : string -> bool)
    (doc : json) (key : string) :
  credential w key ->
  path_exists example_path = true ->
  load_workflow w example_path = Ok doc ->
  well_shaped doc = true ->
  api_always_fails w ->
  exists printed trace e,
    main w path_exists = (Completed, printed, trace) /\
    summarize_workflow w example_path "gpt-4o"
    = (Returned ("Error with fallback model: " ++ e)%string, trace) /\
    file_writes trace = [] /\
    List.length (api_calls trace) = 2%nat /\
    In (Print (nl ++ "Summary generated successfully!")%string) printed /\
    In (Print "Output saved to: example_workflow_summary.md") printed /\
    In (Print (preview ("Error with fallback model: " ++ e)%string)) printed.
Proof.
  intros K PE L W F.
  destruct (pipeline_total doc W) as [a [d [payload [A [S SS]]]]].
  destruct (F (primary_call w key "gpt-4o" a d)) as [e1 E1].
  destruct (F (fallback_call w key a payload)) as [e2 E2].
  assert (R : summarize_workflow w example_path "gpt-4o"
              = (Returned ("Error with fallback model: " ++ e2)%string,
                 [ApiCall (primary_call w key "gpt-4o" a d);
                  ApiCall (fallback_call w key a payload)])).
  { destruct K as [K NE].
    rewrite (summarize_loaded _ _ _ _ _ L A), (complete_with_key _ _ _ _ _ _ _ K NE S).
    rewrite (attempt_api_error _ _ _ _ E1).
    change (negb (String.eqb "gpt-4o" fallback_model)) with true. cbv iota.
    rewrite SS, (attempt_api_error _ _ _ _ E2). reflexivity. }
  rewrite (main_with_key _ _ _ K), PE. cbn [negb]. rewrite R.
  eexists; eexists; exists e2. split; [reflexivity|]. split; [reflexivity|].
  split; [reflexivity|]. split; [reflexivity|].
  split; [right; left; reflexivity|].
  split; [right; right; left; reflexivity|].
  do 5 right. left. reflexivity.
Qed.

(** The small workflow with the API down. *)
Lemma main_reports_soft_failure_witness :
  exists printed trace e,
    main down_world (fun _ => true) = (Completed, printed, trace) /\
    file_writes trace = [] /\
    In (Print "Output saved to: example_workflow_summary.md") printed /\
    In (Print (preview ("Error with fallback model: " ++ e)%string)) printed.
Proof.
  destruct (main_reports_soft_failure down_world (fun _ => true) small_doc "sk-test")
    as [printed [trace [e [M [_ [W [_ [_ [P1 P2]]]]]]]]].
  - split; [reflexivity | discriminate].
  - reflexivity.
  - reflexivity.
  - reflexivity.
  - intros r. exists "Connection error.". reflexivity.
  - exists printed, trace, e. auto.
Defined.

(** ** What the fallback payload says about the workflow *)

(** X13: the fallback payload has the four entries name, node_count,
    node_types and nodes.  Its node_count and node_types describe the
    whole workflow (the counts of node_types add up to node_count), while
    its nodes are at most the first 20: beyond 20 nodes the payload holds
    fewer nodes than it announces. *)
Theorem payload_metadata (doc : json) (a : analysis) (d payload : json) :
  analyse doc = Ok a ->
  nodes_is_array doc = true ->
  size_reducer doc (nodes a) = Ok d ->
  super_simplify a d = Ok payload ->
  (exists held,
     payload = JObj [("name", workflow_title a);
                     ("node_count", JInt (Z.of_nat (List.length (nodes a))));
                     ("node_types", json_of_node_types (node_types a));
                     ("nodes", JArr held)] /\
     List.length held = Nat.min 20 (List.length (nodes a))) /\
  total (node_types a) = Z.of_nat (List.length (nodes a)) /\
  List.length (payload_nodes payload) = Nat.min 20 (List.length (nodes a)) /\
  ((20 < List.length (nodes a))%nat ->
   (List.length (payload_nodes payload) < List.length (nodes a))%nat).
Proof.
  intros A N S SS.
  pose proof (size_reducer_nodes _ _ _ A N S) as G.
  rewrite (super_simplify_array _ _ _ G) in SS. apply ok_inj in SS. subst payload.
  rewrite (node_count_length _ _ A).
  set (held := firstn 20 (if 12000 <? estimated_tokens doc
                         then map reduced_node (nodes a) else nodes a)).
  assert (Lh : List.length held = Nat.min 20 (List.length (nodes a))).
  { unfold held. rewrite length_firstn.
    destruct (12000 <? estimated_tokens doc); [now rewrite length_map | reflexivity]. }
  split; [exists held; split; [reflexivity | exact Lh]|].
  destruct (analyse_inv _ _ A) as [fields [_ [_ [_ [_ [C _]]]]]].
  destruct (count_node_types_invariant _ _ _ C (NoDup_nil _) (Forall_nil _))
    as [_ [_ [_ [_ T]]]].
  split; [exact T|]. rewrite payload_nodes_built, Lh. split; [reflexivity | lia].
Qed.

Lemma payload_metadata_witness :
  List.length (payload_nodes small_payload) = Nat.min 20 (List.length (nodes small_analysis)).
Proof.
  destruct (payload_metadata small_doc small_analysis small_doc small_payload)
    as [_ [_ [L _]]].
  - vm_compute. reflexivity.
  - reflexivity.
  - vm_compute. reflexivity.
  - vm_compute. reflexivity.
  - exact L.
Defined.

(** ** Letter case *)





(** ** Analysing a workflow in two parts *)

Lemma count_node_types_app l1 l2 : forall h,
  count_node_types (l1 ++ l2) h
  = (h1 <- count_node_types l1 h ;; count_node_types l2 h1).
Proof.
  induction l1 as [|n l1 IH]; intros h; [reflexivity|].
  cbn [app count_node_types].
  destruct (py_get n "type" (JStr "unknown")) as [[| | | |t| |]|e]; cbn [bind];
    try reflexivity.
  apply IH.
Qed.

Lemma extract_prompts_app l1 l2 : forall users systems,
  extract_prompts (l1 ++ l2) users systems
  = (prompts <- extract_prompts l1 users systems ;;
     extract_prompts l2 (fst prompts) (snd prompts)).
Proof.
  induction l1 as [|n l1 IH]; intros users systems; [reflexivity|].
  cbn [app extract_prompts].
  destruct (is_prompt_node n) as [[|]|e]; cbn [bind]; try reflexivity; [|apply IH].
  destruct (py_get n "parameters" (JObj [])) as [parameters|e]; cbn [bind];
    [|reflexivity].
  destruct (py_get parameters "systemPrompt" (JStr "")) as [sp|e]; cbn [bind];
    [|reflexivity].
  destruct (py_get parameters "text" (JStr "")) as [up|e]; cbn [bind]; [|reflexivity].
  destruct (is_long_prompt sp) as [ks|e]; cbn [bind]; [|reflexivity].
  destruct (is_long_prompt up) as [ku|e]; cbn [bind]; [|reflexivity].
  apply IH.
Qed.

Lemma fold_classified_app (cond : string -> bool) (l1 l2 : list json) :
  fold_right (fun node acc =>
                (match classified_type node with
                 | Some t => if cond t then 1 else 0
                 | None => 0
                 end) + acc) 0 (l1 ++ l2)
  = fold_right (fun node acc =>
                  (match classified_type node with
                   | Some t => if cond t then 1 else 0
                   | None => 0
                   end) + acc) 0 l1
    + fold_right (fun node acc =>
                    (match classified_type node with
                     | Some t => if cond t then 1 else 0
                     | None => 0
                     end) + acc) 0 l2.
Proof. induction l1 as [|n l1 IH]; simpl; [reflexivity | rewrite IH; lia]. Qed.

Lemma occurrences_app t l1 l2 :
  occurrences t (l1 ++ l2) = occurrences t l1 + occurrences t l2.
Proof. induction l1 as [|n l1 IH]; simpl; [reflexivity | rewrite IH; lia]. Qed.

(** X15: the analysis of a node list composes over concatenation.  The
    histogram of [l1 ++ l2] is the histogram loop run on [l2] from the
    histogram of [l1], and likewise for the prompts; so every bucket count,
    the AI count and the database count of the whole are the sums of those
    of the two parts, and the prompts of the whole are those of [l1]
    followed by those of [l2]. *)
Theorem analysis_composes (l1 l2 : list json) :
  count_node_types (l1 ++ l2) []
  = (h1 <- count_node_types l1 [] ;; count_node_types l2 h1) /\
  extract_prompts (l1 ++ l2) [] []
  = (prompts <- extract_prompts l1 [] [] ;;
     extract_prompts l2 (fst prompts) (snd prompts)) /\
  (forall h1 h2 h,
     count_node_types l1 [] = Ok h1 ->
     count_node_types l2 [] = Ok h2 ->
     count_node_types (l1 ++ l2) [] = Ok h ->
     (forall t, dict_get_default t h 0
                = dict_get_default t h1 0 + dict_get_default t h2 0) /\
     count_ai_nodes h = count_ai_nodes h1 + count_ai_nodes h2 /\
     count_db_nodes h = count_db_nodes h1 + count_db_nodes h2) /\
  (forall u1 s1 u2 s2 u s,
     extract_prompts l1 [] [] = Ok (u1, s1) ->
     extract_prompts l2 [] [] = Ok (u2, s2) ->
     extract_prompts (l1 ++ l2) [] [] = Ok (u, s) ->
     u = u1 ++ u2 /\ s = s1 ++ s2).
Proof.
  split; [apply count_node_types_app|]. split; [apply extract_prompts_app|]. split.
  - intros h1 h2 h H1 H2 H.
    destruct (count_node_types_invariant _ _ _ H1 (NoDup_nil _) (Forall_nil _))
      as [_ [_ [_ [O1 _]]]].
    destruct (count_node_types_invariant _ _ _ H2 (NoDup_nil _) (Forall_nil _))
      as [_ [_ [_ [O2 _]]]].
    destruct (count_node_types_invariant _ _ _ H (NoDup_nil _) (Forall_nil _))
      as [_ [_ [_ [O _]]]].
    split; [intros t; rewrite O, O1, O2, occurrences_app; cbn; lia|].
    unfold count_ai_nodes, count_db_nodes.
    rewrite (count_node_types_sum is_ai_type _ _ _ H),
            (count_node_types_sum is_ai_type _ _ _ H1),
            (count_node_types_sum is_ai_type _ _ _ H2),
            (count_node_types_sum is_db_type _ _ _ H),
            (count_node_types_sum is_db_type _ _ _ H1),
            (count_node_types_sum is_db_type _ _ _ H2),
            !fold_classified_app, !sum_counts_nil.
    split; lia.
  - intros u1 s1 u2 s2 u s H1 H2 H.
    apply extract_prompts_spec in H1, H2, H. cbn [app] in *.
    destruct H1 as [-> ->], H2 as [-> ->], H as [-> ->].
    unfold collected. now rewrite !filter_app, !flat_map_app.
Qed.

Lemma analysis_composes_witness :
  dict_get_default "openAiAgent" (node_types small_analysis) 0
  = dict_get_default "openAiAgent"
      [("n8n-nodes-base.httpRequest", 1); ("openAiAgent", 1)] 0
    + dict_get_default "openAiAgent"
        [("n8n-nodes-base.mySql", 1); ("openAiAgent", 1)] 0.
Proof.
  destruct (analysis_composes [http_node; agent_node] [mysql_node; agent_node])
    as [_ [_ [C _]]].
  destruct (C [("n8n-nodes-base.httpRequest", 1); ("openAiAgent", 1)]
              [("n8n-nodes-base.mySql", 1); ("openAiAgent", 1)]
              (node_types small_analysis)) as [G _].
  - vm_compute. reflexivity.
  - vm_compute. reflexivity.
  - vm_compute. reflexivity.
  - apply G.
Defined.
